(** * AllenBreak: fingerprint time clock

    A shallow embedding of the decision logic of
    [scripts/backend/fingerprint-service.js] (classes [FingerprintService]
    and [FirebaseService]) and of the [FingerprintController] class, with
    the properties of the template matcher, the enrollment and
    identification workflows and the attendance toggle.

    Conventions of the embedding:
    - a JavaScript [Number] is an IEEE 754 binary64 value, here a
      [spec_float] with precision 53 and maximal exponent 1024;
    - a JavaScript string is a [string]; the payloads handled here are
      base64 text, messages are kept in their UTF-8 bytes;
    - an [async] method is a computation over an explicit [World] that either
      returns a value or throws an [Erro];
    - [console.log] and [console.error] have no counterpart. *)

From Stdlib Require Import ZArith List String Ascii Bool Lia.
From Stdlib Require Import Sorting.Sorted Sorting.Permutation.
From Stdlib Require Import Floats.SpecFloat.
Import ListNotations.

Local Open Scope string_scope.
Local Open Scope Z_scope.

(** ** JavaScript numbers *)

Module JSNumber.

Definition prec : Z := 53.
Definition emax : Z := 1024.

Definition Number : Type := spec_float.

(** The [Number] holding an integer.  Integers below [2^53] in absolute
    value are represented exactly. *)
Definition ofZ (z : Z) : Number := binary_normalize prec emax z 0 false.

Definition NaN : Number := S754_nan.

Definition div (x y : Number) : Number := SFdiv prec emax x y.
Definition mul (x y : Number) : Number := SFmul prec emax x y.

(** [x > y], [x <= y] and [x == y] on numbers; all three are false when an
    operand is [NaN]. *)
Definition gt (x y : Number) : bool := SFltb y x.
Definition le (x y : Number) : bool := SFleb x y.
Definition eq (x y : Number) : bool := SFeqb x y.

End JSNumber.

(** ** Errors and results *)

(** A thrown JavaScript error object; the code reads only [error.message]. *)
Record Erro := { erro_name : string; message : string }.

Definition Error (msg : string) : Erro :=
  {| erro_name := "Error"; message := msg |}.

(** The [DOMException] raised by [atob] on text that is not base64. *)
Definition InvalidCharacterError : Erro :=
  {| erro_name := "InvalidCharacterError";
     message := "The string to be decoded is not correctly encoded." |}.

(** Outcome of a call: a returned value or a thrown error. *)
Inductive Result (A : Type) : Type :=
| Return (a : A)
| Throw (e : Erro).
Arguments Return {A} a.
Arguments Throw {A} e.

Definition bindR {A B} (r : Result A) (k : A -> Result B) : Result B :=
  match r with
  | Return a => k a
  | Throw e => Throw e
  end.

Definition mapR {A B} (f : A -> B) (r : Result A) : Result B :=
  bindR r (fun a => Return (f a)).

(** ** Browser built-ins used by the services *)

Module Browser.

(** [atob]: the forgiving-base64 decode of the HTML standard.  [None]
    stands for the [InvalidCharacterError] exception. *)

Definition isAsciiWhitespace (c : ascii) : bool :=
  match N_of_ascii c with
  | 9%N | 10%N | 12%N | 13%N | 32%N => true
  | _ => false
  end.

(** Position of a character in the base64 alphabet [A-Za-z0-9+/]. *)
Definition base64Index (c : ascii) : option Z :=
  let n := Z.of_N (N_of_ascii c) in
  if (65 <=? n) && (n <=? 90) then Some (n - 65)
  else if (97 <=? n) && (n <=? 122) then Some (n - 71)
  else if (48 <=? n) && (n <=? 57) then Some (n + 4)
  else if n =? 43 then Some 62
  else if n =? 47 then Some 63
  else None.

(** When the length is a multiple of four, one or two trailing [=] are
    dropped. *)
Definition stripPadding (l : list ascii) : list ascii :=
  if (Z.of_nat (List.length l) mod 4 =? 0) then
    match rev l with
    | "="%char :: "="%char :: r => rev r
    | "="%char :: r => rev r
    | _ => l
    end
  else l.

Fixpoint sextets (l : list ascii) : option (list Z) :=
  match l with
  | [] => Some []
  | c :: r =>
      match base64Index c, sextets r with
      | Some i, Some r' => Some (i :: r')
      | _, _ => None
      end
  end.

Definition byteChar (z : Z) : ascii := ascii_of_N (Z.to_N (z mod 256)).

(** Four sextets give three bytes; a rest of three sextets gives two bytes
    (the last two bits are dropped), a rest of two gives one byte (the last
    four bits are dropped). *)
Fixpoint decodeSextets (l : list Z) : list ascii :=
  match l with
  | a :: b :: c :: d :: r =>
      let n := a * 262144 + b * 4096 + c * 64 + d in
      byteChar (n / 65536) :: byteChar (n / 256) :: byteChar n
        :: decodeSextets r
  | [a; b; c] =>
      let n := (a * 4096 + b * 64 + c) / 4 in
      [byteChar (n / 256); byteChar n]
  | [a; b] =>
      let n := (a * 64 + b) / 16 in
      [byteChar n]
  | _ => []
  end.

Definition atob (data : string) : option string :=
  let l := filter (fun c => negb (isAsciiWhitespace c))
                  (list_ascii_of_string data) in
  let l := stripPadding l in
  if Z.of_nat (List.length l) mod 4 =? 1 then None
  else
    match sextets l with
    | Some l' => Some (string_of_list_ascii (decodeSextets l'))
    | None => None
    end.

(** [String.prototype.charCodeAt] on a character of a binary string. *)
Definition charCodeAt (c : ascii) : Z := Z.of_N (N_of_ascii c).

End Browser.

(** [DOMTokenList]: the class names of an element, an ordered set of
    tokens. *)
Module DOMTokenList.

Definition contains (token : string) (l : list string) : bool :=
  existsb (String.eqb token) l.

(** [classList.remove(t1, t2, ...)] *)
Definition remove (tokens : list string) (l : list string) : list string :=
  filter (fun c => negb (contains c tokens)) l.

(** [classList.add(token)] *)
Definition add (token : string) (l : list string) : list string :=
  if contains token l then l else (l ++ [token])%list.

End DOMTokenList.

(** An element of the page, as far as the controller touches it. *)
Record Elemento := {
  textContent : string;
  classList : list string
}.

(** ** Templates and match results *)

(** The template object built by [captureFingerprint]; the controller also
    builds templates without a [data] field. *)
Record Template := {
  format : string;
  data : option string;
  raw : string
}.

Record MatchResult := {
  matched : bool;
  score : JSNumber.Number
}.

(** ** The world the asynchronous methods run in *)

(** Identifier of a Firestore document. *)
Definition DocId : Type := nat.

(** The sentinel [firebase.firestore.FieldValue.serverTimestamp()]. *)
Inductive FieldValue : Type := serverTimestamp.

(** A document of the collection [funcionarios], with its identifier.  A
    stored document may lack the [digital] field. *)
Record Digital := {
  formato : string;
  dados : string;
  digital_dataCadastro : FieldValue
}.

Record Funcionario := {
  f_id : DocId;
  f_nome : string;
  f_cargo : string;
  f_departamento : string;
  f_email : string;
  f_digital : option Digital;
  f_dataCadastro : FieldValue;
  f_ativo : bool
}.

(** The profile typed in by the operator ([dadosFuncionario]). *)
Record DadosFuncionario := {
  nome : string;
  cargo : string;
  departamento : string;
  email : string
}.

(** A document of the collection [registros].  [horario] is a [Date], in
    milliseconds since the epoch. *)
Record Registro := {
  r_id : DocId;
  r_funcionarioId : DocId;
  r_nome : string;
  r_tipo : string;
  r_horario : Z;
  r_data : string;
  r_timestamp : FieldValue
}.

(** [window.sampleAcquired]: the page's own handler, or the wrapper that a
    capture installed around the handler it found. *)
Inductive Handler : Type :=
| paginaSampleAcquired
| capturaSampleAcquired (promessa : nat) (originalSampleAcquired : Handler).

(** State of the promise returned by [captureFingerprint]. *)
Inductive Promessa : Type :=
| Pendente
| Resolvida (template : Template)
| Rejeitada (error : Erro).

(** A sample delivered by the reader: [imagem] is what the page's own
    [sampleAcquired] leaves under [imageSrc] in [localStorage] (empty when it
    stores nothing), [amostra] is [JSON.parse(s.samples)[0]]. *)
Record Amostra := {
  imagem : string;
  amostra : string
}.

(** What happens around the program while it awaits a capture. *)
Inductive EvAmbiente : Type :=
| ChegaAmostra (s : Amostra)
| ExpiraTemporizador.

Inductive Colecao : Type := Funcionarios | Registros.

(** Observable trace: user interface updates, dispatched DOM events, calls
    into the reader SDK, Firestore round trips, and (as ghost events) the
    template comparisons asked for by the controller. *)
Inductive Evento : Type :=
| StatusLine (mensagem tipo : string)
| Scanning (ligado : bool)
| FingerprintStatus (mensagem : string)
| FingerprintCaptured (template : Template)
| StartCapture
| StopCapture
| StoreGet (c : Colecao)
| StoreAdd (c : Colecao)
| Comparacao (template1 template2 : Template).

(** The browser window. *)
Record Janela := {
  localStorage : list (string * string);
  sampleAcquired : Handler;
  promessas : list Promessa;
  temporizadores : list (nat * Handler)
}.

(** The Firestore database. *)
Record Firestore := {
  funcionarios : list Funcionario;
  registros : list Registro;
  proximoId : DocId
}.

(** The environment: outcome of the coming SDK [startCapture] calls and
    Firestore round trips ([Some msg] fails with that message, no entry
    means success), coming readings of the system clock, offset of local
    time from UTC in milliseconds, and coming reader and timer events. *)
Record Ambiente := {
  falhasSdk : list (option string);
  falhasStore : list (option string);
  relogio : list Z;
  ultimaLeitura : Z;
  fuso : Z;
  eventos : list EvAmbiente
}.

Record World := {
  janela : Janela;
  db : Firestore;
  ambiente : Ambiente;
  historico : list Evento
}.

Definition comJanela (f : Janela -> Janela) (w : World) : World :=
  {| janela := f (janela w); db := db w; ambiente := ambiente w;
     historico := historico w |}.

Definition comDb (f : Firestore -> Firestore) (w : World) : World :=
  {| janela := janela w; db := f (db w); ambiente := ambiente w;
     historico := historico w |}.

Definition comAmbiente (f : Ambiente -> Ambiente) (w : World) : World :=
  {| janela := janela w; db := db w; ambiente := f (ambiente w);
     historico := historico w |}.

(** Events are appended in the order they happen. *)
Definition registrar (ev : Evento) (w : World) : World :=
  {| janela := janela w; db := db w; ambiente := ambiente w;
     historico := historico w ++ [ev] |}.

(** *** The monad of asynchronous methods *)

Definition M (A : Type) : Type := World -> Result A * World.

Definition ret {A} (a : A) : M A := fun w => (Return a, w).

Definition throw {A} (e : Erro) : M A := fun w => (Throw e, w).

Definition bind {A B} (m : M A) (k : A -> M B) : M B :=
  fun w =>
    match m w with
    | (Return a, w') => k a w'
    | (Throw e, w') => (Throw e, w')
    end.

(** [try { m } catch (error) { h error }] *)
Definition tryCatch {A} (m : M A) (h : Erro -> M A) : M A :=
  fun w =>
    match m w with
    | (Return a, w') => (Return a, w')
    | (Throw e, w') => h e w'
    end.

(** [try { m } finally { f }], for a [finally] block that does not throw. *)
Definition tryFinally {A} (m : M A) (f : World -> World) : M A :=
  fun w => let (r, w') := m w in (r, f w').

(** A synchronous call that may throw. *)
Definition lift {A} (r : Result A) : M A := fun w => (r, w).

(** A statement that only changes the world. *)
Definition efeito (f : World -> World) : M unit := fun w => (Return tt, f w).

Declare Scope js_scope.
Delimit Scope js_scope with js.
Notation "x <- m ;; k" := (bind m (fun x => k))
  (at level 100, m at next level, right associativity) : js_scope.
Notation "m ;;; k" := (bind m (fun _ => k))
  (at level 100, right associativity) : js_scope.
Local Open Scope js_scope.

(** [new Date()]: the next reading of the system clock. *)
Definition newDate : M Z :=
  fun w =>
    match relogio (ambiente w) with
    | t :: r =>
        (Return t,
         comAmbiente (fun a =>
           {| falhasSdk := falhasSdk a; falhasStore := falhasStore a;
              relogio := r; ultimaLeitura := t; fuso := fuso a;
              eventos := eventos a |}) w)
    | [] => (Return (ultimaLeitura (ambiente w)), w)
    end.

(** *** Local dates *)

Module LocalDate.

Definition msPorDia : Z := 86400000.

(** [new Date(d.getFullYear(), d.getMonth(), d.getDate(), 0, 0, 0)]: local
    midnight of the day of [t], for a fixed offset [fuso] of local time. *)
Definition inicioDoDia (fuso t : Z) : Z := t - (t + fuso) mod msPorDia.

(** Civil date of a day number counted from 1970-01-01. *)
Definition civil (dias : Z) : Z * Z * Z :=
  let z := dias + 719468 in
  let era := z / 146097 in
  let doe := z - era * 146097 in
  let yoe := (doe - doe / 1460 + doe / 36524 - doe / 146096) / 365 in
  let doy := doe - (365 * yoe + yoe / 4 - yoe / 100) in
  let mp := (5 * doy + 2) / 153 in
  let d := doy - (153 * mp + 2) / 5 + 1 in
  let m := if mp <? 10 then mp + 3 else mp - 9 in
  let y := yoe + era * 400 + (if m <=? 2 then 1 else 0) in
  (y, m, d).

Fixpoint digitos (fuel : nat) (n : Z) (acc : string) : string :=
  match fuel with
  | O => acc
  | S fuel' =>
      let acc' := String (ascii_of_N (Z.to_N (48 + n mod 10))) acc in
      if n / 10 =? 0 then acc' else digitos fuel' (n / 10) acc'
  end.

Definition decimal (n : Z) : string := digitos 20 n "".

Definition doisDigitos (n : Z) : string :=
  if n <? 10 then "0" ++ decimal n else decimal n.

(** [d.toLocaleDateString('pt-BR')]: day/month/year. *)
Definition toLocaleDateString (fuso t : Z) : string :=
  let '(y, m, d) := civil ((t + fuso) / msPorDia) in
  doisDigitos d ++ "/" ++ doisDigitos m ++ "/" ++ decimal y.

End LocalDate.

(** ** FingerprintService *)

Module FingerprintService.
Import JSNumber.

(** *** The template matcher *)

(** A [Uint8Array] is a list of integers in [0, 255]. *)
Definition Uint8Array : Type := list Z.

Definition base64ToArrayBuffer (base64 : string) : Result Uint8Array :=
  match Browser.atob base64 with
  | Some binaryString =>
      Return (map (fun c => Browser.charCodeAt c mod 256)
                  (list_ascii_of_string binaryString))
  | None => Throw InvalidCharacterError
  end.

(** The [for] loop of [compareFingerprints]: [i] is the loop index,
    [restantes] the number of iterations still to run
    ([minLength - i]) and [matchingBytes] the counter. *)
Fixpoint contarCorrespondentes (bytes1 bytes2 : Uint8Array)
         (i restantes : nat) (matchingBytes : Z) : Z :=
  match restantes with
  | O => matchingBytes
  | S restantes' =>
      let matchingBytes' :=
        if Z.abs (nth i bytes1 0 - nth i bytes2 0) <=? 5
        then matchingBytes + 1 else matchingBytes in
      contarCorrespondentes bytes1 bytes2 (S i) restantes' matchingBytes'
  end.

(** [compareFingerprints(template1, template2)].  An argument that is
    [null] or [undefined] is [None].  The counter and the length are
    integers below [2^53], which a [Number] holds exactly; the quotient and
    the product are binary64 operations. *)
Definition compareFingerprints (template1 template2 : option Template)
  : Result MatchResult :=
  match template1, template2 with
  | Some template1, Some template2 =>
      if String.eqb (raw template1) (raw template2) then
        Return {| matched := true; score := ofZ 100 |}
      else
        bindR (base64ToArrayBuffer (raw template1)) (fun bytes1 =>
        bindR (base64ToArrayBuffer (raw template2)) (fun bytes2 =>
          let minLength := Nat.min (List.length bytes1) (List.length bytes2) in
          let matchingBytes :=
            contarCorrespondentes bytes1 bytes2 0 minLength 0 in
          let score :=
            mul (div (ofZ matchingBytes) (ofZ (Z.of_nat minLength)))
                (ofZ 100) in
          Return {| matched := gt score (ofZ 70); score := score |}))
  | _, _ => Return {| matched := false; score := ofZ 0 |}
  end.

(** *** Capture *)

Definition setItem (k v : string) (l : list (string * string))
  : list (string * string) :=
  (k, v) :: filter (fun p => negb (String.eqb (fst p) k)) l.

Definition getItem (k : string) (l : list (string * string))
  : option string :=
  option_map snd (find (fun p => String.eqb (fst p) k) l).

Definition localStorage_setItem (k v : string) : World -> World :=
  comJanela (fun j =>
    {| localStorage := setItem k v (localStorage j);
       sampleAcquired := sampleAcquired j;
       promessas := promessas j;
       temporizadores := temporizadores j |}).

(** [window.sampleAcquired = h] *)
Definition set_sampleAcquired (h : Handler) : World -> World :=
  comJanela (fun j =>
    {| localStorage := localStorage j;
       sampleAcquired := h;
       promessas := promessas j;
       temporizadores := temporizadores j |}).

Definition estado (promessa : nat) (w : World) : Promessa :=
  nth promessa (promessas (janela w)) Pendente.

Fixpoint substituir {A} (n : nat) (x : A) (l : list A) : list A :=
  match l, n with
  | [], _ => []
  | _ :: r, O => x :: r
  | y :: r, S n' => y :: substituir n' x r
  end.

(** [resolve] and [reject] settle a promise once; later calls are
    ignored. *)
Definition liquidar (promessa : nat) (p : Promessa) (w : World) : World :=
  match estado promessa w with
  | Pendente =>
      comJanela (fun j =>
        {| localStorage := localStorage j;
           sampleAcquired := sampleAcquired j;
           promessas := substituir promessa p (promessas j);
           temporizadores := temporizadores j |}) w
  | _ => w
  end.

Definition resolve (promessa : nat) (template : Template) : World -> World :=
  liquidar promessa (Resolvida template).

Definition reject (promessa : nat) (error : Erro) : World -> World :=
  liquidar promessa (Rejeitada error).

(** [new Promise(...)]: a fresh pending promise. *)
Definition novaPromessa (w : World) : nat * World :=
  (List.length (promessas (janela w)),
   comJanela (fun j =>
     {| localStorage := localStorage j;
        sampleAcquired := sampleAcquired j;
        promessas := promessas j ++ [Pendente];
        temporizadores := temporizadores j |}) w).

(** [setTimeout(..., 15000)] of a capture: the callback is identified by
    the promise it rejects and the handler it restores. *)
Definition setTimeout (promessa : nat) (originalSampleAcquired : Handler)
  : World -> World :=
  comJanela (fun j =>
    {| localStorage := localStorage j;
       sampleAcquired := sampleAcquired j;
       promessas := promessas j;
       temporizadores :=
         temporizadores j ++ [(promessa, originalSampleAcquired)] |}).

(** [this.fingerprintSdk.startCapture()]; it throws when the environment
    says so. *)
Definition startCapture : M unit :=
  fun w =>
    let w := registrar StartCapture w in
    match falhasSdk (ambiente w) with
    | o :: r =>
        let w' := comAmbiente (fun a =>
          {| falhasSdk := r; falhasStore := falhasStore a;
             relogio := relogio a; ultimaLeitura := ultimaLeitura a;
             fuso := fuso a; eventos := eventos a |}) w in
        match o with
        | Some msg => (Throw (Error msg), w')
        | None => (Return tt, w')
        end
    | [] => (Return tt, w)
    end.

(** [this.fingerprintSdk.stopCapture()] *)
Definition stopCapture : World -> World := registrar StopCapture.

(** [notifyStatusChange(message)] dispatches [fingerprintStatus]; the
    listener of the controller shows the message with the default type. *)
Definition notifyStatusChange (message : string) (w : World) : World :=
  registrar (StatusLine message "info")
    (registrar (FingerprintStatus message) w).

(** The event [fingerprintCaptured]; its listener removes the [scanning]
    class. *)
Definition dispatchFingerprintCaptured (template : Template) (w : World)
  : World :=
  registrar (Scanning false) (registrar (FingerprintCaptured template) w).

Definition truthy (o : option string) : bool :=
  match o with
  | Some s => negb (String.eqb s "")
  | None => false
  end.

(** A call [h(s)] of a sample handler.  The wrapper installed by a capture
    first calls the handler it replaced, then, when an image was stored,
    builds the template, stops the capture, resolves its promise and puts
    the replaced handler back. *)
Fixpoint chamar (h : Handler) (s : Amostra) (w : World) : World :=
  match h with
  | paginaSampleAcquired => localStorage_setItem "imageSrc" (imagem s) w
  | capturaSampleAcquired promessa originalSampleAcquired =>
      let w := chamar originalSampleAcquired s w in
      let imageSrc := getItem "imageSrc" (localStorage (janela w)) in
      if truthy imageSrc then
        let template :=
          {| format := "PNG"; data := imageSrc; raw := amostra s |} in
        let w := dispatchFingerprintCaptured template w in
        let w := stopCapture w in
        let w := resolve promessa template w in
        set_sampleAcquired originalSampleAcquired w
      else w
  end.

(** The callback given to [setTimeout]. *)
Definition expirar (promessa : nat) (originalSampleAcquired : Handler)
           (w : World) : World :=
  let w := set_sampleAcquired originalSampleAcquired w in
  let w := stopCapture w in
  reject promessa (Error "Tempo esgotado para captura da digital") w.

(** The body of the promise built by [captureFingerprint()]; the result is
    the promise. *)
Definition captureFingerprint (w : World) : nat * World :=
  let (promessa, w) := novaPromessa w in
  let w := localStorage_setItem "imageSrc" "" w in
  let w := localStorage_setItem "raw" "" w in
  let w := localStorage_setItem "wsq" "" w in
  let w := localStorage_setItem "intermediate" "" w in
  let originalSampleAcquired := sampleAcquired (janela w) in
  let w :=
    set_sampleAcquired
      (capturaSampleAcquired promessa originalSampleAcquired) w in
  let w := notifyStatusChange "Posicione seu dedo no leitor..." w in
  match startCapture w with
  | (Return _, w) => (promessa, setTimeout promessa originalSampleAcquired w)
  | (Throw error, w) =>
      let w := set_sampleAcquired originalSampleAcquired w in
      (promessa, reject promessa error w)
  end.

(** *** Awaiting a capture *)

Definition set_temporizadores (ts : list (nat * Handler)) : World -> World :=
  comJanela (fun j =>
    {| localStorage := localStorage j;
       sampleAcquired := sampleAcquired j;
       promessas := promessas j;
       temporizadores := ts |}).

Definition set_eventos (evs : list EvAmbiente) : World -> World :=
  comAmbiente (fun a =>
    {| falhasSdk := falhasSdk a; falhasStore := falhasStore a;
       relogio := relogio a; ultimaLeitura := ultimaLeitura a;
       fuso := fuso a; eventos := evs |}).

(** The environment delivers a sample to [window.sampleAcquired], or lets
    the oldest pending timer expire. *)
Definition entregar (ev : EvAmbiente) (w : World) : World :=
  match ev with
  | ChegaAmostra s => chamar (sampleAcquired (janela w)) s w
  | ExpiraTemporizador =>
      match temporizadores (janela w) with
      | (promessa, original) :: ts =>
          expirar promessa original (set_temporizadores ts w)
      | [] => w
      end
  end.

(** Events are delivered until the promise is settled. *)
Fixpoint aguardar (evs : list EvAmbiente) (promessa : nat) (w : World)
  : World :=
  match estado promessa w, evs with
  | Pendente, ev :: evs' => aguardar evs' promessa (entregar ev w)
  | _, _ => set_eventos evs w
  end.

(** With no event left every pending timer expires, oldest first. *)
Definition esgotar (w : World) : World :=
  fold_left (fun w _ => entregar ExpiraTemporizador w)
            (temporizadores (janela w)) w.

(** [await promessa] *)
Definition await (promessa : nat) : M Template :=
  fun w =>
    let w := aguardar (eventos (ambiente w)) promessa w in
    let w := match estado promessa w with
             | Pendente => esgotar w
             | _ => w
             end in
    match estado promessa w with
    | Resolvida template => (Return template, w)
    | Rejeitada error => (Throw error, w)
    | Pendente =>
        (Throw (Error "Tempo esgotado para captura da digital"), w)
    end.

End FingerprintService.

(** ** FirebaseService *)

(** What [registrarPonto] returns. *)
Record Ponto := {
  p_id : DocId;
  p_tipo : string;
  p_horario : Z
}.

Module FirebaseService.

(** One round trip to Firestore ([get] or [add]): it is rejected when the
    environment says so. *)
Definition roundTrip (ev : Evento) : M unit :=
  fun w =>
    let w := registrar ev w in
    match falhasStore (ambiente w) with
    | o :: r =>
        let w' := comAmbiente (fun a =>
          {| falhasSdk := falhasSdk a; falhasStore := r;
             relogio := relogio a; ultimaLeitura := ultimaLeitura a;
             fuso := fuso a; eventos := eventos a |}) w in
        match o with
        | Some msg => (Throw (Error msg), w')
        | None => (Return tt, w')
        end
    | [] => (Return tt, w)
    end.

Definition temDigital (digitalRaw : string) (f : Funcionario) : bool :=
  match f_digital f with
  | Some d => String.eqb (dados d) digitalRaw
  | None => false
  end.

(** [collection('funcionarios').where('digital.dados', '==', digitalRaw)
    .where('ativo', '==', true).limit(1).get()] *)
Definition consultaDigitalExata (digitalRaw : string) : M (list Funcionario) :=
  roundTrip (StoreGet Funcionarios) ;;;
  fun w =>
    (Return (firstn 1 (filter (fun f => temDigital digitalRaw f && f_ativo f)
                              (funcionarios (db w)))), w).

Definition buscarFuncionarioPorDigitalExata (digitalRaw : string)
  : M (option Funcionario) :=
  tryCatch
    (snapshot <- consultaDigitalExata digitalRaw ;;
     match snapshot with
     | [] => ret None
     | doc :: _ => ret (Some doc)
     end)
    (fun error => throw error).

(** [collection('funcionarios').add({...})] *)
Definition addFuncionario (doc : DocId -> Funcionario) : M DocId :=
  roundTrip (StoreAdd Funcionarios) ;;;
  fun w =>
    let novo := proximoId (db w) in
    (Return novo,
     comDb (fun d =>
       {| funcionarios := funcionarios d ++ [doc novo];
          registros := registros d;
          proximoId := S novo |}) w).

Definition cadastrarFuncionario (funcionario : DadosFuncionario)
           (digitalTemplate : Template) : M DocId :=
  tryCatch
    (existente <- buscarFuncionarioPorDigitalExata (raw digitalTemplate) ;;
     match existente with
     | Some _ =>
         throw (Error
           "Já existe um funcionário cadastrado com esta impressão digital")
     | None =>
         addFuncionario (fun novo =>
           {| f_id := novo;
              f_nome := nome funcionario;
              f_cargo := cargo funcionario;
              f_departamento := departamento funcionario;
              f_email := email funcionario;
              f_digital :=
                Some {| formato := format digitalTemplate;
                        dados := raw digitalTemplate;
                        digital_dataCadastro := serverTimestamp |};
              f_dataCadastro := serverTimestamp;
              f_ativo := true |})
     end)
    (fun error => throw error).

(** [collection('funcionarios').where('ativo', '==', true).get()] *)
Definition buscarTodosFuncionariosAtivos : M (list Funcionario) :=
  tryCatch
    (roundTrip (StoreGet Funcionarios) ;;;
     fun w => (Return (filter f_ativo (funcionarios (db w))), w))
    (fun error => throw error).

(** [orderBy('horario', 'desc')]: insertion of a document into a list that
    is already in descending order of [horario]. *)
Fixpoint inserirDesc (r : Registro) (l : list Registro) : list Registro :=
  match l with
  | [] => [r]
  | x :: l' =>
      if r_horario x <? r_horario r then r :: x :: l'
      else x :: inserirDesc r l'
  end.

Definition orderByHorarioDesc (l : list Registro) : list Registro :=
  fold_right inserirDesc [] l.

(** [collection('registros').where('funcionarioId', '==', funcionarioId)
    .where('horario', '>=', inicioHoje).orderBy('horario', 'desc')
    .limit(1).get()] *)
Definition consultaUltimoRegistro (funcionarioId : DocId) (inicioHoje : Z)
  : M (list Registro) :=
  roundTrip (StoreGet Registros) ;;;
  fun w =>
    (Return
       (firstn 1
          (orderByHorarioDesc
             (filter (fun r => Nat.eqb (r_funcionarioId r) funcionarioId
                               && (inicioHoje <=? r_horario r))
                     (registros (db w))))), w).

Definition determinarTipoRegistro (funcionarioId : DocId) : M string :=
  tryCatch
    (hoje <- newDate ;;
     fun w =>
       let inicioHoje := LocalDate.inicioDoDia (fuso (ambiente w)) hoje in
       (snapshot <- consultaUltimoRegistro funcionarioId inicioHoje ;;
        match snapshot with
        | [] => ret "entrada"
        | ultimoRegistro :: _ =>
            ret (if String.eqb (r_tipo ultimoRegistro) "entrada"
                 then "saída" else "entrada")
        end) w)
    (fun error => ret "entrada").

(** [collection('registros').add({...})] *)
Definition addRegistro (doc : DocId -> Registro) : M DocId :=
  roundTrip (StoreAdd Registros) ;;;
  fun w =>
    let novo := proximoId (db w) in
    (Return novo,
     comDb (fun d =>
       {| funcionarios := funcionarios d;
          registros := registros d ++ [doc novo];
          proximoId := S novo |}) w).

(** [registrarPonto(funcionarioId, dadosFuncionario)]; of the second
    argument only [nome] is read. *)
Definition registrarPonto (funcionarioId : DocId) (nomeFuncionario : string)
  : M Ponto :=
  tryCatch
    (agora <- newDate ;;
     tipoRegistro <- determinarTipoRegistro funcionarioId ;;
     fun w =>
       (docRef <- addRegistro (fun novo =>
          {| r_id := novo;
             r_funcionarioId := funcionarioId;
             r_nome := nomeFuncionario;
             r_tipo := tipoRegistro;
             r_horario := agora;
             r_data := LocalDate.toLocaleDateString (fuso (ambiente w)) agora;
             r_timestamp := serverTimestamp |}) ;;
        ret {| p_id := docRef; p_tipo := tipoRegistro; p_horario := agora |})
       w)
    (fun error => throw error).

(** [orderBy('horario', 'asc')]: insertion of a document into a list that
    is already in ascending order of [horario]. *)
Fixpoint inserirAsc (r : Registro) (l : list Registro) : list Registro :=
  match l with
  | [] => [r]
  | x :: l' =>
      if r_horario x <? r_horario r then x :: inserirAsc r l'
      else r :: x :: l'
  end.

Definition orderByHorarioAsc (l : list Registro) : list Registro :=
  fold_right inserirAsc [] l.

(** [obterHistoricoRegistros(funcionarioId, dataInicio, dataFim)]: the
    query [where('funcionarioId', '==', funcionarioId)
    .where('horario', '>=', dataInicio).where('horario', '<=', dataFim)
    .orderBy('horario', 'asc').get()]. *)
Definition obterHistoricoRegistros (funcionarioId : DocId)
           (dataInicio dataFim : Z) : M (list Registro) :=
  tryCatch
    (roundTrip (StoreGet Registros) ;;;
     fun w =>
       (Return
          (orderByHorarioAsc
             (filter (fun r => Nat.eqb (r_funcionarioId r) funcionarioId
                               && (dataInicio <=? r_horario r)
                               && (r_horario r <=? dataFim))
                     (registros (db w)))), w))
    (fun error => throw error).

End FirebaseService.

(** ** FingerprintController *)

(** The objects returned by the controller; a field that the returned
    object does not have is [None]. *)
Record ResultadoCadastro := {
  rc_success : bool;
  rc_funcionarioId : option DocId;
  rc_mensagem : option string;
  rc_error : option string
}.

Record ResultadoVerificacao := {
  rv_success : bool;
  rv_funcionario : option Funcionario;
  rv_score : option JSNumber.Number;
  rv_mensagem : option string;
  rv_error : option string
}.

Record ResultadoAutenticacao := {
  ra_success : bool;
  ra_funcionario : option Funcionario;
  ra_registro : option Ponto;
  ra_mensagem : option string;
  ra_error : option string
}.

Module FingerprintController.

(** [updateStatus(message, type)] *)
Definition updateStatus (message type : string) : M unit :=
  efeito (registrar (StatusLine message type)).

(** What [updateStatus(message, type)] does to the element
    [#status-message]; [None] is a page without that element. *)
Definition updateStatus_statusElement (message type : string)
           (statusElement : option Elemento) : option Elemento :=
  match statusElement with
  | Some el =>
      let classes :=
        DOMTokenList.remove ["text-success"; "text-danger"; "text-muted"]
                            (classList el) in
      let classes :=
        if String.eqb type "success" then
          DOMTokenList.add "text-success" classes
        else if String.eqb type "error" then
          DOMTokenList.add "text-danger" classes
        else DOMTokenList.add "text-muted" classes in
      Some {| textContent := message; classList := classes |}
  | None => None
  end.

(** [this.fingerprintService.compareFingerprints(t1, t2)] as called by the
    controller; the call leaves a ghost event in the trace. *)
Definition compareFingerprints (template1 template2 : Template)
  : M MatchResult :=
  efeito (registrar (Comparacao template1 template2)) ;;;
  lift (FingerprintService.compareFingerprints
          (Some template1) (Some template2)).

(** [capturarDigital()].  The promise resolves with a template object, so
    the test [!template] never holds. *)
Definition capturarDigital : M Template :=
  updateStatus "Posicione seu dedo no leitor..." "info" ;;;
  efeito (registrar (Scanning true)) ;;;
  tryFinally
    (tryCatch
       (template <-
          (fun w => let (promessa, w') :=
                      FingerprintService.captureFingerprint w in
                    FingerprintService.await promessa w') ;;
        updateStatus "Digital capturada com sucesso!" "success" ;;;
        ret template)
       (fun error =>
          updateStatus ("Erro ao capturar digital: " ++ message error)
                       "error" ;;;
          throw error))
    (registrar (Scanning false)).

(** [await new Promise(resolve => setTimeout(resolve, ms))]: real time is
    not part of the world. *)
Definition pausa (ms : Z) : M unit := ret tt.

Definition cadastrarFuncionario (dadosFuncionario : DadosFuncionario)
  : M ResultadoCadastro :=
  tryCatch
    (updateStatus "Iniciando cadastro de nova digital..." "info" ;;;
     digitalTemplate <- capturarDigital ;;
     updateStatus "Por favor, posicione o dedo novamente para confirmar..."
                  "info" ;;;
     pausa 2000 ;;;
     tryCatch
       (confirmacaoTemplate <- capturarDigital ;;
        verificacao <-
          compareFingerprints digitalTemplate confirmacaoTemplate ;;
        if negb (matched verificacao) then
          updateStatus "As digitais não correspondem. Tente novamente."
                       "error" ;;;
          ret {| rc_success := false;
                 rc_funcionarioId := None;
                 rc_mensagem := None;
                 rc_error := Some
                   "As digitais capturadas não correspondem. Tente novamente."
              |}
        else
          funcionarioId <-
            FirebaseService.cadastrarFuncionario
              dadosFuncionario digitalTemplate ;;
          updateStatus "Funcionário cadastrado com sucesso!" "success" ;;;
          ret {| rc_success := true;
                 rc_funcionarioId := Some funcionarioId;
                 rc_mensagem := Some "Funcionário cadastrado com sucesso!";
                 rc_error := None |})
       (fun error =>
          updateStatus ("Erro na confirmação: " ++ message error) "error" ;;;
          throw error))
    (fun error =>
       updateStatus ("Erro no cadastro: " ++ message error) "error" ;;;
       ret {| rc_success := false;
              rc_funcionarioId := None;
              rc_mensagem := None;
              rc_error := Some (message error) |}).

(** Whether a stored document carries a fingerprint:
    [funcionario.digital && funcionario.digital.dados]. *)
Definition digitalCadastrada (funcionario : Funcionario) : option Digital :=
  match f_digital funcionario with
  | Some d => if String.eqb (dados d) "" then None else Some d
  | None => None
  end.

(** The [for ... of] loop of [verificarDigitalComTodos]. *)
Fixpoint percorrer (digitalTemplate : Template)
         (funcionarios : list Funcionario) : M ResultadoVerificacao :=
  match funcionarios with
  | [] =>
      ret {| rv_success := false;
             rv_funcionario := None;
             rv_score := None;
             rv_mensagem := Some "Digital não corresponde a nenhum funcionário";
             rv_error := None |}
  | funcionario :: resto =>
      match digitalCadastrada funcionario with
      | None => percorrer digitalTemplate resto
      | Some d =>
          let funcionarioTemplate :=
            {| format := formato d; data := None; raw := dados d |} in
          verificacao <-
            compareFingerprints digitalTemplate funcionarioTemplate ;;
          if matched verificacao then
            ret {| rv_success := true;
                   rv_funcionario := Some funcionario;
                   rv_score := Some (score verificacao);
                   rv_mensagem := None;
                   rv_error := None |}
          else percorrer digitalTemplate resto
      end
  end.

Definition verificarDigitalComTodos (digitalTemplate : Template)
  : M ResultadoVerificacao :=
  tryCatch
    (funcionarios <- FirebaseService.buscarTodosFuncionariosAtivos ;;
     match funcionarios with
     | [] =>
         ret {| rv_success := false;
                rv_funcionario := None;
                rv_score := None;
                rv_mensagem := Some "Nenhum funcionário cadastrado";
                rv_error := None |}
     | _ => percorrer digitalTemplate funcionarios
     end)
    (fun error =>
       ret {| rv_success := false;
              rv_funcionario := None;
              rv_score := None;
              rv_mensagem := None;
              rv_error := Some (message error) |}).

(** The tail of [autenticarFuncionario], once the employee is known. *)
Definition registrarAutenticacao (funcionario : Funcionario)
  : M ResultadoAutenticacao :=
  registro <-
    FirebaseService.registrarPonto (f_id funcionario) (f_nome funcionario) ;;
  updateStatus
    ("Autenticação bem-sucedida! Bem-vindo, " ++ f_nome funcionario)
    "success" ;;;
  ret {| ra_success := true;
         ra_funcionario := Some funcionario;
         ra_registro := Some registro;
         ra_mensagem :=
           Some ("Ponto registrado com sucesso! Tipo: " ++ p_tipo registro);
         ra_error := None |}.

(** The [catch] block of [autenticarFuncionario]. *)
Definition erroNaAutenticacao (error : Erro) : M ResultadoAutenticacao :=
  updateStatus ("Erro na autenticação: " ++ message error) "error" ;;;
  ret {| ra_success := false;
         ra_funcionario := None;
         ra_registro := None;
         ra_mensagem := None;
         ra_error := Some (message error) |}.

Definition autenticarFuncionario : M ResultadoAutenticacao :=
  tryCatch
    (updateStatus "Posicione seu dedo para autenticação..." "info" ;;;
     digitalTemplate <- capturarDigital ;;
     funcionario <-
       FirebaseService.buscarFuncionarioPorDigitalExata
         (raw digitalTemplate) ;;
     match funcionario with
     | Some funcionario => registrarAutenticacao funcionario
     | None =>
         resultado <- verificarDigitalComTodos digitalTemplate ;;
         match rv_success resultado, rv_funcionario resultado with
         | true, Some funcionario => registrarAutenticacao funcionario
         | _, _ =>
             updateStatus "Digital não reconhecida." "error" ;;;
             ret {| ra_success := false;
                    ra_funcionario := None;
                    ra_registro := None;
                    ra_mensagem := Some "Digital não reconhecida";
                    ra_error := None |}
         end
     end)
    erroNaAutenticacao.

End FingerprintController.

(** ** Notions used to state the properties *)

(** The next [n] round trips to the store succeed. *)
Definition disponivel (n : nat) (falhas : list (option string)) : bool :=
  forallb (fun o => match o with None => true | Some _ => false end)
          (firstn n falhas).

(** The documents of [registros] that the query of
    [determinarTipoRegistro] selects: those of the employee whose [horario]
    is not before [inicioHoje]. *)
Definition registrosDesde (funcionarioId : DocId) (inicioHoje : Z)
           (rs : list Registro) : list Registro :=
  filter (fun r => Nat.eqb (r_funcionarioId r) funcionarioId
                   && (inicioHoje <=? r_horario r)) rs.


(** The type that [determinarTipoRegistro] derives from the answer of its
    query. *)
Definition tipoSeguinte (snapshot : list Registro) : string :=
  match snapshot with
  | [] => "entrada"
  | ultimoRegistro :: _ =>
      if String.eqb (r_tipo ultimoRegistro) "entrada"
      then "saída" else "entrada"
  end.

(** The test of the query of [buscarFuncionarioPorDigitalExata]: an active
    document whose payload is [digitalRaw]. *)
Definition digitalExata (digitalRaw : string) (f : Funcionario) : bool :=
  FirebaseService.temDigital digitalRaw f && f_ativo f.

(** The message of the error thrown for a payload that is already
    enrolled. *)
Definition mensagemDuplicada : string :=
  "Já existe um funcionário cadastrado com esta impressão digital".

(** The template that [verificarDigitalComTodos] builds from a stored
    fingerprint. *)
Definition templateDoFuncionario (d : Digital) : Template :=
  {| format := formato d; data := None; raw := dados d |}.

(** The comparison of a captured template with a stored document:
    positive when the document carries a fingerprint and
    [compareFingerprints] returns a positive verdict. *)
Definition corresponde (digitalTemplate : Template) (f : Funcionario) : bool :=
  match FingerprintController.digitalCadastrada f with
  | Some d =>
      match FingerprintService.compareFingerprints
              (Some digitalTemplate) (Some (templateDoFuncionario d)) with
      | Return verificacao => matched verificacao
      | Throw _ => false
      end
  | None => false
  end.

(** The comparison with a stored document returns: both payloads are
    base64 text, or they are equal. *)
Definition comparavel (digitalTemplate : Template) (f : Funcionario) : Prop :=
  forall d,
    FingerprintController.digitalCadastrada f = Some d ->
    exists verificacao,
      FingerprintService.compareFingerprints
        (Some digitalTemplate) (Some (templateDoFuncionario d))
      = Return verificacao.

(** Identification as the specification words it: the active employee
    whose stored payload equals the captured one, if there is one;
    otherwise the first active employee, in store order, that the matcher
    accepts. *)
Definition identificar (digitalTemplate : Template) (fs : list Funcionario)
  : option Funcionario :=
  match find (digitalExata (raw digitalTemplate)) fs with
  | Some f => Some f
  | None => find (corresponde digitalTemplate) (filter f_ativo fs)
  end.

(** What [autenticarFuncionario] returns for a fingerprint it does not
    recognise. *)
Definition naoReconhecida : ResultadoAutenticacao :=
  {| ra_success := false;
     ra_funcionario := None;
     ra_registro := None;
     ra_mensagem := Some "Digital não reconhecida";
     ra_error := None |}.

(** What the controller's [cadastrarFuncionario] returns when the two
    captures do not match. *)
Definition naoCorrespondem : ResultadoCadastro :=
  {| rc_success := false;
     rc_funcionarioId := None;
     rc_mensagem := None;
     rc_error :=
       Some "As digitais capturadas não correspondem. Tente novamente." |}.

(** The payloads of the active employees, in store order. *)
Definition digitaisAtivas (fs : list Funcionario) : list string :=
  flat_map (fun f => if f_ativo f
                     then match f_digital f with
                          | Some d => [dados d]
                          | None => []
                          end
                     else []) fs.

(** No two active employees have the same payload. *)
Definition semDuplicatas (fs : list Funcionario) : Prop :=
  NoDup (digitaisAtivas fs).

(** The number of calls of the SDK's [startCapture] in a trace. *)
Definition chamadasStartCapture (h : list Evento) : nat :=
  List.length (filter (fun ev => match ev with StartCapture => true
                                          | _ => false end) h).

(** Number of positions, among those both payloads have, whose bytes agree
    within the tolerance of 5. *)
Definition concordantes (bytes1 bytes2 : list Z) : Z :=
  Z.of_nat (List.length
    (filter (fun p => Z.abs (fst p - snd p) <=? 5) (combine bytes1 bytes2))).

(** The payload is base64 text: [base64ToArrayBuffer] decodes it. *)
Definition decodificavel (r : string) : Prop :=
  exists bytes, FingerprintService.base64ToArrayBuffer r = Return bytes.

(** The two kinds of trace events that some properties exclude. *)
Definition eventoDoStore (ev : Evento) : bool :=
  match ev with
  | StoreGet _ | StoreAdd _ => true
  | _ => false
  end.

Definition ehComparacao (ev : Evento) : bool :=
  match ev with
  | Comparacao _ _ => true
  | _ => false
  end.

(** [w'] has the trace of [w] followed by events that all satisfy [p]. *)
Definition acrescenta (p : Evento -> bool) (w w' : World) : Prop :=
  exists evs, historico w' = (historico w ++ evs)%list /\ forallb p evs = true.

(** The database is untouched and the trace grew by events of the user
    interface and of the reader only. *)
Definition soInterface (w w' : World) : Prop :=
  db w' = db w /\
  acrescenta (fun ev => negb (eventoDoStore ev) && negb (ehComparacao ev)) w w'.


(** The computation [m] relates the world it starts in to the world it
    ends in by [R], whatever it returns or throws. *)
Definition respeita {A} (R : World -> World -> Prop) (m : M A) : Prop :=
  forall w r w', m w = (r, w') -> R w w'.






(** The type of the record that an authentication returned. *)
Definition tipoRegistrado (r : Result ResultadoAutenticacao)
  : Result (option string) :=
  mapR (fun res => option_map p_tipo (ra_registro res)) r.

(** The characters of a payload that [atob] decodes: ASCII whitespace and
    the final padding are dropped first. *)
Definition caracteresBase64 (base64 : string) : list ascii :=
  Browser.stripPadding
    (filter (fun c => negb (Browser.isAsciiWhitespace c))
            (list_ascii_of_string base64)).

(** The test of the query of [obterHistoricoRegistros]: a document of the
    employee whose [horario] lies between [dataInicio] and [dataFim],
    bounds included. *)
Definition noPeriodo (funcionarioId : DocId) (dataInicio dataFim : Z)
           (r : Registro) : bool :=
  Nat.eqb (r_funcionarioId r) funcionarioId
  && (dataInicio <=? r_horario r) && (r_horario r <=? dataFim).

(** The order of [orderBy('horario', 'asc')]. *)
Definition naoDepois (a b : Registro) : Prop := r_horario a <= r_horario b.

(** The template that a capture builds from a sample for which the page
    stored an image. *)
Definition templateDaAmostra (s : Amostra) : Template :=
  {| format := "PNG"; data := Some (imagem s); raw := amostra s |}.

(** The error of a capture that timed out. *)
Definition tempoEsgotado : Erro :=
  Error "Tempo esgotado para captura da digital".

(** The end of [await], once the events were delivered: the timers still
    pending expire if the promise is not settled, and the promise is read. *)
Definition concluir (promessa : nat) (w : World) : Result Template * World :=
  let w := match FingerprintService.estado promessa w with
           | Pendente => FingerprintService.esgotar w
           | _ => w
           end in
  match FingerprintService.estado promessa w with
  | Resolvida template => (Return template, w)
  | Rejeitada error => (Throw error, w)
  | Pendente => (Throw tempoEsgotado, w)
  end.

(** A sample for which the page stores no image. *)
Definition semImagem (s : Amostra) : Prop := imagem s = "".

(** A capture from the call of [captureFingerprint()] to the end of the
    [await]. *)
Definition capturar : M Template :=
  fun w =>
    let (promessa, w') := FingerprintService.captureFingerprint w in
    FingerprintService.await promessa w'.

(** The status line that [capturarDigital] shows at its end. *)
Definition statusDaCaptura (r : Result Template) : Evento :=
  match r with
  | Return _ => StatusLine "Digital capturada com sucesso!" "success"
  | Throw error =>
      StatusLine ("Erro ao capturar digital: " ++ message error) "error"
  end.

(** What [verificarDigitalComTodos] returns when it caught an error. *)
Definition verificacaoFalhou (error : Erro) : ResultadoVerificacao :=
  {| rv_success := false;
     rv_funcionario := None;
     rv_score := None;
     rv_mensagem := None;
     rv_error := Some (message error) |}.

(** The three classes that [updateStatus] manages, and the one it gives to
    a type of message. *)
Definition classeDeStatus (c : string) : bool :=
  DOMTokenList.contains c ["text-success"; "text-danger"; "text-muted"].

Definition classeDoTipo (type : string) : string :=
  if String.eqb type "success" then "text-success"
  else if String.eqb type "error" then "text-danger"
  else "text-muted".

(** What the controller's [cadastrarFuncionario] returns for a payload
    that is already enrolled. *)
Definition jaCadastrada : ResultadoCadastro :=
  {| rc_success := false;
     rc_funcionarioId := None;
     rc_mensagem := None;
     rc_error := Some mensagemDuplicada |}.

(** What the two workflows return when they caught an error. *)
Definition cadastroFalhou (error : Erro) : ResultadoCadastro :=
  {| rc_success := false;
     rc_funcionarioId := None;
     rc_mensagem := None;
     rc_error := Some (message error) |}.

Definition autenticacaoFalhou (error : Erro) : ResultadoAutenticacao :=
  {| ra_success := false;
     ra_funcionario := None;
     ra_registro := None;
     ra_mensagem := None;
     ra_error := Some (message error) |}.

(** What the controller's [cadastrarFuncionario] returns for a new
    employee. *)
Definition cadastrado (funcionarioId : DocId) : ResultadoCadastro :=
  {| rc_success := true;
     rc_funcionarioId := Some funcionarioId;
     rc_mensagem := Some "Funcionário cadastrado com sucesso!";
     rc_error := None |}.

(** ** Sample data *)

(** A template as the capture builds it, for the payload [r]. *)
Definition templateDe (r : string) : Template :=
  {| format := "PNG"; data := Some ("data:image/png;base64," ++ r);
     raw := r |}.

(** A sample of the reader with payload [r]. *)
Definition amostraDe (r : string) : Amostra :=
  {| imagem := "data:image/png;base64," ++ r; amostra := r |}.

(** Ten bytes [0]. *)
Definition dezZeros : string := "AAAAAAAAAAAAAA==".

(** Seven bytes [0] followed by three bytes [255]. *)
Definition seteZerosTres255 : string := "AAAAAAAAAP///w==".

(** The page just loaded: nothing stored, no capture started, an empty
    database, a reader and a store that answer, the clock at the epoch. *)
Definition mundoInicial : World :=
  {| janela := {| localStorage := []; sampleAcquired := paginaSampleAcquired;
                  promessas := []; temporizadores := [] |};
     db := {| funcionarios := []; registros := []; proximoId := 0%nat |};
     ambiente := {| falhasSdk := []; falhasStore := []; relogio := [];
                    ultimaLeitura := 0; fuso := 0; eventos := [] |};
     historico := [] |}.

(** The world after one call of [captureFingerprint()] whose sample has not
    arrived yet. *)
Definition capturaPendente : World :=
  snd (FingerprintService.captureFingerprint mundoInicial).

(** The page just loaded, with a reader that fails to start. *)
Definition leitorDesligado : World :=
  comAmbiente (fun a =>
    {| falhasSdk := [Some "reader unplugged"];
       falhasStore := falhasStore a; relogio := relogio a;
       ultimaLeitura := ultimaLeitura a; fuso := fuso a;
       eventos := eventos a |}) mundoInicial.

(** Two profiles. *)
Definition perfilAna : DadosFuncionario :=
  {| nome := "Ana"; cargo := "Analista"; departamento := "Financeiro";
     email := "ana@example.com" |}.

Definition perfilBruno : DadosFuncionario :=
  {| nome := "Bruno"; cargo := "Tecnico"; departamento := "Suporte";
     email := "bruno@example.com" |}.

(** A world in which the employee 0 has clocked in at 09:00 (UTC) of the
    second day of the epoch and the store rejects the next round trip; the
    clock reads 10:00 of that day. *)
Definition storeIndisponivel : World :=
  {| janela := janela mundoInicial;
     db := {| funcionarios := [];
              registros :=
                [{| r_id := 1%nat; r_funcionarioId := 0%nat; r_nome := "Ana";
                    r_tipo := "entrada"; r_horario := 118800000;
                    r_data := "02/01/1970";
                    r_timestamp := serverTimestamp |}];
              proximoId := 2%nat |};
     ambiente := {| falhasSdk := []; falhasStore := [Some "unavailable"];
                    relogio := []; ultimaLeitura := 122400000; fuso := 0;
                    eventos := [] |};
     historico := [] |}.

(** The same world with a store that answers. *)
Definition storeDisponivel : World :=
  {| janela := janela storeIndisponivel;
     db := db storeIndisponivel;
     ambiente := {| falhasSdk := []; falhasStore := [];
                    relogio := []; ultimaLeitura := 122400000; fuso := 0;
                    eventos := [] |};
     historico := [] |}.


(** The reader delivers the payload [CgoK] (bytes 10, 10, 10) and then the
    payload [////] (bytes 255, 255, 255). *)
Definition doisDedos : World :=
  FingerprintService.set_eventos
    [ChegaAmostra (amostraDe "CgoK"); ChegaAmostra (amostraDe "////")]
    mundoInicial.

(** Two employees enrolled with payloads of four bytes: Carla with
    10, 10, 10, 100 and Davi with 10, 10, 10, 11; the reader is about to
    deliver the payload 10, 10, 10, 10, which Carla's matches on three
    positions out of four and Davi's on all four. *)
Definition carla : Funcionario :=
  {| f_id := 0%nat; f_nome := "Carla"; f_cargo := "Analista";
     f_departamento := "Financeiro"; f_email := "carla@example.com";
     f_digital := Some {| formato := "PNG"; dados := "CgoKZA==";
                          digital_dataCadastro := serverTimestamp |};
     f_dataCadastro := serverTimestamp; f_ativo := true |}.

Definition davi : Funcionario :=
  {| f_id := 1%nat; f_nome := "Davi"; f_cargo := "Tecnico";
     f_departamento := "Suporte"; f_email := "davi@example.com";
     f_digital := Some {| formato := "PNG"; dados := "CgoKCw==";
                          digital_dataCadastro := serverTimestamp |};
     f_dataCadastro := serverTimestamp; f_ativo := true |}.

(** Eva, whose stored payload holds a character outside the base64
    alphabet. *)
Definition eva : Funcionario :=
  {| f_id := 2%nat; f_nome := "Eva"; f_cargo := "Gerente";
     f_departamento := "Financeiro"; f_email := "eva@example.com";
     f_digital := Some {| formato := "PNG"; dados := "Cg-K";
                          digital_dataCadastro := serverTimestamp |};
     f_dataCadastro := serverTimestamp; f_ativo := true |}.

Definition doisCandidatos : World :=
  {| janela := janela mundoInicial;
     db := {| funcionarios := [carla; davi]; registros := [];
              proximoId := 2%nat |};
     ambiente := {| falhasSdk := []; falhasStore := []; relogio := [];
                    ultimaLeitura := 122400000; fuso := 0;
                    eventos := [ChegaAmostra (amostraDe "CgoKCg==")] |};
     historico := [] |}.

(** The same world with Eva, whose stored payload is not base64 text,
    first in the store. *)
Definition payloadInvalido : World :=
  comDb (fun d => {| funcionarios := eva :: funcionarios d;
                     registros := registros d;
                     proximoId := 3%nat |}) doisCandidatos.

(** The scenario of the specification: the reader delivers the payload
    10, 20, 30, then 12, 18, 33, then 10, 20, 30 twice more; the clock is
    read at 09:00 and at 10:00 of the second day of the epoch. *)
Definition cenario : World :=
  {| janela := janela mundoInicial;
     db := db mundoInicial;
     ambiente := {| falhasSdk := []; falhasStore := [];
                    relogio := [118800000; 118800001;
                                122400000; 122400001];
                    ultimaLeitura := 0; fuso := 0;
                    eventos := [ChegaAmostra (amostraDe "ChQe");
                                ChegaAmostra (amostraDe "DBIh");
                                ChegaAmostra (amostraDe "ChQe");
                                ChegaAmostra (amostraDe "ChQe")] |};
     historico := [] |}.

(** An enrollment during which the timer of the first capture expires
    before the second sample arrives. *)
Definition temporizadorAtrasado : World :=
  FingerprintService.set_eventos
    [ChegaAmostra (amostraDe "CgoK"); ExpiraTemporizador;
     ChegaAmostra (amostraDe "CgoL")]
    mundoInicial.

(** The same enrollment without the expiry. *)
Definition semAtraso : World :=
  FingerprintService.set_eventos
    [ChegaAmostra (amostraDe "CgoK"); ChegaAmostra (amostraDe "CgoL")]
    mundoInicial.

(** * Properties of the template matcher *)

Module MatcherProps.
Import JSNumber FingerprintService.

(** ** Arithmetic of binary64 on the quotients the matcher forms *)

Lemma digits2_pos_size p : digits2_pos p = Pos.size p.
Proof. induction p; simpl; congruence. Qed.

Lemma digits2_pos_bounds p :
  2 ^ (Zpos (digits2_pos p) - 1) <= Zpos p < 2 ^ Zpos (digits2_pos p).
Proof.
  rewrite digits2_pos_size.
  generalize (Pos.size_gt p) (Pos.size_le p). intros Hgt Hle.
  split.
  - apply Pos2Z.pos_le_pos in Hle. rewrite Pos2Z.inj_xO in Hle.
    rewrite Pos2Z.inj_pow in Hle.
    replace (Zpos (Pos.size p)) with (Z.succ (Zpos (Pos.size p) - 1)) in Hle
      by lia.
    rewrite Z.pow_succ_r in Hle by lia. lia.
  - apply Pos2Z.pos_lt_pos in Hgt. rewrite Pos2Z.inj_pow in Hgt. exact Hgt.
Qed.

Lemma iter_xO_pow p d : Zpos (Pos.iter xO p d) = Zpos p * 2 ^ Zpos d.
Proof.
  revert p. induction d using Pos.peano_ind; intros p.
  - simpl. lia.
  - rewrite Pos.iter_succ, Pos2Z.inj_xO, IHd, Pos2Z.inj_succ, Z.pow_succ_r
      by lia.
    lia.
Qed.

Lemma fexp_small e : -1021 <= e -> fexp prec emax e = e - 53.
Proof. intros H. unfold fexp, emin, prec, emax. lia. Qed.

(** A mantissa of 53 bits with an exponent in range is already rounded. *)
Lemma binary_round_aux_exact s m e :
  digits2_pos m = 53%positive -> -1074 <= e <= 971 ->
  binary_round_aux prec emax s (Zpos m) e loc_Exact = S754_finite s m e.
Proof.
  intros Hd He.
  assert (Hs : fexp prec emax (Zpos (digits2_pos m) + e) - e = 0).
  { rewrite Hd. unfold fexp, emin, prec, emax. lia. }
  unfold binary_round_aux, shr_fexp. cbn [Zdigits2 shr_record_of_loc].
  rewrite Hs. cbn [shr shr_m loc_of_shr_record round_nearest_even Zdigits2].
  rewrite Hs. cbn [shr shr_m].
  unfold emax, prec.
  destruct (Z.leb_spec e (1024 - 53)); [reflexivity | lia].
Qed.

(** A positive integer of at most 53 bits is represented exactly, with a
    mantissa normalised to 53 bits. *)
Lemma ofZ_pos p :
  Zpos (digits2_pos p) <= 53 ->
  exists m, ofZ (Zpos p) = S754_finite false m (Zpos (digits2_pos p) - 53)
         /\ Zpos m = Zpos p * 2 ^ (53 - Zpos (digits2_pos p))
         /\ digits2_pos m = 53%positive.
Proof.
  intros Hd. unfold ofZ, binary_normalize, binary_round.
  rewrite Z.add_0_r, fexp_small by lia.
  unfold shl_align.
  destruct (Zpos (digits2_pos p) - 53 - 0) as [|sh|sh] eqn:Hsh; try lia.
  - assert (Hp : digits2_pos p = 53%positive) by lia.
    exists p. rewrite binary_round_aux_exact by (auto; lia).
    rewrite Hp. repeat split; auto. cbn. lia.
  - assert (Hm : Zpos (Pos.iter xO p sh)
                 = Zpos p * 2 ^ (53 - Zpos (digits2_pos p))).
    { rewrite iter_xO_pow. f_equal. f_equal. lia. }
    assert (Hdm : digits2_pos (Pos.iter xO p sh) = 53%positive).
    { generalize (digits2_pos_bounds p)
                 (digits2_pos_bounds (Pos.iter xO p sh)).
      rewrite Hm. set (d := Zpos (digits2_pos p)) in *.
      set (d' := digits2_pos (Pos.iter xO p sh)).
      intros [Hl Hu] [Hl' Hu'].
      assert (E : 2 ^ (d - 1) * 2 ^ (53 - d) = 2 ^ 52).
      { rewrite <- Z.pow_add_r by lia. f_equal. lia. }
      assert (E' : 2 ^ d * 2 ^ (53 - d) = 2 ^ 53).
      { rewrite <- Z.pow_add_r by lia. f_equal. lia. }
      assert (P : 0 < 2 ^ (53 - d)) by (apply Z.pow_pos_nonneg; lia).
      assert (A : 2 ^ 52 <= Zpos p * 2 ^ (53 - d) < 2 ^ 53) by nia.
      destruct (Z.lt_trichotomy (Zpos d') 53) as [Hlt|[Heq|Hgt]].
      + assert (2 ^ Zpos d' <= 2 ^ 52) by (apply Z.pow_le_mono_r; lia). lia.
      + lia.
      + assert (2 ^ 53 <= 2 ^ (Zpos d' - 1))
          by (apply Z.pow_le_mono_r; lia).
        lia. }
    exists (Pos.iter xO p sh). rewrite binary_round_aux_exact by (auto; lia).
    auto.
Qed.

Lemma div_eucl_pair a b : Z.div_eucl a b = (a / b, a mod b).
Proof. unfold Z.div, Z.modulo. destruct (Z.div_eucl a b); reflexivity. Qed.

(** Division of two positive numbers with normalised mantissas: the
    quotient of the mantissas is taken with 53 more bits and then rounded. *)
Lemma SFdiv_normal m1 e1 m2 e2 :
  digits2_pos m1 = 53%positive -> digits2_pos m2 = 53%positive ->
  -52 <= e1 - e2 <= 52 ->
  SFdiv prec emax (S754_finite false m1 e1) (S754_finite false m2 e2) =
  binary_round_aux prec emax false
    ((Zpos m1 * 2 ^ 53) / Zpos m2) (e1 - e2 - 53)
    (new_location (Zpos m2) ((Zpos m1 * 2 ^ 53) mod Zpos m2)).
Proof.
  intros H1 H2 He.
  unfold SFdiv, SFdiv_core_binary. cbn [Zdigits2 xorb]. rewrite H1, H2.
  assert (E : Z.min (fexp prec emax (53 + e1 - (53 + e2))) (e1 - e2)
              = e1 - e2 - 53).
  { unfold fexp, emin, prec, emax. lia. }
  rewrite E.
  replace (e1 - e2 - (e1 - e2 - 53)) with 53 by lia.
  rewrite Z.shiftl_mul_pow2 by lia.
  rewrite div_eucl_pair. reflexivity.
Qed.

Lemma digits2_pos_ratio p q :
  Zpos p <= Zpos q < 2 * Zpos p ->
  Zpos (digits2_pos q) = Zpos (digits2_pos p) \/
  Zpos (digits2_pos q) = Zpos (digits2_pos p) + 1.
Proof.
  intros [Hle Hlt].
  generalize (digits2_pos_bounds p) (digits2_pos_bounds q).
  set (dp := Zpos (digits2_pos p)). set (dq := Zpos (digits2_pos q)).
  intros [Lp Up] [Lq Uq].
  assert (dp <= dq).
  { destruct (Z.le_gt_cases dp dq); auto.
    assert (2 ^ dq <= 2 ^ (dp - 1)) by (apply Z.pow_le_mono_r; lia). lia. }
  assert (dq <= dp + 1).
  { destruct (Z.le_gt_cases dq (dp + 1)); auto.
    assert (2 ^ (dp + 1) <= 2 ^ (dq - 1)) by (apply Z.pow_le_mono_r; lia).
    rewrite Z.pow_add_r in * by lia. lia. }
  lia.
Qed.

Lemma new_location_tenths K c (l : comparison) :
  0 < K -> 0 < c -> (2 * c ?= 10) = l ->
  new_location (10 * K) (c * K) = loc_Inexact l.
Proof.
  intros HK Hc Hl. unfold new_location.
  rewrite Z.even_mul. cbn [Z.even orb]. unfold new_location_even.
  destruct (Z.eqb_spec (c * K) 0); [nia|].
  f_equal. rewrite <- Hl.
  destruct (Z.compare_spec (2 * c) 10);
    [apply Z.compare_eq_iff | apply Z.compare_lt_iff
     | apply Z.compare_gt_iff]; nia.
Qed.

(** [7k / 10k] is the same binary64 value for every [k]. *)
Lemma div_seven_tenths k :
  1 <= k -> 10 * k < 2 ^ 53 ->
  div (ofZ (7 * k)) (ofZ (10 * k))
  = S754_finite false 6305039478318694 (-53).
Proof.
  intros Hk Hb. unfold div.
  destruct (7 * k) as [|p7|] eqn:E7; try lia.
  destruct (10 * k) as [|p10|] eqn:E10; try lia.
  assert (Hr : Zpos p7 <= Zpos p10 < 2 * Zpos p7) by lia.
  generalize (digits2_pos_bounds p10). intros [L10 U10].
  assert (D10 : Zpos (digits2_pos p10) <= 53).
  { destruct (Z.le_gt_cases (Zpos (digits2_pos p10)) 53); auto.
    assert (2 ^ 53 <= 2 ^ (Zpos (digits2_pos p10) - 1))
      by (apply Z.pow_le_mono_r; lia).
    lia. }
  destruct (ofZ_pos p10 D10) as (m2 & -> & Hm2 & Hd2).
  assert (D7 : Zpos (digits2_pos p7) <= 53)
    by (destruct (digits2_pos_ratio p7 p10 Hr); lia).
  destruct (ofZ_pos p7 D7) as (m1 & -> & Hm1 & Hd1).
  rewrite SFdiv_normal by (auto; destruct (digits2_pos_ratio p7 p10 Hr); lia).
  rewrite Hm1, Hm2, <- E7, <- E10.
  set (d7 := Zpos (digits2_pos p7)) in *.
  set (d10 := Zpos (digits2_pos p10)) in *.
  assert (HK : 0 < k * 2 ^ (53 - d10))
    by (apply Z.mul_pos_pos; [lia | apply Z.pow_pos_nonneg; lia]).
  change (2 ^ 53) with 9007199254740992.
  destruct (digits2_pos_ratio p7 p10 Hr) as [Hd|Hd]; fold d7 d10 in Hd.
  - rewrite Hd in *. replace (d7 - 53 - (d7 - 53) - 53) with (-53) by lia.
    set (K := k * 2 ^ (53 - d7)) in *.
    replace (10 * k * 2 ^ (53 - d7)) with (10 * K) by (unfold K; ring).
    replace (7 * k * 2 ^ (53 - d7) * 9007199254740992)
      with (6305039478318694 * (10 * K) + 4 * K) by (unfold K; ring).
    rewrite Z.div_add_l, Z.div_small, Z.add_0_r by lia.
    rewrite Z.add_comm, Z.mod_add, Z.mod_small by lia.
    rewrite (new_location_tenths K 4 Lt) by (auto; lia).
    vm_compute. reflexivity.
  - assert (E2 : 2 ^ (53 - d7) = 2 * 2 ^ (53 - d10)).
    { replace (53 - d7) with (Z.succ (53 - d10)) by lia.
      apply Z.pow_succ_r. lia. }
    rewrite E2. replace (d7 - 53 - (d10 - 53) - 53) with (-54) by lia.
    set (K := k * 2 ^ (53 - d10)) in *.
    replace (10 * k * 2 ^ (53 - d10)) with (10 * K) by (unfold K; ring).
    replace (7 * k * (2 * 2 ^ (53 - d10)) * 9007199254740992)
      with (12610078956637388 * (10 * K) + 8 * K) by (unfold K; ring).
    rewrite Z.div_add_l, Z.div_small, Z.add_0_r by lia.
    rewrite Z.add_comm, Z.mod_add, Z.mod_small by lia.
    rewrite (new_location_tenths K 8 Gt) by (auto; lia).
    vm_compute. reflexivity.
Qed.

(** Seventy percent is computed exactly: [(7k / 10k) * 100] is [70]. *)
Lemma score_seventy k :
  1 <= k -> 10 * k < 2 ^ 53 ->
  mul (div (ofZ (7 * k)) (ofZ (10 * k))) (ofZ 100) = ofZ 70.
Proof. intros. rewrite div_seven_tenths by assumption. vm_compute. reflexivity. Qed.

(** ** The comparison loop *)

Lemma contarCorrespondentes_cons x y bytes1 bytes2 i n acc :
  contarCorrespondentes (x :: bytes1) (y :: bytes2) (S i) n acc
  = contarCorrespondentes bytes1 bytes2 i n acc.
Proof.
  revert i acc. induction n as [|n IH]; intros i acc; simpl.
  - reflexivity.
  - apply IH.
Qed.

(** The loop counts the agreeing positions of the common prefix. *)
Lemma contarCorrespondentes_concordantes bytes1 bytes2 acc :
  contarCorrespondentes bytes1 bytes2 0
    (Nat.min (List.length bytes1) (List.length bytes2)) acc
  = acc + concordantes bytes1 bytes2.
Proof.
  revert bytes2 acc.
  induction bytes1 as [|x r IH]; intros [|y r2] acc;
    try (unfold concordantes; simpl; lia).
  cbn [List.length Nat.min contarCorrespondentes nth].
  rewrite contarCorrespondentes_cons, IH.
  unfold concordantes. cbn [combine filter fst snd].
  destruct (Z.abs (x - y) <=? 5); cbn [List.length]; lia.
Qed.

Lemma contarCorrespondentes_sym bytes1 bytes2 i n acc :
  contarCorrespondentes bytes1 bytes2 i n acc
  = contarCorrespondentes bytes2 bytes1 i n acc.
Proof.
  revert i acc. induction n as [|n IH]; intros i acc; simpl.
  - reflexivity.
  - replace (nth i bytes2 0 - nth i bytes1 0)
      with (- (nth i bytes1 0 - nth i bytes2 0)) by lia.
    rewrite Z.abs_opp. apply IH.
Qed.

Lemma concordantes_refl bytes :
  concordantes bytes bytes = Z.of_nat (List.length bytes).
Proof.
  unfold concordantes. induction bytes as [|x r IH].
  - reflexivity.
  - cbn [combine filter fst snd]. rewrite Z.sub_diag. cbn [Z.abs Z.leb Z.compare].
    cbn [List.length]. lia.
Qed.

Lemma concordantes_bounds bytes1 bytes2 :
  0 <= concordantes bytes1 bytes2
    <= Z.of_nat (Nat.min (List.length bytes1) (List.length bytes2)).
Proof.
  unfold concordantes. split; [lia|].
  apply Nat2Z.inj_le.
  etransitivity; [apply filter_length_le|].
  rewrite length_combine. reflexivity.
Qed.

(** ** The verdict of [compareFingerprints] *)

(** How [compareFingerprints] runs on two objects whose payloads differ
    and decode. *)
Lemma compareFingerprints_decoded t1 t2 bytes1 bytes2 :
  raw t1 <> raw t2 ->
  base64ToArrayBuffer (raw t1) = Return bytes1 ->
  base64ToArrayBuffer (raw t2) = Return bytes2 ->
  let n := Z.of_nat (Nat.min (List.length bytes1) (List.length bytes2)) in
  let s := mul (div (ofZ (concordantes bytes1 bytes2)) (ofZ n)) (ofZ 100) in
  compareFingerprints (Some t1) (Some t2)
  = Return {| matched := gt s (ofZ 70); score := s |}.
Proof.
  intros Hne H1 H2. cbn zeta. unfold compareFingerprints.
  destruct (String.eqb_spec (raw t1) (raw t2)) as [E|_]; [contradiction|].
  rewrite H1, H2. cbn [bindR].
  rewrite contarCorrespondentes_concordantes, Z.add_0_l. reflexivity.
Qed.

(** C2, the defect behind it: when the payloads differ and one of them
    decodes to no byte at all, the quotient is [0 / 0] and the score is
    [NaN], which is not a number of [[0, 100]]. *)
Lemma compareFingerprints_empty_payload t1 t2 bytes1 bytes2 :
  raw t1 <> raw t2 ->
  base64ToArrayBuffer (raw t1) = Return bytes1 ->
  base64ToArrayBuffer (raw t2) = Return bytes2 ->
  Nat.min (List.length bytes1) (List.length bytes2) = 0%nat ->
  compareFingerprints (Some t1) (Some t2)
  = Return {| matched := false; score := NaN |}.
Proof.
  intros Hne H1 H2 Hn.
  rewrite (compareFingerprints_decoded t1 t2 bytes1 bytes2 Hne H1 H2).
  generalize (concordantes_bounds bytes1 bytes2). rewrite Hn. intros Hb.
  replace (concordantes bytes1 bytes2) with 0 by lia.
  reflexivity.
Qed.

(** C2: evaluated on an empty payload against the one-byte payload [QQ==],
    [compareFingerprints] returns the score [NaN] where the claim promises
    [0]; the score is then neither [>= 0] nor [<= 100]. *)
Theorem compareFingerprints_score_NaN :
  compareFingerprints (Some (templateDe "")) (Some (templateDe "QQ=="))
  = Return {| matched := false; score := NaN |}
  /\ le (ofZ 0) NaN = false /\ le NaN (ofZ 100) = false.
Proof.
  split.
  - apply (compareFingerprints_empty_payload _ _ [] [65]).
    + discriminate.
    + reflexivity.
    + reflexivity.
    + reflexivity.
  - split; reflexivity.
Qed.

(** C8: the verdict is [score > 70], strictly.  Whatever
    [compareFingerprints] returns, [matched] is the comparison of the
    returned score with 70; and when two payloads of the same positive
    length (below [2^53], as every array length is) agree within the
    tolerance on exactly seven positions out of ten, the score is 70 and
    the verdict is negative. *)
Theorem compareFingerprints_strict_threshold :
  (forall template1 template2 r,
      compareFingerprints template1 template2 = Return r ->
      matched r = gt (score r) (ofZ 70))
  /\ (forall t1 t2 bytes1 bytes2,
      base64ToArrayBuffer (raw t1) = Return bytes1 ->
      base64ToArrayBuffer (raw t2) = Return bytes2 ->
      List.length bytes1 = List.length bytes2 ->
      0 < Z.of_nat (List.length bytes1) < 2 ^ 53 ->
      10 * concordantes bytes1 bytes2 = 7 * Z.of_nat (List.length bytes1) ->
      compareFingerprints (Some t1) (Some t2)
      = Return {| matched := false; score := ofZ 70 |}).
Proof.
  split.
  - intros [t1|] [t2|] r; cbn [compareFingerprints];
      try (intros [= <-]; reflexivity).
    destruct (String.eqb (raw t1) (raw t2)).
    + intros [= <-]. reflexivity.
    + destruct (base64ToArrayBuffer (raw t1)); cbn [bindR]; [|discriminate].
      destruct (base64ToArrayBuffer (raw t2)); cbn [bindR]; [|discriminate].
      intros [= <-]. reflexivity.
  - intros t1 t2 bytes1 bytes2 H1 H2 Hlen Hn H70.
    assert (Hne : raw t1 <> raw t2).
    { intros E. rewrite E, H2 in H1. injection H1 as <-.
      rewrite concordantes_refl in H70. lia. }
    rewrite (compareFingerprints_decoded t1 t2 bytes1 bytes2 Hne H1 H2).
    rewrite <- Hlen, Nat.min_id.
    assert (Hk : exists k, concordantes bytes1 bytes2 = 7 * k
                           /\ Z.of_nat (List.length bytes1) = 10 * k
                           /\ 1 <= k).
    { exists (Z.of_nat (List.length bytes1) / 10).
      generalize (Z.div_mod (Z.of_nat (List.length bytes1)) 10).
      generalize (Z.mod_pos_bound (Z.of_nat (List.length bytes1)) 10). lia. }
    destruct Hk as (k & Hm & Hk & Hpos). rewrite Hm, Hk. rewrite Hk in Hn.
    rewrite score_seventy by lia.
    reflexivity.
Qed.

(** The boundary case of C8 on ten bytes, seven of which agree. *)
Lemma compareFingerprints_strict_threshold_witness :
  compareFingerprints (Some (templateDe dezZeros))
                      (Some (templateDe seteZerosTres255))
  = Return {| matched := false; score := ofZ 70 |}.
Proof.
  apply (proj2 compareFingerprints_strict_threshold
           (templateDe dezZeros) (templateDe seteZerosTres255)
           [0; 0; 0; 0; 0; 0; 0; 0; 0; 0]
           [0; 0; 0; 0; 0; 0; 0; 255; 255; 255]).
  - reflexivity.
  - reflexivity.
  - reflexivity.
  - simpl. lia.
  - reflexivity.
Defined.


(** ** Scores that are numbers *)

Lemma shr_1_nonneg mrs : 0 <= shr_m mrs -> 0 <= shr_m (shr_1 mrs).
Proof.
  destruct mrs as [m r s]. cbn [shr_m shr_1].
  destruct m as [|[p|p|]|[p|p|]]; cbn [shr_m]; lia.
Qed.

Lemma iter_pos_shr_1_nonneg p mrs :
  0 <= shr_m mrs -> 0 <= shr_m (iter_pos shr_1 p mrs).
Proof.
  revert mrs. induction p as [p IH|p IH|]; intros mrs H; cbn [iter_pos].
  - apply IH, IH, shr_1_nonneg, H.
  - apply IH, IH, H.
  - apply shr_1_nonneg, H.
Qed.

Lemma shr_fexp_nonneg m e l :
  0 <= m -> 0 <= shr_m (fst (shr_fexp prec emax m e l)).
Proof.
  intros H. unfold shr_fexp, shr.
  assert (H0 : 0 <= shr_m (shr_record_of_loc m l))
    by (destruct l as [|[| |]]; exact H).
  destruct (fexp prec emax (Zdigits2 m + e) - e); cbn [fst];
    [exact H0 | apply iter_pos_shr_1_nonneg, H0 | exact H0].
Qed.

Lemma round_nearest_even_nonneg m l : 0 <= m -> 0 <= round_nearest_even m l.
Proof.
  intros H. destruct l as [|[| |]]; cbn [round_nearest_even]; try lia.
  destruct (Z.even m); lia.
Qed.

(** Rounding a non-negative mantissa never yields [NaN]. *)
Lemma binary_round_aux_number s m e l :
  0 <= m -> binary_round_aux prec emax s m e l <> NaN.
Proof.
  intros H. unfold binary_round_aux.
  generalize (shr_fexp_nonneg m e l H).
  destruct (shr_fexp prec emax m e l) as [mrs' e']. cbn [fst]. intros H1.
  generalize (shr_fexp_nonneg
                (round_nearest_even (shr_m mrs') (loc_of_shr_record mrs'))
                e' loc_Exact (round_nearest_even_nonneg _ _ H1)).
  destruct (shr_fexp prec emax _ e' loc_Exact) as [mrs'' e'']. cbn [fst].
  intros H2.
  destruct (shr_m mrs'') as [|p|p]; try discriminate; [|lia].
  destruct (e'' <=? emax - prec); discriminate.
Qed.

(** An integer of [[0, 2^53)] is a zero or a finite positive number. *)
Lemma ofZ_nonneg z :
  0 <= z < 2 ^ 53 ->
  ofZ z = S754_zero false \/ exists m e, ofZ z = S754_finite false m e.
Proof.
  intros [H0 H1]. destruct z as [|p|p]; try lia.
  - left. reflexivity.
  - right. generalize (digits2_pos_bounds p). intros [L U].
    assert (D : Zpos (digits2_pos p) <= 53).
    { destruct (Z.le_gt_cases (Zpos (digits2_pos p)) 53); auto.
      assert (2 ^ 53 <= 2 ^ (Zpos (digits2_pos p) - 1))
        by (apply Z.pow_le_mono_r; lia).
      lia. }
    destruct (ofZ_pos p D) as (m & E & _). eauto.
Qed.

Lemma score_number m n :
  0 <= m < 2 ^ 53 -> 0 < n < 2 ^ 53 ->
  mul (div (ofZ m) (ofZ n)) (ofZ 100) <> NaN.
Proof.
  intros Hm Hn.
  destruct (ofZ_nonneg n ltac:(lia)) as [En|(mn & en & En)].
  { exfalso. destruct n as [|p|p]; try lia.
    generalize (digits2_pos_bounds p). intros [L U].
    assert (D : Zpos (digits2_pos p) <= 53).
    { destruct (Z.le_gt_cases (Zpos (digits2_pos p)) 53); auto.
      assert (2 ^ 53 <= 2 ^ (Zpos (digits2_pos p) - 1))
        by (apply Z.pow_le_mono_r; lia).
      lia. }
    destruct (ofZ_pos p D) as (m' & E & _). congruence. }
  assert (Hq : exists x, div (ofZ m) (ofZ n) = x /\ x <> NaN).
  { rewrite En. destruct (ofZ_nonneg m Hm) as [Em|(mm & em & Em)]; rewrite Em.
    - eexists. split; [reflexivity | discriminate].
    - eexists. split; [reflexivity|].
      unfold div, SFdiv, SFdiv_core_binary.
      set (m' := match _ - _ - _ with
                 | Zpos _ => _ | Z0 => _ | Zneg _ => _ end).
      assert (Hm' : 0 <= m').
      { unfold m'. destruct (_ - _ - _) as [|s|s]; try lia.
        rewrite Z.shiftl_mul_pow2 by lia.
        apply Z.mul_nonneg_nonneg; [lia | apply Z.pow_nonneg; lia]. }
      generalize (Z_div_mod m' (Zpos mn) ltac:(lia)).
      destruct (Z.div_eucl m' (Zpos mn)) as [q r]. intros [Hqr Hr].
      apply binary_round_aux_number. nia. }
  destruct Hq as (x & -> & Hx).
  unfold mul. change (ofZ 100) with (S754_finite false 7036874417766400 (-46)).
  destruct x as [s|s| |s mx ex]; cbn [SFmul]; try discriminate.
  - contradiction.
  - apply binary_round_aux_number. lia.
Qed.

(** X9: the score is [NaN] in the empty case only.  When both payloads decode
    to at least one byte (and to fewer than [2^53]), [compareFingerprints]
    returns a score that is a number. *)
Theorem compareFingerprints_score_number t1 t2 bytes1 bytes2 :
  base64ToArrayBuffer (raw t1) = Return bytes1 ->
  base64ToArrayBuffer (raw t2) = Return bytes2 ->
  0 < Z.of_nat (Nat.min (List.length bytes1) (List.length bytes2)) < 2 ^ 53 ->
  exists r,
    compareFingerprints (Some t1) (Some t2) = Return r /\ score r <> NaN.
Proof.
  intros H1 H2 Hn.
  destruct (String.eqb_spec (raw t1) (raw t2)) as [E|Hne].
  - exists {| matched := true; score := ofZ 100 |}. split; [|discriminate].
    unfold compareFingerprints. rewrite E, String.eqb_refl. reflexivity.
  - rewrite (compareFingerprints_decoded t1 t2 bytes1 bytes2 Hne H1 H2).
    eexists. split; [reflexivity|]. cbn [score].
    apply score_number; [|exact Hn].
    generalize (concordantes_bounds bytes1 bytes2). lia.
Qed.

Lemma compareFingerprints_score_number_witness :
  exists r,
    compareFingerprints (Some (templateDe dezZeros))
                        (Some (templateDe seteZerosTres255)) = Return r
    /\ score r <> NaN.
Proof.
  apply (compareFingerprints_score_number
           (templateDe dezZeros) (templateDe seteZerosTres255)
           [0; 0; 0; 0; 0; 0; 0; 0; 0; 0]
           [0; 0; 0; 0; 0; 0; 0; 255; 255; 255]).
  - reflexivity.
  - reflexivity.
  - simpl. lia.
Defined.

(** [x == x] holds for every number but [NaN]. *)
Lemma eq_refl_number (x : Number) : x <> NaN -> eq x x = true.
Proof.
  intros Hx. unfold eq, SFeqb, SFcompare.
  destruct x as [s|s| |s m e]; try reflexivity.
  - destruct s; reflexivity.
  - contradiction.
  - destruct s; rewrite Z.compare_refl, Pos.compare_cont_refl; reflexivity.
Qed.

(** X8, with JavaScript's [==]: whenever one call returns a score that is a
    number, the call with the arguments exchanged returns too and the two
    scores are [==]. *)
Lemma compareFingerprints_score_eq_js template1 template2 r :
  compareFingerprints template1 template2 = Return r ->
  score r <> NaN ->
  exists r',
    compareFingerprints template2 template1 = Return r'
    /\ eq (score r) (score r') = true.
Proof.
  destruct template1 as [t1|], template2 as [t2|];
    try (intros [= <-] _; eexists; split; reflexivity).
  unfold compareFingerprints.
  rewrite (String.eqb_sym (raw t2) (raw t1)).
  destruct (String.eqb (raw t1) (raw t2)).
  - intros [= <-] _. eexists. split; reflexivity.
  - destruct (base64ToArrayBuffer (raw t1)) as [bytes1|e1]; cbn [bindR];
      [|discriminate].
    destruct (base64ToArrayBuffer (raw t2)) as [bytes2|e2]; cbn [bindR];
      [|discriminate].
    intros [= <-] Hn. eexists. split; [reflexivity|].
    cbn [score] in *.
    rewrite (Nat.min_comm (List.length bytes2)),
      (contarCorrespondentes_sym bytes2 bytes1).
    apply eq_refl_number, Hn.
Qed.

Lemma compareFingerprints_score_eq_js_witness :
  exists r',
    compareFingerprints (Some (templateDe seteZerosTres255))
                        (Some (templateDe dezZeros)) = Return r'
    /\ eq (ofZ 70) (score r') = true.
Proof.
  apply (compareFingerprints_score_eq_js
           (Some (templateDe dezZeros)) (Some (templateDe seteZerosTres255))
           {| matched := false; score := ofZ 70 |}).
  - vm_compute. reflexivity.
  - discriminate.
Defined.

(** C10: [compareFingerprints] returns on every pair of arguments that are
    absent ([null] or missing) or carry a payload that is base64 text; and
    when an argument is absent the result is the negative verdict with
    score 0. *)
Theorem compareFingerprints_absent :
  (forall template1 template2,
      (forall t, template1 = Some t -> decodificavel (raw t)) ->
      (forall t, template2 = Some t -> decodificavel (raw t)) ->
      exists r, compareFingerprints template1 template2 = Return r)
  /\ (forall template1 template2,
         template1 = None \/ template2 = None ->
         compareFingerprints template1 template2
         = Return {| matched := false; score := ofZ 0 |}).
Proof.
  split.
  - intros [t1|] [t2|] H1 H2; try (eexists; reflexivity).
    destruct (H1 t1 eq_refl) as (bytes1 & E1).
    destruct (H2 t2 eq_refl) as (bytes2 & E2).
    unfold compareFingerprints. rewrite E1, E2. cbn [bindR].
    destruct (String.eqb (raw t1) (raw t2)); eexists; reflexivity.
  - intros template1 template2 [-> | ->]; [reflexivity|].
    destruct template1; reflexivity.
Qed.

Lemma compareFingerprints_absent_witness :
  (exists r,
      compareFingerprints (Some (templateDe dezZeros))
                          (Some (templateDe seteZerosTres255)) = Return r)
  /\ compareFingerprints None (Some (templateDe dezZeros))
     = Return {| matched := false; score := ofZ 0 |}.
Proof.
  split.
  - apply (proj1 compareFingerprints_absent
             (Some (templateDe dezZeros))
             (Some (templateDe seteZerosTres255))).
    + intros t [= <-]. eexists. vm_compute. reflexivity.
    + intros t [= <-]. eexists. vm_compute. reflexivity.
  - apply (proj2 compareFingerprints_absent
             None (Some (templateDe dezZeros))).
    left. reflexivity.
Defined.

End MatcherProps.

(** * Frame properties of the world *)

Module Frame.
Import FingerprintService.

Lemma acrescenta_refl p w : acrescenta p w w.
Proof. exists []. split; [symmetry; apply app_nil_r | reflexivity]. Qed.

Lemma acrescenta_trans p w1 w2 w3 :
  acrescenta p w1 w2 -> acrescenta p w2 w3 -> acrescenta p w1 w3.
Proof.
  intros (e1 & H1 & P1) (e2 & H2 & P2). exists (e1 ++ e2)%list. split.
  - rewrite H2, H1. symmetry. apply app_assoc.
  - rewrite forallb_app, P1, P2. reflexivity.
Qed.

Lemma acrescenta_registrar p ev w :
  p ev = true -> acrescenta p w (registrar ev w).
Proof. intros H. exists [ev]. split; [reflexivity | simpl; rewrite H; reflexivity]. Qed.

Lemma acrescenta_same p w w' :
  historico w' = historico w -> acrescenta p w w'.
Proof. intros H. exists []. rewrite H. split; [symmetry; apply app_nil_r | reflexivity]. Qed.

Lemma soInterface_refl w : soInterface w w.
Proof. split; [reflexivity | apply acrescenta_refl]. Qed.

Lemma soInterface_trans w1 w2 w3 :
  soInterface w1 w2 -> soInterface w2 w3 -> soInterface w1 w3.
Proof.
  intros [D1 A1] [D2 A2]. split; [congruence | eapply acrescenta_trans; eauto].
Qed.

Lemma soInterface_registrar ev w :
  eventoDoStore ev = false -> ehComparacao ev = false ->
  soInterface w (registrar ev w).
Proof.
  intros H1 H2. split; [reflexivity|].
  apply acrescenta_registrar. rewrite H1, H2. reflexivity.
Qed.

Lemma soInterface_comJanela f w : soInterface w (comJanela f w).
Proof. split; [reflexivity | apply acrescenta_same; reflexivity]. Qed.

Lemma soInterface_comAmbiente f w : soInterface w (comAmbiente f w).
Proof. split; [reflexivity | apply acrescenta_same; reflexivity]. Qed.

(** ** Combinators *)

Section Respeita.
Variable R : World -> World -> Prop.
Hypothesis R_refl : forall w, R w w.
Hypothesis R_trans : forall w1 w2 w3, R w1 w2 -> R w2 w3 -> R w1 w3.

Lemma respeita_ret A (a : A) : respeita R (ret a).
Proof. intros w r w' [= _ <-]. apply R_refl. Qed.

Lemma respeita_throw A e : respeita R (@throw A e).
Proof. intros w r w' [= _ <-]. apply R_refl. Qed.

Lemma respeita_efeito f : (forall w, R w (f w)) -> respeita R (efeito f).
Proof. intros H w r w' [= _ <-]. apply H. Qed.

Lemma respeita_bind A B (m : M A) (k : A -> M B) :
  respeita R m -> (forall a, respeita R (k a)) -> respeita R (bind m k).
Proof.
  intros Hm Hk w r w'. unfold bind.
  destruct (m w) as [[a|e] w1] eqn:E.
  - intros H. eapply R_trans; [eapply Hm; eauto | eapply Hk; eauto].
  - intros [= _ <-]. eapply Hm; eauto.
Qed.

Lemma respeita_tryCatch A (m : M A) (h : Erro -> M A) :
  respeita R m -> (forall e, respeita R (h e)) -> respeita R (tryCatch m h).
Proof.
  intros Hm Hh w r w'. unfold tryCatch.
  destruct (m w) as [[a|e] w1] eqn:E.
  - intros [= _ <-]. eapply Hm; eauto.
  - intros H. eapply R_trans; [eapply Hm; eauto | eapply Hh; eauto].
Qed.

Lemma respeita_tryFinally A (m : M A) f :
  respeita R m -> (forall w, R w (f w)) -> respeita R (tryFinally m f).
Proof.
  intros Hm Hf w r w'. unfold tryFinally.
  destruct (m w) as [r1 w1] eqn:E. intros [= _ <-].
  eapply R_trans; [eapply Hm; eauto | apply Hf].
Qed.

End Respeita.

End Frame.

(** * Properties of the capture *)

Module CaptureProps.
Import FingerprintService.

Lemma nth_substituir {A} (l : list A) n x d :
  (n < List.length l)%nat -> nth n (substituir n x l) d = x.
Proof.
  revert n. induction l as [|y l IH]; intros [|n] H; cbn in *; try lia.
  - reflexivity.
  - apply IH. lia.
Qed.

(** What a call of [captureFingerprint()] leaves behind when
    [startCapture] does not throw. *)
Lemma captureFingerprint_started w :
  (forall msg r, falhasSdk (ambiente w) <> Some msg :: r) ->
  exists w1,
    captureFingerprint w = (List.length (promessas (janela w)), w1)
    /\ promessas (janela w1) = (promessas (janela w) ++ [Pendente])%list
    /\ sampleAcquired (janela w1)
       = capturaSampleAcquired (List.length (promessas (janela w)))
                               (sampleAcquired (janela w))
    /\ temporizadores (janela w1)
       = (temporizadores (janela w)
          ++ [(List.length (promessas (janela w)),
               sampleAcquired (janela w))])%list
    /\ eventos (ambiente w1) = eventos (ambiente w)
    /\ db w1 = db w
    /\ historico w1
       = (historico w
          ++ [FingerprintStatus "Posicione seu dedo no leitor...";
              StatusLine "Posicione seu dedo no leitor..." "info";
              StartCapture])%list.
Proof.
  intros Hsdk. unfold captureFingerprint, novaPromessa, startCapture.
  cbn -[List.length nth].
  destruct (falhasSdk (ambiente w)) as [|[msg|] r] eqn:E.
  - eexists. split; [reflexivity|]. cbn -[List.length nth].
    repeat split. rewrite <- !app_assoc. reflexivity.
  - exfalso. eapply Hsdk. reflexivity.
  - eexists. split; [reflexivity|]. cbn -[List.length nth].
    repeat split. rewrite <- !app_assoc. reflexivity.
Qed.

(** C3, as the code has it: a call of [captureFingerprint()] is accepted
    whether or not another capture is pending.  When [startCapture] does not
    throw, the call returns a fresh pending promise, leaves every earlier
    promise as it was, installs its own wrapper around the handler it found
    (the wrapper of the pending capture, when there is one), arms its own
    timer and calls [startCapture] once more. *)
Theorem captureFingerprint_accepts_while_pending w :
  (forall msg r, falhasSdk (ambiente w) <> Some msg :: r) ->
  exists w',
    captureFingerprint w = (List.length (promessas (janela w)), w')
    /\ estado (List.length (promessas (janela w))) w' = Pendente
    /\ (forall q, (q < List.length (promessas (janela w)))%nat ->
                  estado q w' = estado q w)
    /\ sampleAcquired (janela w')
       = capturaSampleAcquired (List.length (promessas (janela w)))
                               (sampleAcquired (janela w))
    /\ temporizadores (janela w')
       = (temporizadores (janela w)
          ++ [(List.length (promessas (janela w)),
               sampleAcquired (janela w))])%list
    /\ historico w'
       = (historico w
          ++ [FingerprintStatus "Posicione seu dedo no leitor...";
              StatusLine "Posicione seu dedo no leitor..." "info";
              StartCapture])%list.
Proof.
  intros Hsdk.
  destruct (captureFingerprint_started w Hsdk)
    as (w1 & E & Hp & Hs & Htm & _ & _ & Hh).
  exists w1. split; [exact E|].
  unfold estado. rewrite Hp.
  split; [apply nth_middle|].
  split; [intros q Hq; apply app_nth1; exact Hq|].
  auto.
Qed.

(** The theorem applied while the first capture is still pending. *)
Lemma captureFingerprint_accepts_while_pending_witness :
  exists w',
    captureFingerprint capturaPendente = (1%nat, w')
    /\ estado 1 w' = Pendente
    /\ (forall q, (q < 1)%nat -> estado q w' = estado q capturaPendente)
    /\ sampleAcquired (janela w')
       = capturaSampleAcquired 1
           (capturaSampleAcquired 0 paginaSampleAcquired)
    /\ temporizadores (janela w')
       = [(0%nat, paginaSampleAcquired);
          (1%nat, capturaSampleAcquired 0 paginaSampleAcquired)]
    /\ historico w'
       = (historico capturaPendente
          ++ [FingerprintStatus "Posicione seu dedo no leitor...";
              StatusLine "Posicione seu dedo no leitor..." "info";
              StartCapture])%list.
Proof.
  apply (captureFingerprint_accepts_while_pending capturaPendente).
  intros msg r. discriminate.
Defined.

(** C3, the claim refuted: with the first capture pending (promise 0,
    its wrapper installed), a second call does not fail.  It returns
    promise 1, still pending, replaces [window.sampleAcquired] by a second
    wrapper and calls [startCapture] a second time. *)
Lemma captureFingerprint_no_SessionBusy :
  estado 0 capturaPendente = Pendente
  /\ sampleAcquired (janela capturaPendente)
     = capturaSampleAcquired 0 paginaSampleAcquired
  /\ fst (captureFingerprint capturaPendente) = 1%nat
  /\ estado 1 (snd (captureFingerprint capturaPendente)) = Pendente
  /\ sampleAcquired (janela (snd (captureFingerprint capturaPendente)))
     = capturaSampleAcquired 1 (capturaSampleAcquired 0 paginaSampleAcquired)
  /\ chamadasStartCapture (historico capturaPendente) = 1%nat
  /\ chamadasStartCapture
       (historico (snd (captureFingerprint capturaPendente))) = 2%nat.
Proof. repeat split. Qed.

(** With two captures pending, one sample settles both promises with the
    same template, and the handler left behind is the wrapper of the first
    capture instead of the page's own. *)
Lemma two_pending_captures_share_a_sample :
  let w := entregar (ChegaAmostra (amostraDe "CgoK"))
                    (snd (captureFingerprint capturaPendente)) in
  estado 0 w = Resolvida (templateDe "CgoK")
  /\ estado 1 w = Resolvida (templateDe "CgoK")
  /\ sampleAcquired (janela w) = capturaSampleAcquired 0 paginaSampleAcquired.
Proof. repeat split. Qed.

End CaptureProps.

(** * Properties of the attendance records *)

Module AttendanceProps.
Import FirebaseService.

(** ** Round trips and clock readings *)

Lemma disponivel_S n o l :
  disponivel (S n) (o :: l) = true -> o = None /\ disponivel n l = true.
Proof.
  unfold disponivel. cbn [firstn forallb]. destruct o; [discriminate|].
  intros H. split; [reflexivity | exact H].
Qed.

(** A round trip that the store answers. *)
Lemma roundTrip_ok ev w n :
  disponivel (S n) (falhasStore (ambiente w)) = true ->
  exists w',
    roundTrip ev w = (Return tt, w')
    /\ db w' = db w
    /\ janela w' = janela w
    /\ historico w' = (historico w ++ [ev])%list
    /\ fuso (ambiente w') = fuso (ambiente w)
    /\ relogio (ambiente w') = relogio (ambiente w)
    /\ ultimaLeitura (ambiente w') = ultimaLeitura (ambiente w)
    /\ disponivel n (falhasStore (ambiente w')) = true.
Proof.
  intros H. unfold roundTrip. cbn [registrar ambiente].
  destruct (falhasStore (ambiente w)) as [|o l] eqn:E.
  - eexists. split; [reflexivity|]. cbn. rewrite E.
    repeat split. unfold disponivel. destruct n; reflexivity.
  - apply disponivel_S in H. destruct H as [-> H].
    eexists. split; [reflexivity|]. cbn. repeat split. exact H.
Qed.

(** A round trip that the store rejects. *)
Lemma roundTrip_rejected ev w msg l :
  falhasStore (ambiente w) = Some msg :: l ->
  exists w',
    roundTrip ev w = (Throw (Error msg), w')
    /\ db w' = db w
    /\ historico w' = (historico w ++ [ev])%list
    /\ fuso (ambiente w') = fuso (ambiente w)
    /\ falhasStore (ambiente w') = l.
Proof.
  intros E. unfold roundTrip. cbn [registrar ambiente]. rewrite E.
  eexists. split; [reflexivity|]. cbn. repeat split.
Qed.

(** A reading of the clock changes nothing but the clock. *)
Lemma newDate_frame w :
  exists t w',
    newDate w = (Return t, w')
    /\ db w' = db w
    /\ janela w' = janela w
    /\ historico w' = historico w
    /\ fuso (ambiente w') = fuso (ambiente w)
    /\ falhasStore (ambiente w') = falhasStore (ambiente w).
Proof.
  unfold newDate. destruct (relogio (ambiente w)) as [|t r].
  - exists (ultimaLeitura (ambiente w)), w. repeat split.
  - eexists _, _. split; [reflexivity|]. cbn. repeat split.
Qed.

Lemma newDate_inv w t w' :
  newDate w = (Return t, w') ->
  db w' = db w /\ historico w' = historico w
  /\ fuso (ambiente w') = fuso (ambiente w)
  /\ falhasStore (ambiente w') = falhasStore (ambiente w).
Proof.
  destruct (newDate_frame w) as (t0 & w0 & E & H1 & _ & H2 & H3 & H4).
  rewrite E. intros [= <- <-]. auto.
Qed.

(** ** The query for the last record *)






(** ** [determinarTipoRegistro] *)

Lemma determinarTipoRegistro_ok funcionarioId w hoje w1 n :
  newDate w = (Return hoje, w1) ->
  disponivel (S n) (falhasStore (ambiente w)) = true ->
  exists w',
    determinarTipoRegistro funcionarioId w
    = (Return (tipoSeguinte
                 (firstn 1 (orderByHorarioDesc
                    (registrosDesde funcionarioId
                       (LocalDate.inicioDoDia (fuso (ambiente w)) hoje)
                       (registros (db w)))))), w')
    /\ db w' = db w
    /\ fuso (ambiente w') = fuso (ambiente w)
    /\ historico w' = (historico w ++ [StoreGet Registros])%list
    /\ disponivel n (falhasStore (ambiente w')) = true.
Proof.
  intros Hd Hs.
  destruct (newDate_inv _ _ _ Hd) as (Hdb & Hh & Hf & Hfs).
  rewrite <- Hfs in Hs.
  destruct (roundTrip_ok (StoreGet Registros) w1 n Hs)
    as (w2 & E & Hdb2 & _ & Hh2 & Hf2 & _ & _ & Hs2).
  exists w2.
  unfold determinarTipoRegistro, tryCatch, bind. rewrite Hd.
  unfold consultaUltimoRegistro, bind. rewrite E.
  rewrite Hdb2, Hdb, Hf. fold (registrosDesde funcionarioId
    (LocalDate.inicioDoDia (fuso (ambiente w)) hoje) (registros (db w))).
  repeat split; try congruence.
  destruct (firstn 1 _); reflexivity.
Qed.

(** When the store rejects the query, the [catch] block answers
    ["entrada"]. *)
Lemma determinarTipoRegistro_rejected funcionarioId w msg l :
  falhasStore (ambiente w) = Some msg :: l ->
  exists w',
    determinarTipoRegistro funcionarioId w = (Return "entrada", w')
    /\ db w' = db w
    /\ fuso (ambiente w') = fuso (ambiente w)
    /\ historico w' = (historico w ++ [StoreGet Registros])%list
    /\ falhasStore (ambiente w') = l.
Proof.
  intros Hs.
  destruct (newDate_frame w) as (hoje & w1 & Hd & Hdb & _ & Hh & Hf & Hfs).
  rewrite <- Hfs in Hs.
  destruct (roundTrip_rejected (StoreGet Registros) w1 msg l Hs)
    as (w2 & E & Hdb2 & Hh2 & Hf2 & Hs2).
  exists w2.
  unfold determinarTipoRegistro, tryCatch, bind. rewrite Hd.
  unfold consultaUltimoRegistro, bind. rewrite E.
  repeat split; congruence.
Qed.

Lemma addRegistro_ok doc w n :
  disponivel (S n) (falhasStore (ambiente w)) = true ->
  exists w',
    addRegistro doc w = (Return (proximoId (db w)), w')
    /\ registros (db w') = (registros (db w) ++ [doc (proximoId (db w))])%list
    /\ funcionarios (db w') = funcionarios (db w)
    /\ historico w' = (historico w ++ [StoreAdd Registros])%list.
Proof.
  intros Hs.
  destruct (roundTrip_ok (StoreAdd Registros) w n Hs)
    as (w1 & E & Hdb & _ & Hh & _).
  unfold addRegistro, bind. rewrite E, Hdb.
  eexists. split; [reflexivity|]. cbn. rewrite Hdb. repeat split. exact Hh.
Qed.

(** What [registrarPonto] does once the type is determined and the store
    accepts the write. *)
Lemma registrarPonto_writes funcionarioId nomeFuncionario w agora wa tipo wb :
  newDate w = (Return agora, wa) ->
  determinarTipoRegistro funcionarioId wa = (Return tipo, wb) ->
  db wb = db w ->
  disponivel 1 (falhasStore (ambiente wb)) = true ->
  exists novo w',
    registrarPonto funcionarioId nomeFuncionario w
    = (Return {| p_id := r_id novo; p_tipo := tipo; p_horario := agora |}, w')
    /\ registros (db w') = (registros (db w) ++ [novo])%list
    /\ funcionarios (db w') = funcionarios (db w)
    /\ r_funcionarioId novo = funcionarioId
    /\ r_horario novo = agora
    /\ r_tipo novo = tipo.
Proof.
  intros Hd Ht Hdb Hs.
  unfold registrarPonto, tryCatch, bind. rewrite Hd, Ht.
  match goal with
  | |- context [addRegistro ?doc wb] =>
      destruct (addRegistro_ok doc wb 0 Hs) as (w' & E & Hr & Hf & _);
      rewrite E; exists (doc (proximoId (db wb))), w'
  end.
  cbn [ret r_id r_funcionarioId r_horario r_tipo].
  rewrite Hr, Hf, Hdb. repeat split.
Qed.

Lemma registrarPonto_write_rejected
      funcionarioId nomeFuncionario w agora wa tipo wb msg l :
  newDate w = (Return agora, wa) ->
  determinarTipoRegistro funcionarioId wa = (Return tipo, wb) ->
  db wb = db w ->
  falhasStore (ambiente wb) = Some msg :: l ->
  exists w',
    registrarPonto funcionarioId nomeFuncionario w = (Throw (Error msg), w')
    /\ db w' = db w.
Proof.
  intros Hd Ht Hdb Hs.
  unfold registrarPonto, tryCatch, bind. rewrite Hd, Ht.
  unfold addRegistro, bind.
  destruct (roundTrip_rejected (StoreAdd Registros) wb msg l Hs)
    as (w' & E & Hdb' & _).
  rewrite E. exists w'. split; [reflexivity | congruence].
Qed.

(** C1, as the code has it: when the store rejects the query for the last
    record, [determinarTipoRegistro] swallows the failure and answers
    ["entrada"]; no setting governs this.  [registrarPonto] then goes on:
    if the store accepts the write, the event succeeds with a record of
    type ["entrada"]; if the store rejects the write too, that second
    failure is what [registrarPonto] throws, and nothing is written. *)
Theorem registrarPonto_lookup_failure_defaults_to_entrada
        funcionarioId nomeFuncionario w msg l :
  falhasStore (ambiente w) = Some msg :: l ->
  (disponivel 1 l = true ->
   exists ponto novo w',
     registrarPonto funcionarioId nomeFuncionario w = (Return ponto, w')
     /\ p_tipo ponto = "entrada"
     /\ registros (db w') = (registros (db w) ++ [novo])%list
     /\ r_funcionarioId novo = funcionarioId
     /\ r_tipo novo = "entrada")
  /\ (forall msg' l',
         l = Some msg' :: l' ->
         exists w',
           registrarPonto funcionarioId nomeFuncionario w
           = (Throw (Error msg'), w')
           /\ db w' = db w).
Proof.
  intros Hs.
  destruct (newDate_frame w) as (agora & wa & Hd & Hdb & _ & _ & _ & Hfs).
  rewrite <- Hfs in Hs.
  destruct (determinarTipoRegistro_rejected funcionarioId wa msg l Hs)
    as (wb & Ht & Hdb2 & _ & _ & Hs2).
  split.
  - intros Hl. rewrite <- Hs2 in Hl.
    destruct (registrarPonto_writes funcionarioId nomeFuncionario
                w agora wa "entrada" wb Hd Ht ltac:(congruence) Hl)
      as (novo & w' & E & Hr & _ & Hid & _ & Htipo).
    eexists _, novo, w'. split; [exact E|]. auto.
  - intros msg' l' ->.
    apply (registrarPonto_write_rejected funcionarioId nomeFuncionario
             w agora wa "entrada" wb msg' l' Hd Ht ltac:(congruence) Hs2).
Qed.

Lemma registrarPonto_lookup_failure_defaults_to_entrada_witness :
  exists ponto novo w',
    registrarPonto 0%nat "Ana" storeIndisponivel = (Return ponto, w')
    /\ p_tipo ponto = "entrada"
    /\ registros (db w')
       = (registros (db storeIndisponivel) ++ [novo])%list
    /\ r_funcionarioId novo = 0%nat
    /\ r_tipo novo = "entrada".
Proof.
  apply (proj1 (registrarPonto_lookup_failure_defaults_to_entrada
                  0%nat "Ana" storeIndisponivel "unavailable" []
                  eq_refl)).
  reflexivity.
Defined.

(** C1, the claim refuted: the employee 0 clocked in at 09:00; at 10:00
    the store rejects the query for the last record.  The event is not
    fatal: [registrarPonto] returns a record, and its type is ["entrada"]
    a second time in a row. *)
Lemma registrarPonto_lookup_failure_not_fatal :
  falhasStore (ambiente storeIndisponivel) = [Some "unavailable"]
  /\ fst (registrarPonto 0%nat "Ana" storeIndisponivel)
     = Return {| p_id := 2%nat; p_tipo := "entrada"; p_horario := 122400000 |}
  /\ map r_tipo (registros (db (snd (registrarPonto 0%nat "Ana" storeIndisponivel))))
     = ["entrada"; "entrada"]
  /\ fst (registrarPonto 0%nat "Ana" storeDisponivel)
     = Return {| p_id := 2%nat; p_tipo := "saída"; p_horario := 122400000 |}.
Proof. repeat split. Qed.



End AttendanceProps.

(** * Properties of the enrollment in the store *)

Module EnrollmentStoreProps.
Import FirebaseService AttendanceProps.

Lemma falhas_cases (l : list (option string)) :
  disponivel 1 l = true \/ exists msg r, l = Some msg :: r.
Proof.
  destruct l as [|[msg|] r].
  - left. reflexivity.
  - right. eauto.
  - left. reflexivity.
Qed.

Lemma limit_one_is_find {A} (p : A -> bool) (l : list A) :
  match firstn 1 (filter p l) with
  | [] => None
  | doc :: _ => Some doc
  end = find p l.
Proof.
  induction l as [|x l IH]; simpl; [reflexivity|].
  destruct (p x); [reflexivity | exact IH].
Qed.

(** The exact lookup reads the store and answers with the first active
    document, in store order, whose payload equals the given one. *)
Lemma buscarFuncionarioPorDigitalExata_ok digitalRaw w n :
  disponivel (S n) (falhasStore (ambiente w)) = true ->
  exists w',
    buscarFuncionarioPorDigitalExata digitalRaw w
    = (Return (find (digitalExata digitalRaw) (funcionarios (db w))), w')
    /\ db w' = db w
    /\ janela w' = janela w
    /\ historico w' = (historico w ++ [StoreGet Funcionarios])%list
    /\ fuso (ambiente w') = fuso (ambiente w)
    /\ relogio (ambiente w') = relogio (ambiente w)
    /\ ultimaLeitura (ambiente w') = ultimaLeitura (ambiente w)
    /\ disponivel n (falhasStore (ambiente w')) = true.
Proof.
  intros Hs.
  destruct (roundTrip_ok (StoreGet Funcionarios) w n Hs)
    as (w1 & E & Hdb & Hj & Hh & Hf & Hr & Hu & Hs1).
  exists w1.
  unfold buscarFuncionarioPorDigitalExata, tryCatch, bind,
    consultaDigitalExata, bind.
  rewrite E, Hdb.
  rewrite <- (limit_one_is_find (digitalExata digitalRaw)
                (funcionarios (db w))).
  unfold digitalExata.
  repeat split; try assumption.
  destruct (firstn 1 _); reflexivity.
Qed.

Lemma buscarFuncionarioPorDigitalExata_rejected digitalRaw w msg l :
  falhasStore (ambiente w) = Some msg :: l ->
  exists w',
    buscarFuncionarioPorDigitalExata digitalRaw w = (Throw (Error msg), w')
    /\ db w' = db w.
Proof.
  intros Hs.
  destruct (roundTrip_rejected (StoreGet Funcionarios) w msg l Hs)
    as (w1 & E & Hdb & _).
  exists w1.
  unfold buscarFuncionarioPorDigitalExata, tryCatch, bind,
    consultaDigitalExata, bind.
  rewrite E. split; [reflexivity | exact Hdb].
Qed.

Lemma addFuncionario_cases doc w r w' :
  addFuncionario doc w = (r, w') ->
  (exists e, r = Throw e /\ db w' = db w)
  \/ (r = Return (proximoId (db w))
      /\ funcionarios (db w')
         = (funcionarios (db w) ++ [doc (proximoId (db w))])%list
      /\ registros (db w') = registros (db w)).
Proof.
  unfold addFuncionario, bind.
  destruct (falhas_cases (falhasStore (ambiente w))) as [Hs|(msg & l & Hs)].
  - destruct (roundTrip_ok (StoreAdd Funcionarios) w 0 Hs)
      as (w1 & E & Hdb & _).
    rewrite E, Hdb. intros [= <- <-]. right. cbn. rewrite Hdb. auto.
  - destruct (roundTrip_rejected (StoreAdd Funcionarios) w msg l Hs)
      as (w1 & E & Hdb & _).
    rewrite E. intros [= <- <-]. left. eauto.
Qed.

(** The two ways [cadastrarFuncionario] ends: it throws and leaves the
    database as it was, or no active document had the payload and exactly
    one active document with that payload was appended. *)
Lemma cadastrarFuncionario_cases funcionario digitalTemplate w r w' :
  cadastrarFuncionario funcionario digitalTemplate w = (r, w') ->
  (exists e, r = Throw e /\ db w' = db w)
  \/ (exists novo,
         r = Return (f_id novo)
         /\ find (digitalExata (raw digitalTemplate)) (funcionarios (db w))
            = None
         /\ funcionarios (db w') = (funcionarios (db w) ++ [novo])%list
         /\ registros (db w') = registros (db w)
         /\ f_ativo novo = true
         /\ f_nome novo = nome funcionario
         /\ f_digital novo
            = Some {| formato := format digitalTemplate;
                      dados := raw digitalTemplate;
                      digital_dataCadastro := serverTimestamp |}).
Proof.
  unfold cadastrarFuncionario, tryCatch at 1, bind.
  destruct (falhas_cases (falhasStore (ambiente w))) as [Hs|(msg & l & Hs)].
  - destruct (buscarFuncionarioPorDigitalExata_ok
                (raw digitalTemplate) w 0 Hs) as (w1 & E & Hdb & _).
    rewrite E.
    destruct (find (digitalExata (raw digitalTemplate))
                   (funcionarios (db w))) as [f|] eqn:Ef.
    + intros [= <- <-]. left. eauto.
    + match goal with
      | |- context [addFuncionario ?doc w1] =>
          destruct (addFuncionario doc w1) as [r1 w2] eqn:Ea;
          destruct (addFuncionario_cases doc w1 r1 w2 Ea)
            as [(e & -> & Hdb2)|(-> & Hfs & Hrs)]
      end.
      * intros [= <- <-]. left. exists e. split; congruence.
      * intros [= <- <-]. right.
        match type of Hfs with
        | _ = (_ ++ [?novo])%list => exists novo
        end.
        rewrite Hfs, Hrs, Hdb. cbn. repeat split.
  - destruct (buscarFuncionarioPorDigitalExata_rejected
                (raw digitalTemplate) w msg l Hs) as (w1 & E & Hdb).
    rewrite E. intros [= <- <-]. left. eauto.
Qed.

(** A payload that an active document already has is refused, and nothing
    is written. *)
Lemma cadastrarFuncionario_duplicate funcionario digitalTemplate w f :
  find (digitalExata (raw digitalTemplate)) (funcionarios (db w)) = Some f ->
  exists e w',
    cadastrarFuncionario funcionario digitalTemplate w = (Throw e, w')
    /\ db w' = db w
    /\ (disponivel 1 (falhasStore (ambiente w)) = true ->
        e = Error mensagemDuplicada).
Proof.
  intros Ef.
  unfold cadastrarFuncionario, tryCatch at 1, bind.
  destruct (falhas_cases (falhasStore (ambiente w))) as [Hs|(msg & l & Hs)].
  - destruct (buscarFuncionarioPorDigitalExata_ok
                (raw digitalTemplate) w 0 Hs) as (w1 & E & Hdb & _).
    rewrite E, Ef. eexists _, w1. split; [reflexivity|]. auto.
  - destruct (buscarFuncionarioPorDigitalExata_rejected
                (raw digitalTemplate) w msg l Hs) as (w1 & E & Hdb).
    rewrite E. eexists _, w1. split; [reflexivity|]. split; [exact Hdb|].
    rewrite Hs. discriminate.
Qed.

Lemma digitaisAtivas_app fs gs :
  digitaisAtivas (fs ++ gs) = (digitaisAtivas fs ++ digitaisAtivas gs)%list.
Proof. unfold digitaisAtivas. apply flat_map_app. Qed.

Lemma In_digitaisAtivas digitalRaw fs :
  In digitalRaw (digitaisAtivas fs) ->
  exists f, In f fs /\ digitalExata digitalRaw f = true.
Proof.
  unfold digitaisAtivas. rewrite in_flat_map. intros (f & Hf & Hin).
  exists f. split; [exact Hf|].
  unfold digitalExata, temDigital.
  destruct (f_ativo f); [|destruct Hin].
  destruct (f_digital f) as [d|]; [|destruct Hin].
  destruct Hin as [<-|[]]. rewrite String.eqb_refl. reflexivity.
Qed.

(** Enrollment in the store keeps the payloads of the active employees
    pairwise distinct. *)
Lemma cadastrarFuncionario_keeps_unique funcionario digitalTemplate w r w' :
  semDuplicatas (funcionarios (db w)) ->
  cadastrarFuncionario funcionario digitalTemplate w = (r, w') ->
  semDuplicatas (funcionarios (db w')).
Proof.
  intros Hu E.
  destruct (cadastrarFuncionario_cases _ _ _ _ _ E)
    as [(e & _ & Hdb)|(novo & _ & Hnone & Hfs & _ & Hat & _ & Hdig)].
  - rewrite Hdb. exact Hu.
  - unfold semDuplicatas. rewrite Hfs, digitaisAtivas_app.
    unfold digitaisAtivas at 2. cbn [flat_map]. rewrite Hat, Hdig.
    cbn [dados app]. apply NoDup_app; [exact Hu | | ].
    + constructor; [intros [] | constructor].
    + intros x Hx [<-|[]].
      destruct (In_digitaisAtivas _ _ Hx) as (f & Hf & Hp).
      generalize (find_none _ _ Hnone f Hf). congruence.
Qed.

(** C5: after an enrollment with payload [raw t1] has succeeded, every
    enrollment of another profile with the same payload throws and writes
    nothing (the error is the duplicate error whenever the store answers the
    lookup), and the payloads of the active employees stay pairwise
    distinct. *)
Theorem cadastrarFuncionario_rejects_duplicate
        funcionario1 t1 funcionario2 t2 w id1 w1 :
  semDuplicatas (funcionarios (db w)) ->
  cadastrarFuncionario funcionario1 t1 w = (Return id1, w1) ->
  raw t2 = raw t1 ->
  exists e w2,
    cadastrarFuncionario funcionario2 t2 w1 = (Throw e, w2)
    /\ db w2 = db w1
    /\ (disponivel 1 (falhasStore (ambiente w1)) = true ->
        e = Error mensagemDuplicada)
    /\ semDuplicatas (funcionarios (db w1))
    /\ semDuplicatas (funcionarios (db w2)).
Proof.
  intros Hu E1 Hraw.
  assert (Hu1 := cadastrarFuncionario_keeps_unique _ _ _ _ _ Hu E1).
  destruct (cadastrarFuncionario_cases _ _ _ _ _ E1)
    as [(e & [=] & _)|(novo & _ & _ & Hfs & _ & Hat & _ & Hdig)].
  assert (Hfind : exists f,
             find (digitalExata (raw t2)) (funcionarios (db w1)) = Some f).
  { destruct (find (digitalExata (raw t2)) (funcionarios (db w1)))
      as [f|] eqn:Ef; [eauto|].
    exfalso.
    assert (Hin : In novo (funcionarios (db w1))).
    { rewrite Hfs. apply in_or_app. right. left. reflexivity. }
    generalize (find_none _ _ Ef novo Hin).
    unfold digitalExata, temDigital. rewrite Hdig, Hat, Hraw.
    cbn [dados]. rewrite String.eqb_refl. discriminate. }
  destruct Hfind as (f & Hfind).
  destruct (cadastrarFuncionario_duplicate funcionario2 t2 w1 f Hfind)
    as (e & w2 & E2 & Hdb & He).
  exists e, w2. repeat split; try assumption.
  rewrite Hdb. exact Hu1.
Qed.

(** Ana and then Bruno enrolled with the same payload in the empty
    database. *)
Lemma cadastrarFuncionario_rejects_duplicate_witness :
  exists e w2,
    cadastrarFuncionario perfilBruno (templateDe "CgoK")
      (snd (cadastrarFuncionario perfilAna (templateDe "CgoK") mundoInicial))
    = (Throw e, w2)
    /\ db w2
       = db (snd (cadastrarFuncionario perfilAna (templateDe "CgoK")
                    mundoInicial))
    /\ (disponivel 1
          (falhasStore
             (ambiente (snd (cadastrarFuncionario perfilAna
                               (templateDe "CgoK") mundoInicial)))) = true ->
        e = Error mensagemDuplicada)
    /\ semDuplicatas
         (funcionarios
            (db (snd (cadastrarFuncionario perfilAna (templateDe "CgoK")
                        mundoInicial))))
    /\ semDuplicatas (funcionarios (db w2)).
Proof.
  apply (cadastrarFuncionario_rejects_duplicate
           perfilAna (templateDe "CgoK") perfilBruno (templateDe "CgoK")
           mundoInicial 0%nat).
  - constructor.
  - reflexivity.
  - reflexivity.
Defined.

End EnrollmentStoreProps.

(** * Frame properties of the capture *)

Module CaptureFrame.
Import FingerprintService Frame.

(** One primitive update of the world, and a chain of them. *)
Ltac frame_last :=
  first [ apply soInterface_comJanela
        | apply soInterface_comAmbiente
        | apply soInterface_registrar; reflexivity ].

Ltac frame_step := first [ frame_last | apply soInterface_refl ].

Ltac frame_chain :=
  repeat first [ frame_last
               | eapply soInterface_trans; [| frame_last ] ];
  try apply soInterface_refl.

Lemma soInterface_liquidar promessa p w : soInterface w (liquidar promessa p w).
Proof. unfold liquidar. destruct (estado promessa w); frame_step. Qed.

Lemma soInterface_expirar promessa original w :
  soInterface w (expirar promessa original w).
Proof.
  unfold expirar, reject, stopCapture, set_sampleAcquired.
  eapply soInterface_trans; [|apply soInterface_liquidar].
  frame_chain.
Qed.

Lemma soInterface_chamar h s w : soInterface w (chamar h s w).
Proof.
  revert w. induction h as [|promessa original IH]; intros w; cbn [chamar].
  - unfold localStorage_setItem. frame_step.
  - destruct (truthy _); [|apply IH].
    unfold set_sampleAcquired, resolve, stopCapture,
      dispatchFingerprintCaptured.
    eapply soInterface_trans; [|frame_step].
    eapply soInterface_trans; [|apply soInterface_liquidar].
    eapply soInterface_trans; [apply IH|].
    frame_chain.
Qed.

Lemma soInterface_entregar ev w : soInterface w (entregar ev w).
Proof.
  destruct ev as [s|]; cbn [entregar].
  - apply soInterface_chamar.
  - destruct (temporizadores (janela w)) as [|[promessa original] ts].
    + frame_step.
    + eapply soInterface_trans; [|apply soInterface_expirar].
      unfold set_temporizadores. frame_step.
Qed.

Lemma soInterface_aguardar evs promessa w :
  soInterface w (aguardar evs promessa w).
Proof.
  revert w. induction evs as [|ev evs IH]; intros w; cbn [aguardar].
  - destruct (estado promessa w); unfold set_eventos; frame_step.
  - destruct (estado promessa w); try (unfold set_eventos; frame_step).
    eapply soInterface_trans; [apply soInterface_entregar | apply IH].
Qed.

Lemma soInterface_esgotar w : soInterface w (esgotar w).
Proof.
  unfold esgotar. generalize (temporizadores (janela w)) as ts.
  intros ts. revert w. induction ts as [|t ts IH]; intros w; cbn [fold_left].
  - frame_step.
  - eapply soInterface_trans; [apply soInterface_entregar | apply IH].
Qed.

Lemma respeita_await promessa : respeita soInterface (await promessa).
Proof.
  intros w r w'. unfold await.
  set (w1 := aguardar (eventos (ambiente w)) promessa w).
  assert (H1 : soInterface w w1) by apply soInterface_aguardar.
  set (w2 := match estado promessa w1 with
             | Pendente => esgotar w1
             | _ => w1
             end).
  assert (H2 : soInterface w1 w2).
  { unfold w2. destruct (estado promessa w1);
      [apply soInterface_esgotar | frame_step | frame_step]. }
  destruct (estado promessa w2); intros [= _ <-];
    eapply soInterface_trans; eauto.
Qed.

Lemma soInterface_captureFingerprint w :
  soInterface w (snd (captureFingerprint w)).
Proof.
  unfold captureFingerprint, novaPromessa, startCapture.
  cbn -[List.length].
  destruct (falhasSdk (ambiente w)) as [|[msg|] r]; cbn -[List.length].
  - unfold setTimeout. eapply soInterface_trans; [|frame_step].
    unfold notifyStatusChange, set_sampleAcquired, localStorage_setItem.
    frame_chain.
  - unfold reject. eapply soInterface_trans; [|apply soInterface_liquidar].
    unfold notifyStatusChange, set_sampleAcquired, localStorage_setItem.
    frame_chain.
  - unfold setTimeout. eapply soInterface_trans; [|frame_step].
    unfold notifyStatusChange, set_sampleAcquired, localStorage_setItem.
    frame_chain.
Qed.

(** A capture touches the page, the reader and the status line only: the
    database is as before, and no store round trip and no comparison is
    added to the trace. *)
Lemma respeita_capturarDigital :
  respeita soInterface FingerprintController.capturarDigital.
Proof.
  unfold FingerprintController.capturarDigital,
    FingerprintController.updateStatus.
  repeat first
    [ apply (respeita_bind _ soInterface_trans); [| intros ? ]
    | apply (respeita_tryFinally _ soInterface_trans); [| intros ? ]
    | apply (respeita_tryCatch _ soInterface_trans); [| intros ? ]
    | apply respeita_efeito; intros ?
    | apply (respeita_ret _ soInterface_refl)
    | apply (respeita_throw _ soInterface_refl)
    | frame_step ].
  intros w r w'.
  generalize (soInterface_captureFingerprint w).
  destruct (captureFingerprint w) as [promessa w1]. cbn [snd].
  intros H1 H2. eapply soInterface_trans; [exact H1|].
  eapply respeita_await; eauto.
Qed.

End CaptureFrame.

(** * Properties of the controller *)

Module ControllerProps.
Import FingerprintController Frame CaptureFrame AttendanceProps
  EnrollmentStoreProps.

Lemma acrescenta_weaken (p q : Evento -> bool) w w' :
  (forall ev, p ev = true -> q ev = true) ->
  acrescenta p w w' -> acrescenta q w w'.
Proof.
  intros Hpq (evs & H & Hp). exists evs. split; [exact H|].
  rewrite forallb_forall in *. auto.
Qed.

(** C6: the confirmation gate.  When both captures of an enrollment
    succeed and the matcher returns a negative verdict on them, the
    controller returns the failure object with the mismatch message; the
    database is as before and the trace shows no store round trip. *)
Theorem cadastrarFuncionario_confirmation_mismatch
        dadosFuncionario w t1 w1 t2 w2 verificacao :
  capturarDigital
    (registrar (StatusLine "Iniciando cadastro de nova digital..." "info") w)
  = (Return t1, w1) ->
  capturarDigital
    (registrar
       (StatusLine "Por favor, posicione o dedo novamente para confirmar..."
                   "info") w1)
  = (Return t2, w2) ->
  FingerprintService.compareFingerprints (Some t1) (Some t2)
  = Return verificacao ->
  matched verificacao = false ->
  exists w',
    cadastrarFuncionario dadosFuncionario w = (Return naoCorrespondem, w')
    /\ rc_success naoCorrespondem = false
    /\ db w' = db w
    /\ acrescenta (fun ev => negb (eventoDoStore ev)) w w'.
Proof.
  intros H1 H2 Hc Hm.
  destruct (respeita_capturarDigital _ _ _ H1) as [D1 A1].
  destruct (respeita_capturarDigital _ _ _ H2) as [D2 A2].
  eexists.
  unfold cadastrarFuncionario, tryCatch, bind, updateStatus, efeito, pausa,
    ret, compareFingerprints, lift, bind, efeito.
  rewrite H1, H2, Hc, Hm. cbn [negb].
  split; [reflexivity|]. split; [reflexivity|]. split.
  - cbn [db registrar] in *. congruence.
  - assert (Hw : forall a b,
               acrescenta (fun ev => negb (eventoDoStore ev)
                                     && negb (ehComparacao ev)) a b ->
               acrescenta (fun ev => negb (eventoDoStore ev)) a b).
    { intros a b. apply acrescenta_weaken.
      intros ev H. apply andb_prop in H. tauto. }
    eapply acrescenta_trans; [|apply acrescenta_registrar; reflexivity].
    eapply acrescenta_trans; [|apply acrescenta_registrar; reflexivity].
    eapply acrescenta_trans; [|apply Hw, A2].
    eapply acrescenta_trans; [|apply acrescenta_registrar; reflexivity].
    eapply acrescenta_trans; [|apply Hw, A1].
    apply acrescenta_registrar; reflexivity.
Qed.

(** The gate on two captures that disagree at every byte. *)
Lemma cadastrarFuncionario_confirmation_mismatch_witness :
  exists w',
    cadastrarFuncionario perfilAna doisDedos = (Return naoCorrespondem, w')
    /\ rc_success naoCorrespondem = false
    /\ db w' = db doisDedos
    /\ acrescenta (fun ev => negb (eventoDoStore ev)) doisDedos w'.
Proof.
  apply (cadastrarFuncionario_confirmation_mismatch perfilAna doisDedos
           (templateDe "CgoK")
           (snd (capturarDigital
                   (registrar
                      (StatusLine "Iniciando cadastro de nova digital..."
                                  "info") doisDedos)))
           (templateDe "////")
           (snd (capturarDigital
                   (registrar
                      (StatusLine
                         "Por favor, posicione o dedo novamente para confirmar..."
                         "info")
                      (snd (capturarDigital
                              (registrar
                                 (StatusLine
                                    "Iniciando cadastro de nova digital..."
                                    "info") doisDedos))))))
           {| matched := false; score := JSNumber.ofZ 0 |}).
  - vm_compute. reflexivity.
  - vm_compute. reflexivity.
  - vm_compute. reflexivity.
  - reflexivity.
Defined.

(** ** Identification *)











Lemma buscarTodosFuncionariosAtivos_ok w n :
  disponivel (S n) (falhasStore (ambiente w)) = true ->
  exists w',
    FirebaseService.buscarTodosFuncionariosAtivos w
    = (Return (filter f_ativo (funcionarios (db w))), w')
    /\ db w' = db w.
Proof.
  intros Hs.
  destruct (roundTrip_ok (StoreGet Funcionarios) w n Hs) as (w1 & E & Hdb & _).
  exists w1.
  unfold FirebaseService.buscarTodosFuncionariosAtivos, tryCatch, bind.
  rewrite E, Hdb. auto.
Qed.






(** First match wins, not best score: the captured payload matches Carla
    with score 75 and Davi, who comes later in the store, with score 100;
    the employee identified, and clocked in, is Carla. *)
Lemma first_match_wins :
  mapR score
    (FingerprintService.compareFingerprints
       (Some (templateDe "CgoKCg==")) (Some (templateDe "CgoKZA==")))
  = Return (JSNumber.ofZ 75)
  /\ mapR score
       (FingerprintService.compareFingerprints
          (Some (templateDe "CgoKCg==")) (Some (templateDe "CgoKCw==")))
     = Return (JSNumber.ofZ 100)
  /\ identificar (templateDe "CgoKCg==") [carla; davi] = Some carla
  /\ mapR ra_funcionario (fst (autenticarFuncionario doisCandidatos))
     = Return (Some carla)
  /\ map r_funcionarioId
       (registros (db (snd (autenticarFuncionario doisCandidatos))))
     = [0%nat].
Proof. repeat split. Qed.

(** A run of the scan over a payload that is not base64 text.  With Eva,
    whose stored payload [atob] rejects, first in the store, the comparison
    with her throws, [verificarDigitalComTodos] catches the error, and Carla
    and Davi, who come later and whom the matcher accepts, are not compared:
    the fingerprint is reported as not recognised. *)
Theorem scan_stops_at_undecodable_payload :
  filter f_ativo (funcionarios (db payloadInvalido)) = [eva; carla; davi]
  /\ FingerprintService.compareFingerprints
       (Some (templateDe "CgoKCg==")) (Some (templateDe "Cg-K"))
     = Throw InvalidCharacterError
  /\ corresponde (templateDe "CgoKCg==") carla = true
  /\ fst (autenticarFuncionario payloadInvalido) = Return naoReconhecida
  /\ filter ehComparacao
       (historico (snd (autenticarFuncionario payloadInvalido)))
     = [Comparacao (templateDe "CgoKCg==")
                   {| format := "PNG"; data := None; raw := "Cg-K" |}].
Proof. vm_compute. repeat split. Qed.

End ControllerProps.

(** * The attendance log of one employee over a day *)

Module SequenceProps.
Import FirebaseService AttendanceProps.










End SequenceProps.

(** * How a capture ends *)

Module CaptureOutcomeProps.
Import FingerprintService CaptureProps.

(** The timer of a pending capture expires: the promise is rejected, the
    saved handler is put back and the capture is stopped. *)
Lemma expirar_pending promessa original w :
  (promessa < List.length (promessas (janela w)))%nat ->
  estado promessa w = Pendente ->
  estado promessa (expirar promessa original w)
  = Rejeitada (Error "Tempo esgotado para captura da digital")
  /\ sampleAcquired (janela (expirar promessa original w)) = original
  /\ temporizadores (janela (expirar promessa original w))
     = temporizadores (janela w)
  /\ db (expirar promessa original w) = db w
  /\ historico (expirar promessa original w)
     = (historico w ++ [StopCapture])%list.
Proof.
  intros Hlt Hp. unfold expirar, reject, liquidar.
  change (estado promessa
            (stopCapture (set_sampleAcquired original w)))
    with (estado promessa w).
  rewrite Hp. unfold estado. cbn.
  rewrite nth_substituir by exact Hlt. repeat split.
Qed.

Lemma aguardar_nil promessa w : aguardar [] promessa w = set_eventos [] w.
Proof. cbn [aguardar]. destruct (estado promessa w); reflexivity. Qed.

(** X3: a capture that no sample answers.  With no event to come and no
    older timer pending, awaiting the capture ends with the timeout error;
    the handler found at the start is back in place, the timer is gone and
    the SDK was told to stop. *)
Theorem capture_times_out w :
  temporizadores (janela w) = [] ->
  eventos (ambiente w) = [] ->
  (forall msg r, falhasSdk (ambiente w) <> Some msg :: r) ->
  exists w',
    (let (promessa, w1) := captureFingerprint w in await promessa w1)
    = (Throw (Error "Tempo esgotado para captura da digital"), w')
    /\ sampleAcquired (janela w') = sampleAcquired (janela w)
    /\ temporizadores (janela w') = []
    /\ db w' = db w
    /\ historico w'
       = (historico w
          ++ [FingerprintStatus "Posicione seu dedo no leitor...";
              StatusLine "Posicione seu dedo no leitor..." "info";
              StartCapture; StopCapture])%list.
Proof.
  intros Ht Hev Hsdk.
  destruct (captureFingerprint_started w Hsdk)
    as (w1 & E & Hp & Hs & Htm & Hev1 & Hdb & Hh).
  rewrite E. rewrite Ht in Htm. cbn [app] in Htm.
  set (p := List.length (promessas (janela w))) in *.
  assert (Hlt : (p < List.length (promessas (janela w1)))%nat).
  { rewrite Hp, length_app. cbn. unfold p. lia. }
  assert (Hpend : estado p w1 = Pendente).
  { unfold estado. rewrite Hp. apply nth_middle. }
  unfold await. rewrite Hev1, Hev, aguardar_nil.
  change (estado p (set_eventos [] w1)) with (estado p w1). rewrite Hpend.
  unfold esgotar.
  change (temporizadores (janela (set_eventos [] w1)))
    with (temporizadores (janela w1)).
  rewrite Htm. cbn [fold_left entregar].
  change (temporizadores (janela (set_eventos [] w1)))
    with (temporizadores (janela w1)).
  rewrite Htm.
  destruct (expirar_pending p (sampleAcquired (janela w))
              (set_temporizadores [] (set_eventos [] w1)) Hlt Hpend)
    as (He & Hs' & Ht' & Hdb' & Hh').
  rewrite He. eexists. split; [reflexivity|].
  rewrite Hs', Ht', Hdb', Hh'. cbn. rewrite Hdb, Hh.
  repeat split. rewrite <- app_assoc. reflexivity.
Qed.

Lemma capture_times_out_witness :
  exists w',
    (let (promessa, w1) := captureFingerprint mundoInicial in
     await promessa w1)
    = (Throw (Error "Tempo esgotado para captura da digital"), w')
    /\ sampleAcquired (janela w') = sampleAcquired (janela mundoInicial)
    /\ temporizadores (janela w') = []
    /\ db w' = db mundoInicial
    /\ historico w'
       = (historico mundoInicial
          ++ [FingerprintStatus "Posicione seu dedo no leitor...";
              StatusLine "Posicione seu dedo no leitor..." "info";
              StartCapture; StopCapture])%list.
Proof.
  apply (capture_times_out mundoInicial).
  - reflexivity.
  - reflexivity.
  - intros msg r. discriminate.
Defined.

(** X4: the reader fails to start.  When [startCapture] throws, the promise
    of [captureFingerprint()] is rejected with the error thrown, the handler
    found at the start is back in place and no timer is armed. *)
Theorem capture_device_error w msg r :
  falhasSdk (ambiente w) = Some msg :: r ->
  exists w',
    (let (promessa, w1) := captureFingerprint w in await promessa w1)
    = (Throw (Error msg), w')
    /\ sampleAcquired (janela w') = sampleAcquired (janela w)
    /\ temporizadores (janela w') = temporizadores (janela w)
    /\ db w' = db w.
Proof.
  intros Hsdk. unfold captureFingerprint, novaPromessa, startCapture.
  cbn -[List.length nth]. rewrite Hsdk.
  set (p := List.length (promessas (janela w))).
  match goal with
  | |- context [reject p (Error msg) ?w0] => set (w1 := w0)
  end.
  assert (Hlt : (p < List.length (promessas (janela w1)))%nat).
  { cbn. rewrite length_app. cbn. unfold p. lia. }
  assert (Hpend : estado p w1 = Pendente).
  { unfold estado. cbn. apply nth_middle. }
  assert (Hrej : estado p (reject p (Error msg) w1) = Rejeitada (Error msg)).
  { unfold reject, liquidar. rewrite Hpend. unfold estado. cbn -[nth].
    apply nth_substituir. rewrite length_app. cbn. unfold p. lia. }
  assert (Hsame : forall w0, estado p w0 = Rejeitada (Error msg) ->
            await p w0
            = (Throw (Error msg), set_eventos (eventos (ambiente w0)) w0)).
  { intros w0 H0. unfold await.
    assert (Ha : aguardar (eventos (ambiente w0)) p w0
                 = set_eventos (eventos (ambiente w0)) w0).
    { destruct (eventos (ambiente w0)); cbn [aguardar]; rewrite H0; reflexivity. }
    rewrite Ha.
    change (estado p (set_eventos (eventos (ambiente w0)) w0))
      with (estado p w0).
    rewrite H0.
    change (estado p (set_eventos (eventos (ambiente w0)) w0))
      with (estado p w0).
    rewrite H0. reflexivity. }
  rewrite (Hsame _ Hrej). eexists. split; [reflexivity|].
  unfold reject, liquidar. rewrite Hpend. cbn. repeat split.
Qed.

Lemma capture_device_error_witness :
  exists w',
    (let (promessa, w1) :=
       captureFingerprint leitorDesligado in
     await promessa w1)
    = (Throw (Error "reader unplugged"), w')
    /\ sampleAcquired (janela w') = paginaSampleAcquired
    /\ temporizadores (janela w') = []
    /\ db w' = db mundoInicial.
Proof.
  apply (capture_device_error leitorDesligado "reader unplugged" []).
  reflexivity.
Defined.

End CaptureOutcomeProps.

(** * Scenarios *)

Module ScenarioProps.
Import FingerprintController.

(** The scenario of the specification, run.  Ana enrolls with the payload
    10, 20, 30 confirmed by 12, 18, 33 (score 100): the employee is created.
    An identification with the payload 10, 20, 30 finds her by the exact
    lookup and records ["entrada"]; a second one later that day records
    ["saída"].  The only comparison of the whole run is the confirmation of
    the enrollment. *)
Theorem specification_scenario :
  mapR score
    (FingerprintService.compareFingerprints
       (Some (templateDe "ChQe")) (Some (templateDe "DBIh")))
  = Return (JSNumber.ofZ 100)
  /\ mapR rc_success (fst (cadastrarFuncionario perfilAna cenario))
     = Return true
  /\ map f_nome
       (funcionarios (db (snd (cadastrarFuncionario perfilAna cenario))))
     = ["Ana"]
  /\ tipoRegistrado
       (fst (autenticarFuncionario
               (snd (cadastrarFuncionario perfilAna cenario))))
     = Return (Some "entrada")
  /\ tipoRegistrado
       (fst (autenticarFuncionario
               (snd (autenticarFuncionario
                       (snd (cadastrarFuncionario perfilAna cenario))))))
     = Return (Some "saída")
  /\ filter ehComparacao
       (historico
          (snd (autenticarFuncionario
                  (snd (autenticarFuncionario
                          (snd (cadastrarFuncionario perfilAna cenario)))))))
     = [Comparacao (templateDe "ChQe") (templateDe "DBIh")].
Proof. vm_compute. repeat split. Qed.

(** A run with a timer that is never cleared.  When the timer of the
    first capture of an enrollment expires while the second capture is
    pending, it puts the page's handler back in place of the second
    capture's wrapper: the sample that arrives afterwards does not reach the
    second capture, and the enrollment fails by timeout.  Without the
    expiry the same samples enroll the employee. *)
Theorem stale_timer_cancels_later_capture :
  fst (cadastrarFuncionario perfilAna temporizadorAtrasado)
  = Return {| rc_success := false; rc_funcionarioId := None;
              rc_mensagem := None;
              rc_error := Some "Tempo esgotado para captura da digital" |}
  /\ funcionarios
       (db (snd (cadastrarFuncionario perfilAna temporizadorAtrasado))) = []
  /\ mapR rc_success (fst (cadastrarFuncionario perfilAna semAtraso))
     = Return true.
Proof. vm_compute. repeat split. Qed.

End ScenarioProps.

(** * More on the template matcher *)

Module MatcherScoreProps.
Import JSNumber FingerprintService MatcherProps.

(** A number divided by itself is [1]. *)
Lemma div_self n : 0 < n < 2 ^ 53 -> div (ofZ n) (ofZ n) = ofZ 1.
Proof.
  intros [Hn Hb]. unfold div.
  destruct n as [|p|p]; try lia.
  generalize (digits2_pos_bounds p). intros [L U].
  assert (D : Zpos (digits2_pos p) <= 53).
  { destruct (Z.le_gt_cases (Zpos (digits2_pos p)) 53); auto.
    assert (2 ^ 53 <= 2 ^ (Zpos (digits2_pos p) - 1))
      by (apply Z.pow_le_mono_r; lia).
    lia. }
  destruct (ofZ_pos p D) as (m & -> & Hm & Hd).
  rewrite SFdiv_normal by (auto; lia).
  rewrite (Z.mul_comm (Zpos m)), Z.div_mul, Z.mod_mul by lia.
  replace (Zpos (digits2_pos p) - 53 - (Zpos (digits2_pos p) - 53) - 53)
    with (-53) by lia.
  assert (E : new_location (Zpos m) 0 = loc_Exact).
  { unfold new_location, new_location_even, new_location_odd.
    destruct (Z.even (Zpos m)); reflexivity. }
  rewrite E. vm_compute. reflexivity.
Qed.

Lemma score_hundred n :
  0 < n < 2 ^ 53 -> mul (div (ofZ n) (ofZ n)) (ofZ 100) = ofZ 100.
Proof. intros H. rewrite div_self by exact H. vm_compute. reflexivity. Qed.

Lemma score_zero n :
  0 < n < 2 ^ 53 -> mul (div (ofZ 0) (ofZ n)) (ofZ 100) = ofZ 0.
Proof.
  intros H. destruct (ofZ_nonneg n) as [E|(m & e & E)]; [lia| |].
  - exfalso. destruct n as [|p|p]; try lia.
    generalize (digits2_pos_bounds p). intros [L U].
    assert (D : Zpos (digits2_pos p) <= 53).
    { destruct (Z.le_gt_cases (Zpos (digits2_pos p)) 53); auto.
      assert (2 ^ 53 <= 2 ^ (Zpos (digits2_pos p) - 1))
        by (apply Z.pow_le_mono_r; lia).
      lia. }
    destruct (ofZ_pos p D) as (m & E' & _). congruence.
  - rewrite E. reflexivity.
Qed.

(** The positions of a payload agree with those of any payload that
    extends it. *)
Lemma concordantes_prefix bytes extra :
  concordantes bytes (bytes ++ extra) = Z.of_nat (List.length bytes).
Proof.
  unfold concordantes. induction bytes as [|x r IH].
  - reflexivity.
  - cbn [app combine filter fst snd]. rewrite Z.sub_diag.
    cbn [Z.abs Z.leb Z.compare]. cbn [List.length]. lia.
Qed.

(** X10: the extreme scores.  The bytes are compared position by position
    over the length of the shorter payload only.  When every such position
    agrees within the tolerance the verdict is positive with score 100, so
    a payload matches every payload that extends it; when the payloads
    differ and no position agrees the verdict is negative with score 0. *)
Theorem compareFingerprints_extreme_scores t1 t2 bytes1 bytes2 :
  base64ToArrayBuffer (raw t1) = Return bytes1 ->
  base64ToArrayBuffer (raw t2) = Return bytes2 ->
  0 < Z.of_nat (Nat.min (List.length bytes1) (List.length bytes2)) < 2 ^ 53 ->
  (concordantes bytes1 bytes2
   = Z.of_nat (Nat.min (List.length bytes1) (List.length bytes2)) ->
   compareFingerprints (Some t1) (Some t2)
   = Return {| matched := true; score := ofZ 100 |})
  /\ ((exists extra, bytes2 = (bytes1 ++ extra)%list) ->
      compareFingerprints (Some t1) (Some t2)
      = Return {| matched := true; score := ofZ 100 |})
  /\ (raw t1 <> raw t2 -> concordantes bytes1 bytes2 = 0 ->
      compareFingerprints (Some t1) (Some t2)
      = Return {| matched := false; score := ofZ 0 |}).
Proof.
  intros H1 H2 Hn.
  assert (Hall : concordantes bytes1 bytes2
                 = Z.of_nat (Nat.min (List.length bytes1) (List.length bytes2)) ->
                 compareFingerprints (Some t1) (Some t2)
                 = Return {| matched := true; score := ofZ 100 |}).
  { intros Hc.
    destruct (String.eqb_spec (raw t1) (raw t2)) as [E|Hne].
    - unfold compareFingerprints. rewrite E, String.eqb_refl. reflexivity.
    - generalize (compareFingerprints_decoded t1 t2 bytes1 bytes2 Hne H1 H2).
      cbn zeta. intros ->. rewrite Hc, score_hundred by exact Hn.
      reflexivity. }
  split; [exact Hall|]. split.
  - intros (extra & ->). apply Hall.
    rewrite concordantes_prefix, length_app. f_equal. lia.
  - intros Hne Hc.
    generalize (compareFingerprints_decoded t1 t2 bytes1 bytes2 Hne H1 H2).
    cbn zeta. intros ->. rewrite Hc, score_zero by exact Hn. reflexivity.
Qed.

Lemma compareFingerprints_extreme_scores_witness :
  compareFingerprints (Some (templateDe "CgoK")) (Some (templateDe "CgoKZA=="))
  = Return {| matched := true; score := ofZ 100 |}.
Proof.
  apply (proj1 (proj2 (compareFingerprints_extreme_scores
                  (templateDe "CgoK") (templateDe "CgoKZA==")
                  [10; 10; 10] [10; 10; 10; 100]
                  eq_refl eq_refl ltac:(cbn; lia)))).
  exists [100]. reflexivity.
Defined.

(** X2: when [compareFingerprints] throws.  Equal payloads are never
    decoded: they match with score 100 whatever they hold.  The comparison
    throws exactly when the two payloads differ and one of them is not
    base64 text, and what it throws is the error of [atob]. *)
Theorem compareFingerprints_throws_iff_undecodable t1 t2 :
  (raw t1 = raw t2 ->
   compareFingerprints (Some t1) (Some t2)
   = Return {| matched := true; score := ofZ 100 |})
  /\ ((exists e, compareFingerprints (Some t1) (Some t2) = Throw e)
      <-> raw t1 <> raw t2
          /\ (Browser.atob (raw t1) = None \/ Browser.atob (raw t2) = None))
  /\ (forall template1 template2 e,
         compareFingerprints template1 template2 = Throw e ->
         e = InvalidCharacterError).
Proof.
  split; [|split].
  - intros E. unfold compareFingerprints. rewrite E, String.eqb_refl.
    reflexivity.
  - unfold compareFingerprints, base64ToArrayBuffer.
    destruct (String.eqb_spec (raw t1) (raw t2)) as [E|Hne].
    + split; [intros (e & He); discriminate | intros (Hne & _); contradiction].
    + destruct (Browser.atob (raw t1)), (Browser.atob (raw t2)); cbn [bindR];
        (split; [intros (e & He); try discriminate; auto
                | intros (_ & [H|H]); try discriminate; eauto]).
  - intros [t1'|] [t2'|] e; unfold compareFingerprints, base64ToArrayBuffer;
      try discriminate.
    destruct (String.eqb _ _); [discriminate|].
    destruct (Browser.atob (raw t1')), (Browser.atob (raw t2')); cbn [bindR];
      congruence.
Qed.

End MatcherScoreProps.

(** * Decoding a payload *)

Module DecodeProps.
Import FingerprintService.

Lemma sextets_length l l' :
  Browser.sextets l = Some l' -> List.length l' = List.length l.
Proof.
  revert l'. induction l as [|c r IH]; intros l'; cbn [Browser.sextets].
  - intros [= <-]. reflexivity.
  - destruct (Browser.base64Index c); [|discriminate].
    destruct (Browser.sextets r) as [r'|]; [|discriminate].
    intros [= <-]. cbn [List.length]. f_equal. apply IH. reflexivity.
Qed.

(** Four characters give three bytes, three give two and two give one. *)
Lemma decodeSextets_length n :
  forall l, (List.length l <= n)%nat ->
    Z.of_nat (List.length (Browser.decodeSextets l))
    = 3 * Z.of_nat (List.length l) / 4.
Proof.
  induction n as [|n IH]; intros l Hl.
  - destruct l; [reflexivity | cbn in Hl; lia].
  - destruct l as [|a [|b [|c [|d r]]]]; try reflexivity.
    cbn [Browser.decodeSextets]. cbn [List.length] in *.
    rewrite !Nat2Z.inj_succ in *.
    rewrite (IH r) by lia.
    replace (3 * Z.succ (Z.succ (Z.succ (Z.succ (Z.of_nat (List.length r))))))
      with (3 * Z.of_nat (List.length r) + 3 * 4) by lia.
    rewrite Z.div_add by lia. lia.
Qed.

(** X11: what [base64ToArrayBuffer] returns.  The number of bytes is three
    quarters, rounded down, of the number of characters left once
    whitespace and the final padding are dropped, and every byte is in
    [[0, 255]]. *)
Theorem base64ToArrayBuffer_length base64 bytes :
  base64ToArrayBuffer base64 = Return bytes ->
  Z.of_nat (List.length bytes)
  = 3 * Z.of_nat (List.length (caracteresBase64 base64)) / 4
  /\ Forall (fun b => 0 <= b <= 255) bytes.
Proof.
  unfold base64ToArrayBuffer, Browser.atob. fold (caracteresBase64 base64).
  destruct (Z.eqb_spec (Z.of_nat (List.length (caracteresBase64 base64)) mod 4) 1)
    as [E|Hne]; [discriminate|].
  destruct (Browser.sextets (caracteresBase64 base64)) as [l'|] eqn:Es;
    [|discriminate].
  intros [= <-]. rewrite list_ascii_of_string_of_list_ascii. split.
  - rewrite length_map, <- (sextets_length _ _ Es).
    apply (decodeSextets_length (List.length l')). lia.
  - apply Forall_forall. intros b Hb. apply in_map_iff in Hb.
    destruct Hb as (c & <- & _).
    generalize (Z.mod_pos_bound (Browser.charCodeAt c) 256). lia.
Qed.

Lemma base64ToArrayBuffer_length_witness :
  Z.of_nat (List.length [10; 10; 10; 100])
  = 3 * Z.of_nat (List.length (caracteresBase64 "CgoKZA==")) / 4
  /\ Forall (fun b => 0 <= b <= 255) [10; 10; 10; 100].
Proof. apply (base64ToArrayBuffer_length "CgoKZA=="). reflexivity. Defined.

Lemma In_stripPadding c l :
  In c l -> c <> "="%char -> In c (Browser.stripPadding l).
Proof.
  intros Hin Hc. unfold Browser.stripPadding.
  destruct (_ =? 0); [|exact Hin].
  apply in_rev in Hin.
  destruct (rev l) as [|x r] eqn:Er; [destruct Hin|].
  assert (Hback : forall s, In c s -> In c (rev s)).
  { intros s Hs. apply in_rev. rewrite rev_involutive. exact Hs. }
  assert (Hl : In c l) by (apply in_rev; rewrite Er; exact Hin).
  destruct (Ascii.eqb_spec x "="%char) as [->|Hx].
  - destruct Hin as [E|Hin]; [congruence|].
    destruct r as [|y r']; [destruct Hin|].
    destruct (Ascii.eqb_spec y "="%char) as [->|Hy].
    + destruct Hin as [E|Hin]; [congruence|]. apply Hback. exact Hin.
    + assert (E : match y with
                  | "="%char => rev r'
                  | _ => rev (y :: r')
                  end = rev (y :: r')).
      { destruct y as [[] [] [] [] [] [] [] []]; try reflexivity.
        contradiction Hy. reflexivity. }
      rewrite E. apply Hback. exact Hin.
  - assert (E : match x with
                | "="%char =>
                    match r with
                    | "="%char :: r0 => rev r0
                    | _ => rev r
                    end
                | _ => l
                end = l).
    { destruct x as [[] [] [] [] [] [] [] []]; try reflexivity.
      contradiction Hx. reflexivity. }
    rewrite E. exact Hl.
Qed.

Lemma sextets_foreign c l :
  In c l -> Browser.base64Index c = None -> Browser.sextets l = None.
Proof.
  intros Hin Hc. induction l as [|x r IH]; [destruct Hin|].
  cbn [Browser.sextets]. destruct Hin as [->|Hin].
  - rewrite Hc. reflexivity.
  - rewrite (IH Hin). destruct (Browser.base64Index x); reflexivity.
Qed.

(** X12: text with a foreign character is not decoded.  A payload holding a
    character that is neither of the alphabet [A-Za-z0-9+/], nor ASCII
    whitespace, nor [=] makes [base64ToArrayBuffer] throw; so does the
    comparison of that payload with any different one.  The characters [-]
    and [_] of the URL-safe alphabet are such characters. *)
Theorem base64ToArrayBuffer_rejects_foreign_character base64 c :
  In c (list_ascii_of_string base64) ->
  Browser.base64Index c = None ->
  Browser.isAsciiWhitespace c = false ->
  c <> "="%char ->
  base64ToArrayBuffer base64 = Throw InvalidCharacterError
  /\ (forall t1 t2,
         raw t1 <> raw t2 -> raw t1 = base64 \/ raw t2 = base64 ->
         compareFingerprints (Some t1) (Some t2) = Throw InvalidCharacterError).
Proof.
  intros Hin Hidx Hws Heq.
  assert (Ha : Browser.atob base64 = None).
  { unfold Browser.atob.
    rewrite (sextets_foreign c).
    - destruct (_ =? 1); reflexivity.
    - apply In_stripPadding; [|exact Heq].
      apply filter_In. split; [exact Hin|]. rewrite Hws. reflexivity.
    - exact Hidx. }
  split.
  - unfold base64ToArrayBuffer. rewrite Ha. reflexivity.
  - intros t1 t2 Hne Hor. unfold compareFingerprints, base64ToArrayBuffer.
    destruct (String.eqb_spec (raw t1) (raw t2)) as [E|_]; [contradiction|].
    destruct Hor as [-> | ->]; rewrite Ha.
    + reflexivity.
    + destruct (Browser.atob (raw t1)); reflexivity.
Qed.

Lemma base64ToArrayBuffer_rejects_foreign_character_witness :
  base64ToArrayBuffer "Cg-K" = Throw InvalidCharacterError
  /\ (forall t1 t2,
         raw t1 <> raw t2 -> raw t1 = "Cg-K" \/ raw t2 = "Cg-K" ->
         compareFingerprints (Some t1) (Some t2) = Throw InvalidCharacterError).
Proof.
  apply (base64ToArrayBuffer_rejects_foreign_character "Cg-K" "-"%char).
  - cbn. auto.
  - reflexivity.
  - reflexivity.
  - discriminate.
Defined.

End DecodeProps.

(** * The store: lookups, history and atomicity of the writes *)

Module StoreProps.
Import FirebaseService AttendanceProps EnrollmentStoreProps.

(** ** The history query *)

Lemma In_inserirAsc r x l : In r (inserirAsc x l) <-> r = x \/ In r l.
Proof.
  induction l as [|y l IH]; cbn [inserirAsc].
  - cbn. intuition congruence.
  - destruct (r_horario y <? r_horario x); cbn [In]; [rewrite IH|];
      intuition congruence.
Qed.

Lemma inserirAsc_perm x l : Permutation (inserirAsc x l) (x :: l).
Proof.
  induction l as [|y l IH]; cbn [inserirAsc].
  - apply Permutation_refl.
  - destruct (r_horario y <? r_horario x).
    + eapply perm_trans; [apply perm_skip, IH | apply perm_swap].
    + apply Permutation_refl.
Qed.

Lemma orderByHorarioAsc_perm l : Permutation (orderByHorarioAsc l) l.
Proof.
  induction l as [|x l IH]; cbn [orderByHorarioAsc fold_right].
  - apply perm_nil.
  - eapply perm_trans; [apply inserirAsc_perm | apply perm_skip, IH].
Qed.

Lemma inserirAsc_sorted x l :
  StronglySorted naoDepois l -> StronglySorted naoDepois (inserirAsc x l).
Proof.
  induction 1 as [|y l Hs IH Hall]; cbn [inserirAsc].
  - repeat constructor.
  - destruct (Z.ltb_spec (r_horario y) (r_horario x)) as [Hlt|Hge].
    + constructor; [exact IH|].
      apply Forall_forall. intros z Hz. apply In_inserirAsc in Hz.
      destruct Hz as [->|Hz]; [unfold naoDepois; lia|].
      rewrite Forall_forall in Hall. auto.
    + constructor; [constructor; assumption|].
      constructor; [exact Hge|].
      apply Forall_forall. intros z Hz. rewrite Forall_forall in Hall.
      specialize (Hall z Hz). unfold naoDepois in *. lia.
Qed.

Lemma orderByHorarioAsc_sorted l :
  StronglySorted naoDepois (orderByHorarioAsc l).
Proof.
  induction l as [|x l IH]; cbn [orderByHorarioAsc fold_right].
  - constructor.
  - apply inserirAsc_sorted. exact IH.
Qed.

Lemma noPeriodo_spec funcionarioId dataInicio dataFim r :
  noPeriodo funcionarioId dataInicio dataFim r = true
  <-> r_funcionarioId r = funcionarioId
      /\ dataInicio <= r_horario r <= dataFim.
Proof.
  unfold noPeriodo. rewrite !andb_true_iff, Nat.eqb_eq, !Z.leb_le. tauto.
Qed.

Lemma obterHistoricoRegistros_ok funcionarioId dataInicio dataFim w n :
  disponivel (S n) (falhasStore (ambiente w)) = true ->
  exists w',
    obterHistoricoRegistros funcionarioId dataInicio dataFim w
    = (Return (orderByHorarioAsc
                 (filter (noPeriodo funcionarioId dataInicio dataFim)
                         (registros (db w)))), w')
    /\ db w' = db w.
Proof.
  intros Hs.
  destruct (roundTrip_ok (StoreGet Registros) w n Hs) as (w1 & E & Hdb & _).
  exists w1. unfold obterHistoricoRegistros, tryCatch, bind.
  rewrite E, Hdb. split; reflexivity.
Qed.

(** X13: the history of an employee.  When the store answers,
    [obterHistoricoRegistros] returns the stored records of that employee
    whose time lies in the period, bounds included: all of them, each as
    often as it is stored, in ascending order of time; an empty period
    gives an empty history.  The database is not changed. *)
Theorem obterHistoricoRegistros_sorted_complete
        funcionarioId dataInicio dataFim w :
  disponivel 1 (falhasStore (ambiente w)) = true ->
  exists historicoEmOrdem w',
    obterHistoricoRegistros funcionarioId dataInicio dataFim w
    = (Return historicoEmOrdem, w')
    /\ db w' = db w
    /\ StronglySorted naoDepois historicoEmOrdem
    /\ Permutation historicoEmOrdem
         (filter (noPeriodo funcionarioId dataInicio dataFim)
                 (registros (db w)))
    /\ (forall r, In r historicoEmOrdem
                  <-> In r (registros (db w))
                      /\ r_funcionarioId r = funcionarioId
                      /\ dataInicio <= r_horario r <= dataFim)
    /\ (dataFim < dataInicio -> historicoEmOrdem = []).
Proof.
  intros Hs.
  destruct (obterHistoricoRegistros_ok funcionarioId dataInicio dataFim w 0 Hs)
    as (w' & E & Hdb).
  eexists _, w'. split; [exact E|]. split; [exact Hdb|].
  split; [apply orderByHorarioAsc_sorted|].
  split; [apply orderByHorarioAsc_perm|].
  assert (Hin : forall r,
             In r (orderByHorarioAsc
                     (filter (noPeriodo funcionarioId dataInicio dataFim)
                             (registros (db w))))
             <-> In r (registros (db w))
                 /\ r_funcionarioId r = funcionarioId
                 /\ dataInicio <= r_horario r <= dataFim).
  { intros r. rewrite <- noPeriodo_spec, <- filter_In.
    split; apply Permutation_in;
      [|apply Permutation_sym]; apply orderByHorarioAsc_perm. }
  split; [exact Hin|].
  intros Hempty.
  destruct (orderByHorarioAsc _) as [|r rs]; [reflexivity|].
  exfalso. destruct (proj1 (Hin r) (or_introl eq_refl)) as (_ & _ & H). lia.
Qed.

Lemma obterHistoricoRegistros_sorted_complete_witness :
  exists historicoEmOrdem w',
    obterHistoricoRegistros 0%nat 0 200000000 storeDisponivel
    = (Return historicoEmOrdem, w')
    /\ db w' = db storeDisponivel
    /\ StronglySorted naoDepois historicoEmOrdem
    /\ Permutation historicoEmOrdem
         (filter (noPeriodo 0%nat 0 200000000)
                 (registros (db storeDisponivel)))
    /\ (forall r, In r historicoEmOrdem
                  <-> In r (registros (db storeDisponivel))
                      /\ r_funcionarioId r = 0%nat
                      /\ 0 <= r_horario r <= 200000000)
    /\ (200000000 < 0 -> historicoEmOrdem = []).
Proof.
  apply (obterHistoricoRegistros_sorted_complete 0%nat 0 200000000
           storeDisponivel).
  reflexivity.
Defined.

(** ** Failures of the store *)

Lemma buscarTodosFuncionariosAtivos_rejected w msg l :
  falhasStore (ambiente w) = Some msg :: l ->
  exists w',
    buscarTodosFuncionariosAtivos w = (Throw (Error msg), w') /\ db w' = db w.
Proof.
  intros Hs.
  destruct (roundTrip_rejected (StoreGet Funcionarios) w msg l Hs)
    as (w1 & E & Hdb & _).
  exists w1. unfold buscarTodosFuncionariosAtivos, tryCatch, bind.
  rewrite E. split; [reflexivity | exact Hdb].
Qed.

Lemma obterHistoricoRegistros_rejected funcionarioId dataInicio dataFim
      w msg l :
  falhasStore (ambiente w) = Some msg :: l ->
  exists w',
    obterHistoricoRegistros funcionarioId dataInicio dataFim w
    = (Throw (Error msg), w')
    /\ db w' = db w.
Proof.
  intros Hs.
  destruct (roundTrip_rejected (StoreGet Registros) w msg l Hs)
    as (w1 & E & Hdb & _).
  exists w1. unfold obterHistoricoRegistros, tryCatch, bind.
  rewrite E. split; [reflexivity | exact Hdb].
Qed.

(** X14: a read that the store rejects.  The three lookups and the
    enrollment rethrow the error of the store as it is and change nothing
    in the database; an enrollment reports the failure of its duplicate
    check, whether or not the payload is already enrolled. *)
Theorem store_read_failure_is_rethrown w msg l :
  falhasStore (ambiente w) = Some msg :: l ->
  (forall digitalRaw,
      fst (buscarFuncionarioPorDigitalExata digitalRaw w) = Throw (Error msg)
      /\ db (snd (buscarFuncionarioPorDigitalExata digitalRaw w)) = db w)
  /\ (fst (buscarTodosFuncionariosAtivos w) = Throw (Error msg)
      /\ db (snd (buscarTodosFuncionariosAtivos w)) = db w)
  /\ (forall funcionarioId dataInicio dataFim,
         fst (obterHistoricoRegistros funcionarioId dataInicio dataFim w)
         = Throw (Error msg)
         /\ db (snd (obterHistoricoRegistros
                       funcionarioId dataInicio dataFim w)) = db w)
  /\ (forall funcionario digitalTemplate,
         fst (cadastrarFuncionario funcionario digitalTemplate w)
         = Throw (Error msg)
         /\ db (snd (cadastrarFuncionario funcionario digitalTemplate w))
            = db w).
Proof.
  intros Hs. repeat split.
  - destruct (buscarFuncionarioPorDigitalExata_rejected digitalRaw w msg l Hs)
      as (w' & -> & _). reflexivity.
  - destruct (buscarFuncionarioPorDigitalExata_rejected digitalRaw w msg l Hs)
      as (w' & -> & H). exact H.
  - destruct (buscarTodosFuncionariosAtivos_rejected w msg l Hs)
      as (w' & -> & _). reflexivity.
  - destruct (buscarTodosFuncionariosAtivos_rejected w msg l Hs)
      as (w' & -> & H). exact H.
  - destruct (obterHistoricoRegistros_rejected
                funcionarioId dataInicio dataFim w msg l Hs)
      as (w' & -> & _). reflexivity.
  - destruct (obterHistoricoRegistros_rejected
                funcionarioId dataInicio dataFim w msg l Hs)
      as (w' & -> & H). exact H.
  - unfold cadastrarFuncionario, tryCatch at 1, bind.
    destruct (buscarFuncionarioPorDigitalExata_rejected
                (raw digitalTemplate) w msg l Hs) as (w' & -> & _).
    reflexivity.
  - unfold cadastrarFuncionario, tryCatch at 1, bind.
    destruct (buscarFuncionarioPorDigitalExata_rejected
                (raw digitalTemplate) w msg l Hs) as (w' & -> & H).
    exact H.
Qed.

Lemma store_read_failure_is_rethrown_witness :
  fst (buscarTodosFuncionariosAtivos storeIndisponivel)
  = Throw (Error "unavailable")
  /\ db (snd (buscarTodosFuncionariosAtivos storeIndisponivel))
     = db storeIndisponivel.
Proof.
  apply (proj1 (proj2 (store_read_failure_is_rethrown
                         storeIndisponivel "unavailable" [] eq_refl))).
Defined.

(** ** Enrollment followed by a lookup *)




(** ** The exact lookup *)

(** X15: what the exact lookup answers.  When the store answers,
    [buscarFuncionarioPorDigitalExata] returns either an active stored
    employee whose payload is the one asked for, or [null], and [null] only
    when no active stored employee has that payload; an inactive employee
    is never returned.  The database is not changed. *)
Theorem buscarFuncionarioPorDigitalExata_sound_complete digitalRaw w :
  disponivel 1 (falhasStore (ambiente w)) = true ->
  exists o w',
    buscarFuncionarioPorDigitalExata digitalRaw w = (Return o, w')
    /\ db w' = db w
    /\ match o with
       | Some f =>
           In f (funcionarios (db w)) /\ f_ativo f = true
           /\ exists d, f_digital f = Some d /\ dados d = digitalRaw
       | None =>
           forall f d,
             In f (funcionarios (db w)) -> f_ativo f = true ->
             f_digital f = Some d -> dados d <> digitalRaw
       end.
Proof.
  intros Hs.
  destruct (buscarFuncionarioPorDigitalExata_ok digitalRaw w 0 Hs)
    as (w' & E & Hdb & _).
  eexists _, w'. split; [exact E|]. split; [exact Hdb|].
  destruct (find (digitalExata digitalRaw) (funcionarios (db w)))
    as [f|] eqn:Ef.
  - apply find_some in Ef. destruct Ef as (Hin & Hex).
    unfold digitalExata, temDigital in Hex. apply andb_prop in Hex.
    destruct Hex as (Hd & Hat). split; [exact Hin|]. split; [exact Hat|].
    destruct (f_digital f) as [d|]; [|discriminate].
    exists d. split; [reflexivity|]. apply String.eqb_eq. exact Hd.
  - intros f d Hin Hat Hd Heq.
    generalize (find_none _ _ Ef f Hin).
    unfold digitalExata, temDigital. rewrite Hd, Hat, Heq, String.eqb_refl.
    discriminate.
Qed.

Lemma buscarFuncionarioPorDigitalExata_sound_complete_witness :
  exists o w',
    buscarFuncionarioPorDigitalExata "CgoKCw==" doisCandidatos
    = (Return o, w')
    /\ db w' = db doisCandidatos
    /\ match o with
       | Some f =>
           In f (funcionarios (db doisCandidatos)) /\ f_ativo f = true
           /\ exists d, f_digital f = Some d /\ dados d = "CgoKCw=="
       | None =>
           forall f d,
             In f (funcionarios (db doisCandidatos)) -> f_ativo f = true ->
             f_digital f = Some d -> dados d <> "CgoKCw=="
       end.
Proof.
  apply (buscarFuncionarioPorDigitalExata_sound_complete
           "CgoKCw==" doisCandidatos).
  reflexivity.
Defined.

End StoreProps.

(** * How an attendance event ends *)

Module AttendanceOutcomeProps.
Import FirebaseService AttendanceProps EnrollmentStoreProps StoreProps.

Lemma tipoSeguinte_cases snapshot :
  tipoSeguinte snapshot = "entrada" \/ tipoSeguinte snapshot = "saída".
Proof.
  destruct snapshot as [|u s]; cbn [tipoSeguinte]; [auto|].
  destruct (String.eqb (r_tipo u) "entrada"); auto.
Qed.

(** [determinarTipoRegistro] always returns, with one of the two types, and
    leaves the database as it is. *)
Lemma determinarTipoRegistro_cases funcionarioId w :
  exists tipo w',
    determinarTipoRegistro funcionarioId w = (Return tipo, w')
    /\ (tipo = "entrada" \/ tipo = "saída")
    /\ db w' = db w.
Proof.
  destruct (newDate_frame w) as (hoje & w1 & E & _).
  destruct (falhas_cases (falhasStore (ambiente w))) as [Hs|(msg & l & Hs)].
  - destruct (determinarTipoRegistro_ok funcionarioId w hoje w1 0 E Hs)
      as (w' & Ed & Hdb & _).
    eexists _, w'. split; [exact Ed|]. split; [apply tipoSeguinte_cases|].
    exact Hdb.
  - destruct (determinarTipoRegistro_rejected funcionarioId w msg l Hs)
      as (w' & Ed & Hdb & _).
    eexists _, w'. split; [exact Ed|]. auto.
Qed.

(** The two ways [registrarPonto] ends: it throws and leaves the database
    as it was, or exactly one record was appended, which agrees with the
    object returned. *)
Lemma registrarPonto_cases funcionarioId nomeFuncionario w r w' :
  registrarPonto funcionarioId nomeFuncionario w = (r, w') ->
  (exists e, r = Throw e /\ db w' = db w)
  \/ (exists ponto novo,
         r = Return ponto
         /\ (p_tipo ponto = "entrada" \/ p_tipo ponto = "saída")
         /\ registros (db w') = (registros (db w) ++ [novo])%list
         /\ funcionarios (db w') = funcionarios (db w)
         /\ r_id novo = p_id ponto
         /\ r_funcionarioId novo = funcionarioId
         /\ r_tipo novo = p_tipo ponto
         /\ r_horario novo = p_horario ponto).
Proof.
  intros E.
  destruct (newDate_frame w) as (agora & wa & Ea & Hdba & _).
  destruct (determinarTipoRegistro_cases funcionarioId wa)
    as (tipo & wb & Et & Htipo & Hdbb).
  assert (Hdb : db wb = db w) by congruence.
  destruct (falhas_cases (falhasStore (ambiente wb))) as [Hs|(msg & l & Hs)].
  - destruct (registrarPonto_writes funcionarioId nomeFuncionario
                w agora wa tipo wb Ea Et Hdb Hs)
      as (novo & w2 & E2 & Hrs & Hfs & Hf & Hh & Ht).
    rewrite E2 in E. injection E as <- <-. right.
    eexists _, novo. split; [reflexivity|]. cbn [p_tipo p_id p_horario].
    auto 10.
  - destruct (registrarPonto_write_rejected funcionarioId nomeFuncionario
                w agora wa tipo wb msg l Ea Et Hdb Hs) as (w2 & E2 & Hdb2).
    rewrite E2 in E. injection E as <- <-. left. eauto.
Qed.

(** X16: the type of an attendance record is always decided.
    [determinarTipoRegistro] never throws, whatever the store does: it
    returns ["entrada"] or ["saída"], reads the collection [registros] once
    and writes nothing. *)
Theorem determinarTipoRegistro_never_throws funcionarioId w :
  exists tipo w',
    determinarTipoRegistro funcionarioId w = (Return tipo, w')
    /\ (tipo = "entrada" \/ tipo = "saída")
    /\ db w' = db w
    /\ historico w' = (historico w ++ [StoreGet Registros])%list.
Proof.
  destruct (newDate_frame w) as (hoje & w1 & E & _).
  destruct (falhas_cases (falhasStore (ambiente w))) as [Hs|(msg & l & Hs)].
  - destruct (determinarTipoRegistro_ok funcionarioId w hoje w1 0 E Hs)
      as (w' & Ed & Hdb & _ & Hh & _).
    eexists _, w'. split; [exact Ed|]. split; [apply tipoSeguinte_cases|].
    split; [exact Hdb | exact Hh].
  - destruct (determinarTipoRegistro_rejected funcionarioId w msg l Hs)
      as (w' & Ed & Hdb & _ & Hh & _).
    eexists _, w'. split; [exact Ed|]. split; [left; reflexivity|].
    split; [exact Hdb | exact Hh].
Qed.

(** X17: an attendance event is written whole or not at all.  Whatever
    [registrarPonto] does, the employees are untouched; when it throws, no
    record was written; when it returns, exactly one record was appended,
    for that employee, with the identifier, the type and the time of the
    object returned, and the type is ["entrada"] or ["saída"]. *)
Theorem registrarPonto_outcome funcionarioId nomeFuncionario w r w' :
  registrarPonto funcionarioId nomeFuncionario w = (r, w') ->
  funcionarios (db w') = funcionarios (db w)
  /\ match r with
     | Throw _ => db w' = db w
     | Return ponto =>
         (p_tipo ponto = "entrada" \/ p_tipo ponto = "saída")
         /\ exists novo,
              registros (db w') = (registros (db w) ++ [novo])%list
              /\ r_id novo = p_id ponto
              /\ r_funcionarioId novo = funcionarioId
              /\ r_tipo novo = p_tipo ponto
              /\ r_horario novo = p_horario ponto
     end.
Proof.
  intros E.
  destruct (registrarPonto_cases _ _ _ _ _ E)
    as [(e & -> & Hdb)|(ponto & novo & -> & Ht & Hrs & Hfs & H)].
  - split; [congruence | exact Hdb].
  - split; [exact Hfs|]. split; [exact Ht|]. exists novo. tauto.
Qed.

Lemma registrarPonto_outcome_witness :
  funcionarios (db (snd (registrarPonto 0%nat "Ana" storeDisponivel)))
  = funcionarios (db storeDisponivel)
  /\ match fst (registrarPonto 0%nat "Ana" storeDisponivel) with
     | Throw _ =>
         db (snd (registrarPonto 0%nat "Ana" storeDisponivel))
         = db storeDisponivel
     | Return ponto =>
         (p_tipo ponto = "entrada" \/ p_tipo ponto = "saída")
         /\ exists novo,
              registros (db (snd (registrarPonto 0%nat "Ana" storeDisponivel)))
              = (registros (db storeDisponivel) ++ [novo])%list
              /\ r_id novo = p_id ponto
              /\ r_funcionarioId novo = 0%nat
              /\ r_tipo novo = p_tipo ponto
              /\ r_horario novo = p_horario ponto
     end.
Proof.
  apply (registrarPonto_outcome 0%nat "Ana" storeDisponivel).
  apply surjective_pairing.
Defined.

(** X18: a recorded event shows in the history.  After a successful
    [registrarPonto], the history of the employee over a period that holds
    the time of the event lists the new record, with the identifier, type
    and time that were returned; every other entry was stored before. *)
Theorem registrarPonto_then_history
        funcionarioId nomeFuncionario w ponto w1 dataInicio dataFim :
  registrarPonto funcionarioId nomeFuncionario w = (Return ponto, w1) ->
  disponivel 1 (falhasStore (ambiente w1)) = true ->
  dataInicio <= p_horario ponto <= dataFim ->
  exists historicoEmOrdem w2 novo,
    obterHistoricoRegistros funcionarioId dataInicio dataFim w1
    = (Return historicoEmOrdem, w2)
    /\ In novo historicoEmOrdem
    /\ r_id novo = p_id ponto
    /\ r_tipo novo = p_tipo ponto
    /\ r_horario novo = p_horario ponto
    /\ (forall r, In r historicoEmOrdem ->
                  r = novo \/ In r (registros (db w))).
Proof.
  intros E Hs Hrange.
  destruct (registrarPonto_cases _ _ _ _ _ E)
    as [(e & He & _)|(ponto' & novo & Hr & _ & Hrs & _ & Hid & Hf & Ht & Hh)];
    [discriminate|].
  injection Hr as <-.
  destruct (obterHistoricoRegistros_ok funcionarioId dataInicio dataFim w1 0 Hs)
    as (w2 & Eh & _).
  eexists _, w2, novo. split; [exact Eh|].
  assert (Hin : forall r,
             In r (orderByHorarioAsc
                     (filter (noPeriodo funcionarioId dataInicio dataFim)
                             (registros (db w1))))
             <-> In r (registros (db w1))
                 /\ noPeriodo funcionarioId dataInicio dataFim r = true).
  { intros r. rewrite <- filter_In.
    split; apply Permutation_in;
      [|apply Permutation_sym]; apply orderByHorarioAsc_perm. }
  split.
  - apply Hin. rewrite Hrs. split; [apply in_or_app; right; left; reflexivity|].
    apply noPeriodo_spec. rewrite Hf, Hh. auto.
  - repeat split; try assumption.
    intros r Hr. apply Hin in Hr. destruct Hr as (Hr & _).
    rewrite Hrs in Hr. apply in_app_or in Hr.
    destruct Hr as [Hr|[<-|[]]]; auto.
Qed.

Lemma registrarPonto_then_history_witness :
  exists historicoEmOrdem w2 novo,
    obterHistoricoRegistros 0%nat 0 200000000
      (snd (registrarPonto 0%nat "Ana" storeDisponivel))
    = (Return historicoEmOrdem, w2)
    /\ In novo historicoEmOrdem
    /\ r_id novo = 2%nat
    /\ r_tipo novo = "saída"
    /\ r_horario novo = 122400000
    /\ (forall r, In r historicoEmOrdem ->
                  r = novo \/ In r (registros (db storeDisponivel))).
Proof.
  apply (registrarPonto_then_history 0%nat "Ana" storeDisponivel
           {| p_id := 2%nat; p_tipo := "saída"; p_horario := 122400000 |}
           (snd (registrarPonto 0%nat "Ana" storeDisponivel))
           0 200000000).
  - reflexivity.
  - reflexivity.
  - cbn. lia.
Defined.

End AttendanceOutcomeProps.

(** * Samples, wrappers and timers *)

Module CaptureSampleProps.
Import FingerprintService CaptureProps CaptureOutcomeProps.

Lemma nth_substituir_other {A} (l : list A) n m x d :
  n <> m -> nth m (substituir n x l) d = nth m l d.
Proof.
  revert n m. induction l as [|y l IH]; intros [|n] [|m] H; cbn;
    try reflexivity; try contradiction.
  apply IH. congruence.
Qed.

Lemma length_substituir {A} (l : list A) n x :
  List.length (substituir n x l) = List.length l.
Proof.
  revert n. induction l as [|y l IH]; intros [|n]; cbn; try reflexivity.
  f_equal. apply IH.
Qed.

Lemma getItem_setItem k v l : getItem k (setItem k v l) = Some v.
Proof.
  unfold getItem, setItem. cbn [find fst]. rewrite String.eqb_refl.
  reflexivity.
Qed.

(** Settling a promise. *)
Lemma estado_liquidar p x w :
  (p < List.length (promessas (janela w)))%nat ->
  estado p w = Pendente ->
  estado p (liquidar p x w) = x.
Proof.
  intros Hlt Hp. unfold liquidar. rewrite Hp. unfold estado. cbn.
  apply nth_substituir. exact Hlt.
Qed.

Lemma estado_liquidar_other p q x w :
  p <> q -> estado q (liquidar p x w) = estado q w.
Proof.
  intros Hne. unfold liquidar. destruct (estado p w); try reflexivity.
  unfold estado. cbn. apply nth_substituir_other. exact Hne.
Qed.

Lemma liquidar_frame p x w :
  localStorage (janela (liquidar p x w)) = localStorage (janela w)
  /\ sampleAcquired (janela (liquidar p x w)) = sampleAcquired (janela w)
  /\ temporizadores (janela (liquidar p x w)) = temporizadores (janela w)
  /\ List.length (promessas (janela (liquidar p x w)))
     = List.length (promessas (janela w))
  /\ db (liquidar p x w) = db w
  /\ ambiente (liquidar p x w) = ambiente w
  /\ historico (liquidar p x w) = historico w.
Proof.
  unfold liquidar. destruct (estado p w); cbn; repeat split;
    apply length_substituir.
Qed.

(** The wrapper of a capture, called with a sample for which the page
    stores an image. *)
Lemma chamar_com_imagem p original s w :
  truthy (getItem "imageSrc" (localStorage (janela (chamar original s w))))
  = true ->
  chamar (capturaSampleAcquired p original) s w
  = set_sampleAcquired original
      (resolve p
         {| format := "PNG";
            data := getItem "imageSrc"
                      (localStorage (janela (chamar original s w)));
            raw := amostra s |}
         (stopCapture
            (dispatchFingerprintCaptured
               {| format := "PNG";
                  data := getItem "imageSrc"
                            (localStorage (janela (chamar original s w)));
                  raw := amostra s |}
               (chamar original s w)))).
Proof. intros H. cbn [chamar]. rewrite H. reflexivity. Qed.

Lemma truthy_imagem s : imagem s <> "" -> truthy (Some (imagem s)) = true.
Proof.
  intros H. cbn [truthy]. destruct (String.eqb_spec (imagem s) ""); auto.
Qed.

Lemma chamar_pagina_imagem s w :
  getItem "imageSrc"
    (localStorage (janela (chamar paginaSampleAcquired s w)))
  = Some (imagem s).
Proof. cbn [chamar]. apply getItem_setItem. Qed.

(** What a sample does to a pending capture whose wrapper sits on the
    page's handler. *)
Lemma chamar_resolves p s w :
  imagem s <> "" ->
  (p < List.length (promessas (janela w)))%nat ->
  estado p w = Pendente ->
  let w' := chamar (capturaSampleAcquired p paginaSampleAcquired) s w in
  estado p w' = Resolvida (templateDaAmostra s)
  /\ (forall q, q <> p -> estado q w' = estado q w)
  /\ sampleAcquired (janela w') = paginaSampleAcquired
  /\ localStorage (janela w')
     = setItem "imageSrc" (imagem s) (localStorage (janela w))
  /\ temporizadores (janela w') = temporizadores (janela w)
  /\ List.length (promessas (janela w'))
     = List.length (promessas (janela w))
  /\ db w' = db w
  /\ ambiente w' = ambiente w
  /\ historico w'
     = (historico w
        ++ [FingerprintCaptured (templateDaAmostra s); Scanning false;
            StopCapture])%list.
Proof.
  intros Hi Hlt Hp. cbn zeta.
  rewrite chamar_com_imagem
    by (rewrite chamar_pagina_imagem; apply truthy_imagem; exact Hi).
  rewrite chamar_pagina_imagem. fold (templateDaAmostra s).
  set (w0 := stopCapture
               (dispatchFingerprintCaptured (templateDaAmostra s)
                  (chamar paginaSampleAcquired s w))).
  assert (Hlt0 : (p < List.length (promessas (janela w0)))%nat) by exact Hlt.
  assert (Hp0 : estado p w0 = Pendente) by exact Hp.
  destruct (liquidar_frame p (Resolvida (templateDaAmostra s)) w0)
    as (Hl & Hs & Ht & Hn & Hdb & Ha & Hh).
  unfold resolve.
  split; [exact (estado_liquidar p _ w0 Hlt0 Hp0)|].
  split.
  { intros q Hq.
    change (estado q (liquidar p (Resolvida (templateDaAmostra s)) w0)
            = estado q w0).
    apply estado_liquidar_other. congruence. }
  split; [reflexivity|].
  split; [exact Hl|]. split; [exact Ht|]. split; [exact Hn|].
  split; [exact Hdb|]. split; [exact Ha|].
  cbn [historico set_sampleAcquired comJanela]. rewrite Hh. unfold w0. cbn.
  rewrite <- !app_assoc. reflexivity.
Qed.

Lemma aguardar_settled evs p w :
  estado p w <> Pendente -> aguardar evs p w = set_eventos evs w.
Proof.
  intros H. destruct evs; cbn [aguardar]; destruct (estado p w);
    try reflexivity; contradiction.
Qed.

(** X19: a capture that a sample answers.  Started with the page's own
    handler in place and a reader that starts, a capture whose next event
    is a sample that comes with an image resolves with the template built
    from that sample: format PNG, the image the page stored, and the
    payload of the sample.  The page's handler is back in place and the SDK
    was told to stop, but the timer of the capture is still armed. *)
Theorem capture_resolves_with_sample w s rest :
  sampleAcquired (janela w) = paginaSampleAcquired ->
  (forall msg r, falhasSdk (ambiente w) <> Some msg :: r) ->
  eventos (ambiente w) = ChegaAmostra s :: rest ->
  imagem s <> "" ->
  exists w',
    (let (promessa, w1) := captureFingerprint w in await promessa w1)
    = (Return (templateDaAmostra s), w')
    /\ sampleAcquired (janela w') = paginaSampleAcquired
    /\ eventos (ambiente w') = rest
    /\ temporizadores (janela w')
       = (temporizadores (janela w)
          ++ [(List.length (promessas (janela w)), paginaSampleAcquired)])%list
    /\ db w' = db w
    /\ historico w'
       = (historico w
          ++ [FingerprintStatus "Posicione seu dedo no leitor...";
              StatusLine "Posicione seu dedo no leitor..." "info";
              StartCapture;
              FingerprintCaptured (templateDaAmostra s); Scanning false;
              StopCapture])%list.
Proof.
  intros Hpag Hsdk Hev Hi.
  destruct (captureFingerprint_started w Hsdk)
    as (w1 & E & Hp & Hs & Htm & Hev1 & Hdb & Hh).
  rewrite E. set (p := List.length (promessas (janela w))) in *.
  assert (Hlt : (p < List.length (promessas (janela w1)))%nat).
  { rewrite Hp, length_app. cbn. unfold p. lia. }
  assert (Hpend : estado p w1 = Pendente).
  { unfold estado. rewrite Hp. apply nth_middle. }
  rewrite Hpag in Hs, Htm.
  destruct (chamar_resolves p s w1 Hi Hlt Hpend)
    as (Hr & _ & Hs2 & _ & Ht2 & _ & Hdb2 & Ha2 & Hh2).
  set (w2 := chamar (capturaSampleAcquired p paginaSampleAcquired) s w1) in *.
  unfold await. rewrite Hev1, Hev. cbn [aguardar]. rewrite Hpend.
  cbn [entregar]. rewrite Hs. fold w2.
  rewrite aguardar_settled by (rewrite Hr; discriminate).
  change (estado p (set_eventos rest w2)) with (estado p w2). rewrite Hr.
  change (estado p (set_eventos rest w2)) with (estado p w2). rewrite Hr.
  eexists. split; [reflexivity|].
  cbn [set_eventos comAmbiente janela db historico ambiente eventos].
  rewrite Hs2, Ht2, Htm, Hdb2, Hdb, Hh2, Hh. repeat split.
  rewrite <- app_assoc. reflexivity.
Qed.

Lemma capture_resolves_with_sample_witness :
  exists w',
    (let (promessa, w1) := captureFingerprint doisDedos in await promessa w1)
    = (Return (templateDaAmostra (amostraDe "CgoK")), w')
    /\ sampleAcquired (janela w') = paginaSampleAcquired
    /\ eventos (ambiente w') = [ChegaAmostra (amostraDe "////")]
    /\ temporizadores (janela w')
       = (temporizadores (janela doisDedos)
          ++ [(List.length (promessas (janela doisDedos)),
               paginaSampleAcquired)])%list
    /\ db w' = db doisDedos
    /\ historico w'
       = (historico doisDedos
          ++ [FingerprintStatus "Posicione seu dedo no leitor...";
              StatusLine "Posicione seu dedo no leitor..." "info";
              StartCapture;
              FingerprintCaptured (templateDaAmostra (amostraDe "CgoK"));
              Scanning false; StopCapture])%list.
Proof.
  apply (capture_resolves_with_sample doisDedos (amostraDe "CgoK")
           [ChegaAmostra (amostraDe "////")]).
  - reflexivity.
  - intros msg r. discriminate.
  - reflexivity.
  - discriminate.
Defined.

(** ** Samples without an image *)

Lemma chamar_sem_imagem p s w :
  semImagem s ->
  chamar (capturaSampleAcquired p paginaSampleAcquired) s w
  = localStorage_setItem "imageSrc" "" w.
Proof.
  intros H. cbn [chamar]. rewrite H.
  change (localStorage (janela (localStorage_setItem "imageSrc" "" w)))
    with (setItem "imageSrc" "" (localStorage (janela w))).
  rewrite getItem_setItem. reflexivity.
Qed.

Lemma aguardar_sem_imagem p ss :
  forall w,
    Forall semImagem ss ->
    sampleAcquired (janela w) = capturaSampleAcquired p paginaSampleAcquired ->
    estado p w = Pendente ->
    exists w',
      aguardar (map ChegaAmostra ss) p w = set_eventos [] w'
      /\ sampleAcquired (janela w')
         = capturaSampleAcquired p paginaSampleAcquired
      /\ promessas (janela w') = promessas (janela w)
      /\ temporizadores (janela w') = temporizadores (janela w)
      /\ db w' = db w
      /\ historico w' = historico w.
Proof.
  induction ss as [|s ss IH]; intros w Hall Hs Hp.
  - exists w. cbn [map]. rewrite aguardar_nil. repeat split. exact Hs.
  - inversion Hall as [|? ? Hi Hall']; subst.
    cbn [map aguardar]. rewrite Hp. cbn [entregar].
    rewrite Hs, chamar_sem_imagem by exact Hi.
    destruct (IH (localStorage_setItem "imageSrc" "" w) Hall' Hs Hp)
      as (w' & E & H).
    exists w'. split; [exact E | exact H].
Qed.

(** X20: samples that bring no image.  A sample for which the page's handler
    stores no image does not resolve the capture.  Started with the page's
    own handler in place, no older timer pending and a reader that starts,
    a capture to which only such samples arrive ends with the timeout
    error; no [fingerprintCaptured] event is dispatched and the page's
    handler is back in place. *)
Theorem samples_without_image_are_ignored w ss :
  sampleAcquired (janela w) = paginaSampleAcquired ->
  temporizadores (janela w) = [] ->
  (forall msg r, falhasSdk (ambiente w) <> Some msg :: r) ->
  eventos (ambiente w) = map ChegaAmostra ss ->
  Forall semImagem ss ->
  exists w',
    (let (promessa, w1) := captureFingerprint w in await promessa w1)
    = (Throw tempoEsgotado, w')
    /\ sampleAcquired (janela w') = paginaSampleAcquired
    /\ db w' = db w
    /\ historico w'
       = (historico w
          ++ [FingerprintStatus "Posicione seu dedo no leitor...";
              StatusLine "Posicione seu dedo no leitor..." "info";
              StartCapture; StopCapture])%list.
Proof.
  intros Hpag Ht Hsdk Hev Hall.
  destruct (captureFingerprint_started w Hsdk)
    as (w1 & E & Hp & Hs & Htm & Hev1 & Hdb & Hh).
  rewrite E. rewrite Ht in Htm. cbn [app] in Htm. rewrite Hpag in Hs, Htm.
  set (p := List.length (promessas (janela w))) in *.
  assert (Hpend : estado p w1 = Pendente).
  { unfold estado. rewrite Hp. apply nth_middle. }
  destruct (aguardar_sem_imagem p ss w1 Hall Hs Hpend)
    as (w2 & Ea & Hs2 & Hp2 & Ht2 & Hdb2 & Hh2).
  assert (Hlt : (p < List.length (promessas (janela w2)))%nat).
  { rewrite Hp2, Hp, length_app. cbn. unfold p. lia. }
  assert (Hpend2 : estado p w2 = Pendente).
  { unfold estado. rewrite Hp2, Hp. apply nth_middle. }
  unfold await. rewrite Hev1, Hev, Ea.
  change (estado p (set_eventos [] w2)) with (estado p w2). rewrite Hpend2.
  unfold esgotar.
  change (temporizadores (janela (set_eventos [] w2)))
    with (temporizadores (janela w2)).
  rewrite Ht2, Htm. cbn [fold_left entregar].
  change (temporizadores (janela (set_eventos [] w2)))
    with (temporizadores (janela w2)).
  rewrite Ht2, Htm.
  destruct (expirar_pending p paginaSampleAcquired
              (set_temporizadores [] (set_eventos [] w2)) Hlt Hpend2)
    as (He & Hs' & Ht' & Hdb' & Hh').
  rewrite He. eexists. split; [reflexivity|].
  rewrite Hs', Hdb', Hh'. cbn. rewrite Hdb2, Hdb, Hh2, Hh.
  repeat split. rewrite <- app_assoc. reflexivity.
Qed.

Lemma samples_without_image_are_ignored_witness :
  exists w',
    (let (promessa, w1) :=
       captureFingerprint
         (set_eventos [ChegaAmostra {| imagem := ""; amostra := "CgoK" |}]
                      mundoInicial) in
     await promessa w1)
    = (Throw tempoEsgotado, w')
    /\ sampleAcquired (janela w') = paginaSampleAcquired
    /\ db w'
       = db (set_eventos [ChegaAmostra {| imagem := ""; amostra := "CgoK" |}]
                         mundoInicial)
    /\ historico w'
       = (historico
            (set_eventos [ChegaAmostra {| imagem := ""; amostra := "CgoK" |}]
                         mundoInicial)
          ++ [FingerprintStatus "Posicione seu dedo no leitor...";
              StatusLine "Posicione seu dedo no leitor..." "info";
              StartCapture; StopCapture])%list.
Proof.
  apply (samples_without_image_are_ignored
           (set_eventos [ChegaAmostra {| imagem := ""; amostra := "CgoK" |}]
                        mundoInicial)
           [{| imagem := ""; amostra := "CgoK" |}]).
  - reflexivity.
  - reflexivity.
  - intros msg r. discriminate.
  - reflexivity.
  - repeat constructor.
Defined.

(** ** A timer that outlives its capture *)

Lemma await_concluir p w :
  await p w = concluir p (aguardar (eventos (ambiente w)) p w).
Proof. reflexivity. Qed.

(** A pending capture whose wrapper is no longer installed: the page's
    handler is in place and only the timer of the capture is left. *)
Lemma aguardar_detached q evs :
  forall w,
    sampleAcquired (janela w) = paginaSampleAcquired ->
    temporizadores (janela w) = [(q, paginaSampleAcquired)] ->
    (q < List.length (promessas (janela w)))%nat ->
    estado q w = Pendente ->
    exists w',
      concluir q (aguardar evs q w) = (Throw tempoEsgotado, w')
      /\ db w' = db w
      /\ sampleAcquired (janela w') = paginaSampleAcquired
      /\ temporizadores (janela w') = [].
Proof.
  induction evs as [|ev evs IH]; intros w Hs Ht Hlt Hp.
  - rewrite aguardar_nil. unfold concluir.
    change (estado q (set_eventos [] w)) with (estado q w). rewrite Hp.
    unfold esgotar.
    change (temporizadores (janela (set_eventos [] w)))
      with (temporizadores (janela w)).
    rewrite Ht. cbn [fold_left entregar].
    change (temporizadores (janela (set_eventos [] w)))
      with (temporizadores (janela w)).
    rewrite Ht.
    destruct (expirar_pending q paginaSampleAcquired
                (set_temporizadores [] (set_eventos [] w)) Hlt Hp)
      as (He & Hs' & Ht' & Hdb' & _).
    rewrite He. eexists. split; [reflexivity|]. auto.
  - cbn [aguardar]. rewrite Hp. destruct ev as [s|].
    + cbn [entregar]. rewrite Hs. cbn [chamar].
      destruct (IH (localStorage_setItem "imageSrc" (imagem s) w)
                   Hs Ht Hlt Hp) as (w' & E & H).
      exists w'. split; [exact E | exact H].
    + cbn [entregar]. rewrite Ht.
      destruct (expirar_pending q paginaSampleAcquired
                  (set_temporizadores [] w) Hlt Hp)
        as (He & Hs' & Ht' & Hdb' & _).
      set (w1 := expirar q paginaSampleAcquired (set_temporizadores [] w)) in *.
      rewrite aguardar_settled by (rewrite He; discriminate).
      unfold concluir.
      change (estado q (set_eventos evs w1)) with (estado q w1). rewrite He.
      change (estado q (set_eventos evs w1)) with (estado q w1). rewrite He.
      eexists. split; [reflexivity|]. auto.
Qed.

(** X6: the timer of a finished capture hits the next one.  The timer that
    a capture arms is never cleared.  When the timer of an earlier capture
    expires while a later capture is pending, the page's handler replaces
    the wrapper of the pending capture: whatever samples arrive afterwards,
    awaiting that capture ends with the timeout error. *)
Theorem stale_timer_detaches_pending_capture w p0 q rest :
  temporizadores (janela w)
  = [(p0, paginaSampleAcquired); (q, paginaSampleAcquired)] ->
  p0 <> q ->
  (q < List.length (promessas (janela w)))%nat ->
  estado q w = Pendente ->
  eventos (ambiente w) = ExpiraTemporizador :: rest ->
  exists w',
    await q w = (Throw tempoEsgotado, w')
    /\ db w' = db w
    /\ sampleAcquired (janela w') = paginaSampleAcquired.
Proof.
  intros Ht Hne Hlt Hp Hev.
  rewrite await_concluir, Hev. cbn [aguardar]. rewrite Hp.
  cbn [entregar]. rewrite Ht.
  set (w0 := set_temporizadores [(q, paginaSampleAcquired)] w).
  unfold expirar, reject.
  set (w1 := stopCapture (set_sampleAcquired paginaSampleAcquired w0)).
  destruct (liquidar_frame p0 (Rejeitada tempoEsgotado) w1)
    as (_ & Hs2 & Ht2 & Hn2 & Hdb2 & _).
  destruct (aguardar_detached q rest
              (liquidar p0 (Rejeitada tempoEsgotado) w1))
    as (w' & E & Hdb & Hs & _).
  - rewrite Hs2. reflexivity.
  - rewrite Ht2. reflexivity.
  - rewrite Hn2. exact Hlt.
  - rewrite estado_liquidar_other by exact Hne. exact Hp.
  - exists w'. split; [exact E|]. split; [|exact Hs].
    rewrite Hdb, Hdb2. reflexivity.
Qed.

Lemma stale_timer_detaches_pending_capture_witness :
  exists w',
    await 1 (snd (captureFingerprint
                    (snd (let (promessa, w1) :=
                            captureFingerprint temporizadorAtrasado in
                          await promessa w1))))
    = (Throw tempoEsgotado, w')
    /\ db w'
       = db (snd (captureFingerprint
                    (snd (let (promessa, w1) :=
                            captureFingerprint temporizadorAtrasado in
                          await promessa w1))))
    /\ sampleAcquired (janela w') = paginaSampleAcquired.
Proof.
  apply (stale_timer_detaches_pending_capture
           (snd (captureFingerprint
                   (snd (let (promessa, w1) :=
                           captureFingerprint temporizadorAtrasado in
                         await promessa w1))))
           0%nat 1%nat [ChegaAmostra (amostraDe "CgoL")]).
  - reflexivity.
  - discriminate.
  - cbn. lia.
  - reflexivity.
  - reflexivity.
Defined.

(** ** Two captures pending at once *)

(** X21: two pending captures end with the same sample.  When a capture was
    started while another one was pending, the wrapper of the second sits
    on the wrapper of the first.  The next sample with an image resolves
    both promises with the same template, and the handler left in place is
    the wrapper of the first capture, not the page's handler. *)
Theorem pending_captures_share_a_sample w p0 p1 s :
  sampleAcquired (janela w)
  = capturaSampleAcquired p1 (capturaSampleAcquired p0 paginaSampleAcquired) ->
  p0 <> p1 ->
  (p0 < List.length (promessas (janela w)))%nat ->
  (p1 < List.length (promessas (janela w)))%nat ->
  estado p0 w = Pendente ->
  estado p1 w = Pendente ->
  imagem s <> "" ->
  estado p0 (entregar (ChegaAmostra s) w) = Resolvida (templateDaAmostra s)
  /\ estado p1 (entregar (ChegaAmostra s) w) = Resolvida (templateDaAmostra s)
  /\ sampleAcquired (janela (entregar (ChegaAmostra s) w))
     = capturaSampleAcquired p0 paginaSampleAcquired
  /\ db (entregar (ChegaAmostra s) w) = db w.
Proof.
  intros Hs Hne Hlt0 Hlt1 Hp0 Hp1 Hi.
  cbn [entregar]. rewrite Hs.
  destruct (chamar_resolves p0 s w Hi Hlt0 Hp0)
    as (Hr0 & Hoth & _ & Hl & _ & Hn & Hdb & _).
  assert (Himg : getItem "imageSrc"
                   (localStorage
                      (janela (chamar (capturaSampleAcquired p0
                                         paginaSampleAcquired) s w)))
                 = Some (imagem s)).
  { rewrite Hl. apply getItem_setItem. }
  rewrite chamar_com_imagem
    by (rewrite Himg; apply truthy_imagem; exact Hi).
  rewrite Himg. fold (templateDaAmostra s).
  set (w0 := chamar (capturaSampleAcquired p0 paginaSampleAcquired) s w) in *.
  set (w1 := stopCapture
               (dispatchFingerprintCaptured (templateDaAmostra s) w0)).
  assert (Hp1' : estado p1 w1 = Pendente).
  { change (estado p1 w0 = Pendente). rewrite Hoth by congruence. exact Hp1. }
  assert (Hlt1' : (p1 < List.length (promessas (janela w1)))%nat).
  { change (p1 < List.length (promessas (janela w0)))%nat. rewrite Hn.
    exact Hlt1. }
  destruct (liquidar_frame p1 (Resolvida (templateDaAmostra s)) w1)
    as (_ & _ & _ & _ & Hdb1 & _).
  unfold resolve. repeat split.
  - change (estado p0 (liquidar p1 (Resolvida (templateDaAmostra s)) w1)
            = Resolvida (templateDaAmostra s)).
    rewrite estado_liquidar_other by congruence. exact Hr0.
  - exact (estado_liquidar p1 _ w1 Hlt1' Hp1').
  - cbn [set_sampleAcquired comJanela db]. rewrite Hdb1. exact Hdb.
Qed.

Lemma pending_captures_share_a_sample_witness :
  estado 0 (entregar (ChegaAmostra (amostraDe "CgoK"))
                     (snd (captureFingerprint capturaPendente)))
  = Resolvida (templateDaAmostra (amostraDe "CgoK"))
  /\ estado 1 (entregar (ChegaAmostra (amostraDe "CgoK"))
                        (snd (captureFingerprint capturaPendente)))
     = Resolvida (templateDaAmostra (amostraDe "CgoK"))
  /\ sampleAcquired
       (janela (entregar (ChegaAmostra (amostraDe "CgoK"))
                         (snd (captureFingerprint capturaPendente))))
     = capturaSampleAcquired 0 paginaSampleAcquired
  /\ db (entregar (ChegaAmostra (amostraDe "CgoK"))
                  (snd (captureFingerprint capturaPendente)))
     = db (snd (captureFingerprint capturaPendente)).
Proof.
  apply (pending_captures_share_a_sample
           (snd (captureFingerprint capturaPendente)) 0%nat 1%nat
           (amostraDe "CgoK")).
  - reflexivity.
  - discriminate.
  - cbn. lia.
  - cbn. lia.
  - reflexivity.
  - reflexivity.
  - discriminate.
Defined.

End CaptureSampleProps.

(** * How the workflows of the controller end *)

Module ControllerOutcomeProps.
Import FingerprintController Frame CaptureFrame ControllerProps
  AttendanceProps EnrollmentStoreProps StoreProps AttendanceOutcomeProps.

(** ** One capture *)

(** X22: how [capturarDigital] ends.  Whether the capture resolves or is
    rejected, [capturarDigital] gives back what the capture gave, unchanged;
    its last two effects are the status line of the outcome and, in the
    [finally] block, the removal of the [scanning] class.  In between only
    the user interface and the reader are touched: the database is left as
    it was. *)
Theorem capturarDigital_outcome w r w' :
  capturarDigital w = (r, w') ->
  r = fst (capturar
             (registrar (Scanning true)
                (registrar
                   (StatusLine "Posicione seu dedo no leitor..." "info") w)))
  /\ db w' = db w
  /\ exists evs,
       historico w'
       = (historico w
          ++ [StatusLine "Posicione seu dedo no leitor..." "info";
              Scanning true]
          ++ evs ++ [statusDaCaptura r; Scanning false])%list
       /\ forallb (fun ev => negb (eventoDoStore ev)
                             && negb (ehComparacao ev)) evs = true.
Proof.
  unfold capturarDigital, tryFinally, tryCatch, bind, updateStatus, efeito,
    ret, throw, capturar.
  set (w0 := registrar (Scanning true)
               (registrar
                  (StatusLine "Posicione seu dedo no leitor..." "info") w)).
  generalize (soInterface_captureFingerprint w0).
  destruct (FingerprintService.captureFingerprint w0) as [p w1].
  cbn [snd]. intros S1.
  generalize (respeita_await p w1).
  destruct (FingerprintService.await p w1) as [[t|e] w2]; intros S2;
    specialize (S2 _ _ eq_refl);
    destruct (soInterface_trans _ _ _ S1 S2) as (Hdb & evs & Hh & Hall);
    intros [= <- <-]; (split; [reflexivity|]); (split; [exact Hdb|]);
    exists evs; (split; [|exact Hall]);
    cbn [historico registrar statusDaCaptura]; rewrite Hh; unfold w0;
    cbn [historico registrar]; rewrite <- !app_assoc; reflexivity.
Qed.

Lemma capturarDigital_outcome_witness :
  fst (capturarDigital doisDedos)
  = fst (capturar
           (registrar (Scanning true)
              (registrar
                 (StatusLine "Posicione seu dedo no leitor..." "info")
                 doisDedos)))
  /\ db (snd (capturarDigital doisDedos)) = db doisDedos
  /\ exists evs,
       historico (snd (capturarDigital doisDedos))
       = (historico doisDedos
          ++ [StatusLine "Posicione seu dedo no leitor..." "info";
              Scanning true]
          ++ evs ++ [statusDaCaptura (fst (capturarDigital doisDedos));
                     Scanning false])%list
       /\ forallb (fun ev => negb (eventoDoStore ev)
                             && negb (ehComparacao ev)) evs = true.
Proof.
  apply (capturarDigital_outcome doisDedos).
  apply surjective_pairing.
Defined.

(** ** The scan of the active employees *)

(** The loop leaves the database as it is, and an employee it returns is
    one of the list that the matcher accepted. *)
Lemma percorrer_cases digitalTemplate fs :
  forall w r w',
    percorrer digitalTemplate fs w = (r, w') ->
    db w' = db w
    /\ forall res,
         r = Return res ->
         (rv_success res = false -> rv_funcionario res = None)
         /\ (rv_success res = true ->
             exists funcionario d verificacao,
               rv_funcionario res = Some funcionario
               /\ In funcionario fs
               /\ digitalCadastrada funcionario = Some d
               /\ FingerprintService.compareFingerprints
                    (Some digitalTemplate) (Some (templateDoFuncionario d))
                  = Return verificacao
               /\ matched verificacao = true
               /\ rv_score res = Some (score verificacao)).
Proof.
  induction fs as [|f fs IH]; intros w r w'.
  - cbn [percorrer]. intros [= <- <-]. split; [reflexivity|].
    intros res [= <-]. cbn. split; [reflexivity | discriminate].
  - cbn [percorrer]. destruct (digitalCadastrada f) as [d|] eqn:Ed.
    + unfold compareFingerprints, bind, efeito, lift.
      fold (templateDoFuncionario d).
      destruct (FingerprintService.compareFingerprints
                  (Some digitalTemplate) (Some (templateDoFuncionario d)))
        as [v|e] eqn:Ev.
      * destruct (matched v) eqn:Em.
        -- intros [= <- <-]. split; [reflexivity|].
           intros res [= <-]. cbn. split; [discriminate|].
           intros _. exists f, d, v. auto 10.
        -- intros E. destruct (IH _ _ _ E) as (Hdb & H).
           split; [exact Hdb|]. intros res Hr.
           destruct (H res Hr) as (H1 & H2). split; [exact H1|].
           intros Hs. destruct (H2 Hs) as (g & d' & v' & Hg & Hin & H').
           exists g, d', v'. split; [exact Hg|]. split; [right; exact Hin|].
           exact H'.
      * intros [= <- <-]. split; [reflexivity|]. discriminate.
    + intros E. destruct (IH _ _ _ E) as (Hdb & H).
      split; [exact Hdb|]. intros res Hr.
      destruct (H res Hr) as (H1 & H2). split; [exact H1|].
      intros Hs. destruct (H2 Hs) as (g & d' & v' & Hg & Hin & H').
      exists g, d', v'. split; [exact Hg|]. split; [right; exact Hin|].
      exact H'.
Qed.

Lemma verificarDigitalComTodos_cases digitalTemplate w :
  exists res w',
    verificarDigitalComTodos digitalTemplate w = (Return res, w')
    /\ db w' = db w
    /\ (rv_success res = false -> rv_funcionario res = None)
    /\ (rv_success res = true ->
        exists funcionario d verificacao,
          rv_funcionario res = Some funcionario
          /\ In funcionario (funcionarios (db w))
          /\ f_ativo funcionario = true
          /\ digitalCadastrada funcionario = Some d
          /\ FingerprintService.compareFingerprints
               (Some digitalTemplate) (Some (templateDoFuncionario d))
             = Return verificacao
          /\ matched verificacao = true
          /\ rv_score res = Some (score verificacao)).
Proof.
  unfold verificarDigitalComTodos, tryCatch, bind.
  destruct (falhas_cases (falhasStore (ambiente w))) as [Hs|(msg & l & Hs)].
  - destruct (buscarTodosFuncionariosAtivos_ok w 0 Hs) as (w1 & E & Hdb).
    rewrite E.
    destruct (filter f_ativo (funcionarios (db w))) as [|f fs] eqn:Ef.
    + eexists _, w1. split; [reflexivity|]. split; [exact Hdb|].
      cbn. split; [reflexivity | discriminate].
    + destruct (percorrer digitalTemplate (f :: fs) w1) as [[res|e] w2] eqn:Ep;
        destruct (percorrer_cases _ _ _ _ _ Ep) as (Hdb2 & H).
      * exists res, w2. split; [reflexivity|]. split; [congruence|].
        destruct (H res eq_refl) as (H1 & H2). split; [exact H1|].
        intros Hsucc.
        destruct (H2 Hsucc) as (g & d & v & Hg & Hin & Hd & Hv & Hm & Hsc).
        rewrite <- Ef in Hin. apply filter_In in Hin.
        exists g, d, v. tauto.
      * eexists _, w2. split; [reflexivity|]. split; [congruence|].
        cbn. split; [reflexivity | discriminate].
  - destruct (buscarTodosFuncionariosAtivos_rejected w msg l Hs)
      as (w1 & E & Hdb).
    rewrite E. eexists _, w1. split; [reflexivity|]. split; [exact Hdb|].
    cbn. split; [reflexivity | discriminate].
Qed.

(** The loop only compares. *)
Lemma percorrer_trace digitalTemplate fs :
  forall w, acrescenta ehComparacao w (snd (percorrer digitalTemplate fs w)).
Proof.
  induction fs as [|f fs IH]; intros w.
  - apply acrescenta_refl.
  - cbn [percorrer]. destruct (digitalCadastrada f) as [d|]; [|apply IH].
    unfold compareFingerprints, bind, efeito, lift.
    destruct (FingerprintService.compareFingerprints _ _) as [v|e].
    + destruct (matched v).
      * apply acrescenta_registrar. reflexivity.
      * eapply acrescenta_trans; [|apply IH].
        apply acrescenta_registrar. reflexivity.
    + apply acrescenta_registrar. reflexivity.
Qed.

(** X23: the scan never throws and names only employees the matcher
    accepted.  [verificarDigitalComTodos] always returns an object; it
    reads the collection [funcionarios] once, then only compares, and
    leaves the database as it is.  When the object says success, the
    employee in it is an active stored employee that carries a fingerprint,
    the comparison of the captured template with that fingerprint returned
    a positive verdict, and the score in the object is the score of that
    comparison.  Without success the object names no employee. *)
Theorem verificarDigitalComTodos_never_throws digitalTemplate w :
  exists res w',
    verificarDigitalComTodos digitalTemplate w = (Return res, w')
    /\ db w' = db w
    /\ (exists evs,
           historico w'
           = (historico w ++ StoreGet Funcionarios :: evs)%list
           /\ forallb ehComparacao evs = true)
    /\ (rv_success res = false -> rv_funcionario res = None)
    /\ (rv_success res = true ->
        exists funcionario d verificacao,
          rv_funcionario res = Some funcionario
          /\ In funcionario (funcionarios (db w))
          /\ f_ativo funcionario = true
          /\ digitalCadastrada funcionario = Some d
          /\ FingerprintService.compareFingerprints
               (Some digitalTemplate) (Some (templateDoFuncionario d))
             = Return verificacao
          /\ matched verificacao = true
          /\ rv_score res = Some (score verificacao)).
Proof.
  destruct (verificarDigitalComTodos_cases digitalTemplate w)
    as (res & w' & E & Hdb & H).
  exists res, w'. split; [exact E|]. split; [exact Hdb|].
  split; [|exact H].
  revert E. unfold verificarDigitalComTodos, tryCatch, bind.
  unfold FirebaseService.buscarTodosFuncionariosAtivos, tryCatch, bind.
  assert (Hrt : exists r w1,
             FirebaseService.roundTrip (StoreGet Funcionarios) w = (r, w1)
             /\ historico w1 = (historico w ++ [StoreGet Funcionarios])%list).
  { destruct (falhas_cases (falhasStore (ambiente w))) as [Hs|(msg & l & Hs)].
    - destruct (roundTrip_ok (StoreGet Funcionarios) w 0 Hs)
        as (w1 & E1 & _ & _ & Hh & _). eauto.
    - destruct (roundTrip_rejected (StoreGet Funcionarios) w msg l Hs)
        as (w1 & E1 & _ & Hh & _). eauto. }
  destruct Hrt as (r & w1 & E1 & Hh). rewrite E1.
  destruct r as [[]|e]; cbn [throw].
  - destruct (filter f_ativo (funcionarios (db w1))) as [|f fs].
    + intros [= _ <-]. exists []. rewrite Hh. split; reflexivity.
    + generalize (percorrer_trace digitalTemplate (f :: fs) w1).
      destruct (percorrer digitalTemplate (f :: fs) w1) as [[res'|e] w2];
        cbn [snd]; intros (evs & Hh2 & Hall); intros [= _ <-];
        exists evs; rewrite Hh2, Hh, <- app_assoc; split;
        reflexivity || exact Hall.
  - intros [= _ <-]. exists []. rewrite Hh. split; reflexivity.
Qed.

(** The loop up to the first stored payload that cannot be compared. *)
Lemma percorrer_aborts digitalTemplate antes funcionario d depois e :
  (forall f, In f antes ->
             comparavel digitalTemplate f
             /\ corresponde digitalTemplate f = false) ->
  digitalCadastrada funcionario = Some d ->
  FingerprintService.compareFingerprints
    (Some digitalTemplate) (Some (templateDoFuncionario d)) = Throw e ->
  forall w,
    exists w',
      percorrer digitalTemplate (antes ++ funcionario :: depois)%list w
      = (Throw e, w')
      /\ db w' = db w.
Proof.
  intros Hantes Hd He. induction antes as [|f fs IH]; intros w.
  - cbn [app percorrer]. rewrite Hd.
    unfold compareFingerprints, bind, efeito, lift.
    fold (templateDoFuncionario d). rewrite He.
    eexists. split; reflexivity.
  - assert (Hfs : forall g, In g fs ->
                    comparavel digitalTemplate g
                    /\ corresponde digitalTemplate g = false)
      by (intros g Hg; apply Hantes; right; exact Hg).
    destruct (Hantes f (or_introl eq_refl)) as (Hc & Hn).
    cbn [app percorrer]. unfold corresponde in Hn.
    destruct (digitalCadastrada f) as [d'|] eqn:Ed.
    + destruct (Hc d' Ed) as (v & Ev).
      unfold compareFingerprints, bind, efeito, lift.
      fold (templateDoFuncionario d'). rewrite Ev in *. rewrite Hn.
      destruct (IH Hfs (registrar
                          (Comparacao digitalTemplate
                             (templateDoFuncionario d')) w))
        as (w' & E & Hdb).
      exists w'. split; [exact E | exact Hdb].
    + apply IH, Hfs.
Qed.

(** X7: a stored payload that is not base64 text ends the scan.  When the
    comparison with an active employee throws and no employee before it, in
    store order, matches, [verificarDigitalComTodos] returns a failure
    with the message of the error: the employees after it are not
    compared, whatever their payloads. *)
Theorem scan_aborts_on_undecodable_payload
        digitalTemplate w antes funcionario d depois e :
  disponivel 1 (falhasStore (ambiente w)) = true ->
  filter f_ativo (funcionarios (db w))
  = (antes ++ funcionario :: depois)%list ->
  (forall f, In f antes ->
             comparavel digitalTemplate f
             /\ corresponde digitalTemplate f = false) ->
  digitalCadastrada funcionario = Some d ->
  FingerprintService.compareFingerprints
    (Some digitalTemplate) (Some (templateDoFuncionario d)) = Throw e ->
  exists w',
    verificarDigitalComTodos digitalTemplate w
    = (Return (verificacaoFalhou e), w')
    /\ db w' = db w.
Proof.
  intros Hs Hf Hantes Hd He.
  destruct (buscarTodosFuncionariosAtivos_ok w 0 Hs) as (w1 & E & Hdb).
  destruct (percorrer_aborts digitalTemplate antes funcionario d depois e
              Hantes Hd He w1) as (w2 & Ep & Hdb2).
  unfold verificarDigitalComTodos, tryCatch, bind. rewrite E, Hf.
  destruct (antes ++ funcionario :: depois)%list as [|g gs] eqn:El.
  - destruct antes; discriminate.
  - rewrite Ep. eexists. split; [reflexivity|]. cbn. congruence.
Qed.

Lemma scan_aborts_on_undecodable_payload_witness :
  exists w',
    verificarDigitalComTodos (templateDe "CgoKCg==") payloadInvalido
    = (Return (verificacaoFalhou InvalidCharacterError), w')
    /\ db w' = db payloadInvalido.
Proof.
  apply (scan_aborts_on_undecodable_payload
           (templateDe "CgoKCg==") payloadInvalido [] eva
           {| formato := "PNG"; dados := "Cg-K";
              digital_dataCadastro := serverTimestamp |}
           [carla; davi] InvalidCharacterError).
  - reflexivity.
  - reflexivity.
  - intros f [].
  - reflexivity.
  - reflexivity.
Defined.

(** ** Enrollment *)

(** X24: the enrollment workflow never throws and writes at most one
    employee.  The controller's [cadastrarFuncionario] always returns an
    object; the attendance records are never touched.  A failure comes with
    an error message and leaves the database as it was.  A success means
    that exactly one active employee was appended, with the profile given,
    the identifier returned and the template of the first of the two
    captures, and that no active employee had that payload before. *)
Theorem cadastrarFuncionario_never_throws dadosFuncionario w :
  exists res w',
    FingerprintController.cadastrarFuncionario dadosFuncionario w
    = (Return res, w')
    /\ registros (db w') = registros (db w)
    /\ (rc_success res = false ->
        db w' = db w /\ rc_funcionarioId res = None /\ rc_error res <> None)
    /\ (rc_success res = true ->
        exists novo t1 w1,
          capturarDigital
            (registrar
               (StatusLine "Iniciando cadastro de nova digital..." "info") w)
          = (Return t1, w1)
          /\ funcionarios (db w') = (funcionarios (db w) ++ [novo])%list
          /\ rc_funcionarioId res = Some (f_id novo)
          /\ f_nome novo = nome dadosFuncionario
          /\ f_ativo novo = true
          /\ f_digital novo
             = Some {| formato := format t1; dados := raw t1;
                       digital_dataCadastro := serverTimestamp |}
          /\ find (digitalExata (raw t1)) (funcionarios (db w)) = None).
Proof.
  unfold FingerprintController.cadastrarFuncionario, tryCatch, bind,
    updateStatus, efeito, pausa, ret, throw, compareFingerprints, lift,
    bind, efeito.
  set (w0 := registrar
               (StatusLine "Iniciando cadastro de nova digital..." "info") w).
  destruct (capturarDigital w0) as [[t1|e1] w1] eqn:E1;
    destruct (respeita_capturarDigital _ _ _ E1) as [D1 _];
    [|eexists _, _; split; [reflexivity|]; cbn; rewrite D1;
      repeat split; discriminate].
  match goal with
  | |- context [capturarDigital ?x] =>
      destruct (capturarDigital x) as [[t2|e2] w2] eqn:E2;
        destruct (respeita_capturarDigital _ _ _ E2) as [D2 _]
  end;
    [|eexists _, _; split; [reflexivity|]; cbn; rewrite D2; cbn; rewrite D1;
      repeat split; discriminate].
  assert (Hdb2 : db w2 = db w) by (rewrite D2; cbn; rewrite D1; reflexivity).
  destruct (FingerprintService.compareFingerprints (Some t1) (Some t2))
    as [v|e] eqn:Ec;
    [|eexists _, _; split; [reflexivity|]; cbn; rewrite Hdb2;
      repeat split; discriminate].
  cbv beta iota zeta.
  destruct (matched v); cbn [negb];
    [|eexists _, _; split; [reflexivity|]; cbn; rewrite Hdb2;
      repeat split; discriminate].
  match goal with
  | |- context [FirebaseService.cadastrarFuncionario ?d ?t ?x] =>
      destruct (FirebaseService.cadastrarFuncionario d t x)
        as [[id|e] w4] eqn:E4;
        destruct (cadastrarFuncionario_cases _ _ _ _ _ E4)
          as [(e' & He' & Hdb4)
             |(novo & Hr & Hnone & Hfs & Hrs & Hat & Hn & Hd)];
        try discriminate
  end.
  - injection Hr as Hid. eexists _, _. split; [reflexivity|].
    cbn [db registrar rc_success rc_funcionarioId rc_error] in *.
    split; [congruence|]. split; [discriminate|]. intros _.
    exists novo, t1, w1. split; [reflexivity|].
    rewrite Hfs, Hdb2, Hid. rewrite Hdb2 in Hnone. auto 10.
  - eexists _, _. split; [reflexivity|].
    cbn [db registrar rc_success rc_funcionarioId rc_error] in *.
    rewrite Hdb4, Hdb2. repeat split; discriminate.
Qed.

(** X25: the enrollment workflow reports a duplicate.  When the two captures
    match, an active employee already has the payload of the first capture
    and the store answers, the controller's [cadastrarFuncionario] returns
    a failure with the message of the duplicate and writes nothing. *)
Theorem cadastrarFuncionario_duplicate_reported
        dadosFuncionario w t1 w1 t2 w2 verificacao f :
  capturarDigital
    (registrar (StatusLine "Iniciando cadastro de nova digital..." "info") w)
  = (Return t1, w1) ->
  capturarDigital
    (registrar
       (StatusLine "Por favor, posicione o dedo novamente para confirmar..."
                   "info") w1)
  = (Return t2, w2) ->
  FingerprintService.compareFingerprints (Some t1) (Some t2)
  = Return verificacao ->
  matched verificacao = true ->
  find (digitalExata (raw t1)) (funcionarios (db w)) = Some f ->
  disponivel 1 (falhasStore (ambiente w2)) = true ->
  exists w',
    FingerprintController.cadastrarFuncionario dadosFuncionario w
    = (Return jaCadastrada, w')
    /\ db w' = db w.
Proof.
  intros H1 H2 Hc Hm Hf Hs.
  destruct (respeita_capturarDigital _ _ _ H1) as [D1 _].
  destruct (respeita_capturarDigital _ _ _ H2) as [D2 _].
  assert (Hdb2 : db w2 = db w) by (rewrite D2; cbn; rewrite D1; reflexivity).
  destruct (cadastrarFuncionario_duplicate dadosFuncionario t1
              (registrar (Comparacao t1 t2) w2) f)
    as (e & w3 & E3 & Hdb3 & He).
  { cbn [db registrar]. rewrite Hdb2. exact Hf. }
  specialize (He Hs). subst e.
  unfold FingerprintController.cadastrarFuncionario, tryCatch, bind,
    updateStatus, efeito, pausa, ret, throw, compareFingerprints, lift,
    bind, efeito.
  rewrite H1, H2, Hc, Hm. cbn [negb]. rewrite E3.
  eexists. split; [reflexivity|].
  cbn [db registrar] in *. congruence.
Qed.

Lemma cadastrarFuncionario_duplicate_reported_witness :
  exists w',
    FingerprintController.cadastrarFuncionario perfilBruno
      (snd (FingerprintController.cadastrarFuncionario perfilAna cenario))
    = (Return jaCadastrada, w')
    /\ db w'
       = db (snd (FingerprintController.cadastrarFuncionario
                    perfilAna cenario)).
Proof.
  eapply (cadastrarFuncionario_duplicate_reported perfilBruno
            (snd (FingerprintController.cadastrarFuncionario
                    perfilAna cenario))).
  - vm_compute. reflexivity.
  - vm_compute. reflexivity.
  - vm_compute. reflexivity.
  - reflexivity.
  - vm_compute. reflexivity.
  - vm_compute. reflexivity.
Defined.

(** The enrollment in the store of a payload that no active employee
    has, with a store that answers the lookup and the write. *)
Lemma cadastrarFuncionario_ok funcionario digitalTemplate w :
  find (digitalExata (raw digitalTemplate)) (funcionarios (db w)) = None ->
  disponivel 2 (falhasStore (ambiente w)) = true ->
  exists novo w',
    FirebaseService.cadastrarFuncionario funcionario digitalTemplate w
    = (Return (f_id novo), w')
    /\ f_id novo = proximoId (db w)
    /\ funcionarios (db w') = (funcionarios (db w) ++ [novo])%list
    /\ registros (db w') = registros (db w)
    /\ f_nome novo = nome funcionario
    /\ f_ativo novo = true
    /\ f_digital novo
       = Some {| formato := format digitalTemplate;
                 dados := raw digitalTemplate;
                 digital_dataCadastro := serverTimestamp |}.
Proof.
  intros Hnone Hs.
  destruct (buscarFuncionarioPorDigitalExata_ok (raw digitalTemplate) w 1 Hs)
    as (w1 & E1 & Hdb1 & _ & _ & _ & _ & _ & Hs1).
  destruct (roundTrip_ok (StoreAdd Funcionarios) w1 0 Hs1)
    as (w2 & E2 & Hdb2 & _).
  unfold FirebaseService.cadastrarFuncionario, tryCatch at 1, bind.
  rewrite E1, Hnone. unfold FirebaseService.addFuncionario, bind.
  rewrite E2. rewrite Hdb2, Hdb1.
  match goal with
  | |- context [@cons Funcionario ?novo nil] => exists novo
  end.
  eexists. split; [reflexivity|]. cbn. rewrite Hdb2, Hdb1. repeat split.
Qed.

(** X29: two matching captures of a new fingerprint enroll the employee.
    When both captures succeed and match, no active employee has the
    payload of the first capture and the store answers the lookup and the
    write, the controller's [cadastrarFuncionario] returns a success with
    the identifier of the new document; that document was appended with
    the profile given and the template of the first capture, and nothing
    else in the database changed. *)
Theorem cadastrarFuncionario_enrolls
        dadosFuncionario w t1 w1 t2 w2 verificacao :
  capturarDigital
    (registrar (StatusLine "Iniciando cadastro de nova digital..." "info") w)
  = (Return t1, w1) ->
  capturarDigital
    (registrar
       (StatusLine "Por favor, posicione o dedo novamente para confirmar..."
                   "info") w1)
  = (Return t2, w2) ->
  FingerprintService.compareFingerprints (Some t1) (Some t2)
  = Return verificacao ->
  matched verificacao = true ->
  find (digitalExata (raw t1)) (funcionarios (db w)) = None ->
  disponivel 2 (falhasStore (ambiente w2)) = true ->
  exists novo w',
    FingerprintController.cadastrarFuncionario dadosFuncionario w
    = (Return (cadastrado (f_id novo)), w')
    /\ funcionarios (db w') = (funcionarios (db w) ++ [novo])%list
    /\ registros (db w') = registros (db w)
    /\ f_id novo = proximoId (db w)
    /\ f_nome novo = nome dadosFuncionario
    /\ f_ativo novo = true
    /\ f_digital novo
       = Some {| formato := format t1; dados := raw t1;
                 digital_dataCadastro := serverTimestamp |}.
Proof.
  intros H1 H2 Hc Hm Hf Hs.
  destruct (respeita_capturarDigital _ _ _ H1) as [D1 _].
  destruct (respeita_capturarDigital _ _ _ H2) as [D2 _].
  assert (Hdb2 : db w2 = db w) by (rewrite D2; cbn; rewrite D1; reflexivity).
  destruct (cadastrarFuncionario_ok dadosFuncionario t1
              (registrar (Comparacao t1 t2) w2))
    as (novo & w3 & E3 & Hid & Hfs & Hrs & Hn & Hat & Hd).
  { cbn [db registrar]. rewrite Hdb2. exact Hf. }
  { exact Hs. }
  unfold FingerprintController.cadastrarFuncionario, tryCatch, bind,
    updateStatus, efeito, pausa, ret, throw, compareFingerprints, lift,
    bind, efeito.
  rewrite H1, H2, Hc, Hm. cbn [negb]. rewrite E3.
  exists novo. eexists. split; [reflexivity|].
  cbn [db registrar] in *. rewrite Hfs, Hrs, Hid, Hdb2. auto 10.
Qed.

Lemma cadastrarFuncionario_enrolls_witness :
  exists novo w',
    FingerprintController.cadastrarFuncionario perfilAna cenario
    = (Return (cadastrado (f_id novo)), w')
    /\ funcionarios (db w') = (funcionarios (db cenario) ++ [novo])%list
    /\ registros (db w') = registros (db cenario)
    /\ f_id novo = proximoId (db cenario)
    /\ f_nome novo = nome perfilAna
    /\ f_ativo novo = true
    /\ f_digital novo
       = Some {| formato := format (templateDe "ChQe");
                 dados := raw (templateDe "ChQe");
                 digital_dataCadastro := serverTimestamp |}.
Proof.
  eapply (cadastrarFuncionario_enrolls perfilAna cenario
            (templateDe "ChQe")).
  - vm_compute. reflexivity.
  - vm_compute. reflexivity.
  - vm_compute. reflexivity.
  - reflexivity.
  - reflexivity.
  - vm_compute. reflexivity.
Defined.

(** ** Identification *)

Lemma buscarFuncionarioPorDigitalExata_cases digitalRaw w r w' :
  FirebaseService.buscarFuncionarioPorDigitalExata digitalRaw w = (r, w') ->
  db w' = db w
  /\ forall o, r = Return o ->
               o = find (digitalExata digitalRaw) (funcionarios (db w)).
Proof.
  intros E.
  destruct (falhas_cases (falhasStore (ambiente w))) as [Hs|(msg & l & Hs)].
  - destruct (buscarFuncionarioPorDigitalExata_ok digitalRaw w 0 Hs)
      as (w1 & E1 & Hdb & _).
    rewrite E1 in E. injection E as <- <-. split; [exact Hdb|].
    intros o [= <-]. reflexivity.
  - destruct (buscarFuncionarioPorDigitalExata_rejected digitalRaw w msg l Hs)
      as (w1 & E1 & Hdb).
    rewrite E1 in E. injection E as <- <-. split; [exact Hdb|].
    discriminate.
Qed.

(** The end of an identification, once the employee is known. *)
Lemma registrarAutenticacao_cases funcionario w r w' :
  registrarAutenticacao funcionario w = (r, w') ->
  funcionarios (db w') = funcionarios (db w)
  /\ match r with
     | Throw _ => db w' = db w
     | Return res =>
         ra_success res = true
         /\ ra_funcionario res = Some funcionario
         /\ exists ponto novo,
              ra_registro res = Some ponto
              /\ registros (db w') = (registros (db w) ++ [novo])%list
              /\ r_funcionarioId novo = f_id funcionario
              /\ r_id novo = p_id ponto
              /\ r_tipo novo = p_tipo ponto
              /\ r_horario novo = p_horario ponto
     end.
Proof.
  unfold registrarAutenticacao, bind, updateStatus, efeito, ret.
  destruct (FirebaseService.registrarPonto (f_id funcionario)
              (f_nome funcionario) w) as [[ponto|e] w1] eqn:EP;
    destruct (registrarPonto_cases _ _ _ _ _ EP)
      as [(e' & He' & Hdb)
         |(ponto' & novo & Hr & _ & Hrs & Hfs & Hid & Hf & Ht & Hh)];
    try discriminate; intros [= <- <-].
  - injection Hr as <-. split; [exact Hfs|].
    split; [reflexivity|]. split; [reflexivity|].
    exists ponto, novo. cbn [db registrar ra_registro]. auto 10.
  - split; [congruence | exact Hdb].
Qed.

(** X26: the identification workflow never throws and writes at most one
    record.  [autenticarFuncionario] always returns an object; the
    employees are never touched.  A failure names no employee and leaves
    the database as it was.  A success names an active stored employee and
    means that exactly one attendance record was appended, for that
    employee, with the identifier, type and time of the record returned. *)
Theorem autenticarFuncionario_never_throws w :
  exists res w',
    autenticarFuncionario w = (Return res, w')
    /\ funcionarios (db w') = funcionarios (db w)
    /\ (ra_success res = false ->
        db w' = db w /\ ra_funcionario res = None /\ ra_registro res = None)
    /\ (ra_success res = true ->
        exists funcionario ponto novo,
          ra_funcionario res = Some funcionario
          /\ In funcionario (funcionarios (db w))
          /\ f_ativo funcionario = true
          /\ ra_registro res = Some ponto
          /\ registros (db w') = (registros (db w) ++ [novo])%list
          /\ r_funcionarioId novo = f_id funcionario
          /\ r_id novo = p_id ponto
          /\ r_tipo novo = p_tipo ponto
          /\ r_horario novo = p_horario ponto).
Proof.
  assert (Hfim : forall funcionario w2,
             db w2 = db w ->
             In funcionario (funcionarios (db w)) ->
             f_ativo funcionario = true ->
             exists res w',
               match registrarAutenticacao funcionario w2 with
               | (Return a, w') => (Return a, w')
               | (Throw e, w') => erroNaAutenticacao e w'
               end = (Return res, w')
               /\ funcionarios (db w') = funcionarios (db w)
               /\ (ra_success res = false ->
                   db w' = db w /\ ra_funcionario res = None
                   /\ ra_registro res = None)
               /\ (ra_success res = true ->
                   exists funcionario ponto novo,
                     ra_funcionario res = Some funcionario
                     /\ In funcionario (funcionarios (db w))
                     /\ f_ativo funcionario = true
                     /\ ra_registro res = Some ponto
                     /\ registros (db w') = (registros (db w) ++ [novo])%list
                     /\ r_funcionarioId novo = f_id funcionario
                     /\ r_id novo = p_id ponto
                     /\ r_tipo novo = p_tipo ponto
                     /\ r_horario novo = p_horario ponto)).
  { intros f w2 Hdb2 Hin Hat.
    destruct (registrarAutenticacao f w2) as [[res|e] w3] eqn:ER;
      destruct (registrarAutenticacao_cases _ _ _ _ ER) as (Hfs & H).
    - destruct H as (Hs & Hf & ponto & novo & Hp & Hrs & H).
      exists res, w3. split; [reflexivity|].
      split; [congruence|]. split; [congruence|]. intros _.
      exists f, ponto, novo. rewrite Hrs, Hdb2. auto 10.
    - unfold erroNaAutenticacao, bind, updateStatus, efeito, ret.
      eexists _, _. split; [reflexivity|].
      cbn [db registrar ra_success ra_funcionario ra_registro].
      rewrite H, Hdb2. repeat split; discriminate. }
  unfold autenticarFuncionario, tryCatch, bind.
  unfold updateStatus at 1, efeito at 1.
  set (w0 := registrar
               (StatusLine "Posicione seu dedo para autenticação..." "info")
               w).
  destruct (capturarDigital w0) as [[t|e1] w1] eqn:E1;
    destruct (respeita_capturarDigital _ _ _ E1) as [D1 _].
  2:{ unfold erroNaAutenticacao, bind, updateStatus, efeito, ret.
      eexists _, _. split; [reflexivity|].
      cbn [db registrar ra_success ra_funcionario ra_registro].
      rewrite D1. repeat split; discriminate. }
  assert (Hdb1 : db w1 = db w) by exact D1.
  destruct (FirebaseService.buscarFuncionarioPorDigitalExata (raw t) w1)
    as [[o|e2] w2] eqn:E2;
    destruct (buscarFuncionarioPorDigitalExata_cases _ _ _ _ E2)
      as (Hdb2 & Ho).
  2:{ unfold erroNaAutenticacao, bind, updateStatus, efeito, ret.
      eexists _, _. split; [reflexivity|].
      cbn [db registrar ra_success ra_funcionario ra_registro].
      rewrite Hdb2, Hdb1. repeat split; discriminate. }
  specialize (Ho o eq_refl). rewrite Hdb1 in Ho.
  destruct o as [f|].
  - symmetry in Ho. apply find_some in Ho. destruct Ho as (Hin & Hex).
    unfold digitalExata in Hex. apply andb_prop in Hex.
    apply Hfim; [congruence | exact Hin | tauto].
  - destruct (verificarDigitalComTodos_cases t w2)
      as (resv & w3 & Ev & Hdb3 & Hno & Hyes).
    rewrite Ev.
    destruct (rv_success resv) eqn:Esucc.
    + destruct (Hyes eq_refl) as (f & d & v & Hf & Hin & Hat & _).
      rewrite Hf. rewrite Hdb2, Hdb1 in Hin.
      apply Hfim; [congruence | exact Hin | exact Hat].
    + unfold updateStatus, efeito, ret.
      eexists _, _. split; [reflexivity|].
      cbn [db registrar ra_success ra_funcionario ra_registro].
      rewrite Hdb3, Hdb2, Hdb1. repeat split; discriminate.
Qed.

(** ** A capture that fails *)

(** X28: a failed capture is reported and the store is not reached.  When
    the capture of an identification, or the first or the second capture of
    an enrollment, is rejected, the workflow returns a failure that carries
    the message of the rejection, shows it in the status line with the
    prefix of the workflow, and ends there: the database is untouched and
    nothing but the user interface and the reader was used. *)
Theorem capture_failure_is_reported dadosFuncionario w e w1 :
  (capturarDigital
     (registrar (StatusLine "Posicione seu dedo para autenticação..." "info")
                w)
   = (Throw e, w1) ->
   autenticarFuncionario w
   = (Return (autenticacaoFalhou e),
      registrar (StatusLine ("Erro na autenticação: " ++ message e) "error")
                w1)
   /\ soInterface w (snd (autenticarFuncionario w)))
  /\ (capturarDigital
        (registrar
           (StatusLine "Iniciando cadastro de nova digital..." "info") w)
      = (Throw e, w1) ->
      FingerprintController.cadastrarFuncionario dadosFuncionario w
      = (Return (cadastroFalhou e),
         registrar (StatusLine ("Erro no cadastro: " ++ message e) "error")
                   w1)
      /\ soInterface w
           (snd (FingerprintController.cadastrarFuncionario
                   dadosFuncionario w)))
  /\ (forall t1 w0,
         capturarDigital
           (registrar
              (StatusLine "Iniciando cadastro de nova digital..." "info") w)
         = (Return t1, w0) ->
         capturarDigital
           (registrar
              (StatusLine
                 "Por favor, posicione o dedo novamente para confirmar..."
                 "info") w0)
         = (Throw e, w1) ->
         FingerprintController.cadastrarFuncionario dadosFuncionario w
         = (Return (cadastroFalhou e),
            registrar
              (StatusLine ("Erro no cadastro: " ++ message e) "error")
              (registrar
                 (StatusLine ("Erro na confirmação: " ++ message e) "error")
                 w1))
         /\ soInterface w
              (snd (FingerprintController.cadastrarFuncionario
                      dadosFuncionario w))).
Proof.
  split; [|split].
  - intros H1. generalize (respeita_capturarDigital _ _ _ H1). intros S1.
    assert (E : autenticarFuncionario w
                = (Return (autenticacaoFalhou e),
                   registrar
                     (StatusLine ("Erro na autenticação: " ++ message e)
                                 "error") w1)).
    { unfold autenticarFuncionario, tryCatch, bind.
      unfold updateStatus at 1, efeito at 1. rewrite H1. reflexivity. }
    split; [exact E|]. rewrite E. cbn [snd].
    eapply soInterface_trans; [|apply soInterface_registrar; reflexivity].
    eapply soInterface_trans; [|exact S1].
    apply soInterface_registrar; reflexivity.
  - intros H1. generalize (respeita_capturarDigital _ _ _ H1). intros S1.
    assert (E : FingerprintController.cadastrarFuncionario dadosFuncionario w
                = (Return (cadastroFalhou e),
                   registrar
                     (StatusLine ("Erro no cadastro: " ++ message e) "error")
                     w1)).
    { unfold FingerprintController.cadastrarFuncionario, tryCatch, bind.
      unfold updateStatus at 1, efeito at 1. rewrite H1. reflexivity. }
    split; [exact E|]. rewrite E. cbn [snd].
    eapply soInterface_trans; [|apply soInterface_registrar; reflexivity].
    eapply soInterface_trans; [|exact S1].
    apply soInterface_registrar; reflexivity.
  - intros t1 w0 H1 H2.
    generalize (respeita_capturarDigital _ _ _ H1). intros S1.
    generalize (respeita_capturarDigital _ _ _ H2). intros S2.
    assert (E : FingerprintController.cadastrarFuncionario dadosFuncionario w
                = (Return (cadastroFalhou e),
                   registrar
                     (StatusLine ("Erro no cadastro: " ++ message e) "error")
                     (registrar
                        (StatusLine ("Erro na confirmação: " ++ message e)
                                    "error") w1))).
    { unfold FingerprintController.cadastrarFuncionario, tryCatch, bind,
        updateStatus, efeito, pausa, ret, throw.
      rewrite H1, H2. reflexivity. }
    split; [exact E|]. rewrite E. cbn [snd].
    eapply soInterface_trans; [|apply soInterface_registrar; reflexivity].
    eapply soInterface_trans; [|apply soInterface_registrar; reflexivity].
    eapply soInterface_trans; [|exact S2].
    eapply soInterface_trans; [|apply soInterface_registrar; reflexivity].
    eapply soInterface_trans; [|exact S1].
    apply soInterface_registrar; reflexivity.
Qed.

Lemma capture_failure_is_reported_witness :
  autenticarFuncionario mundoInicial
  = (Return (autenticacaoFalhou tempoEsgotado),
     registrar
       (StatusLine ("Erro na autenticação: " ++ message tempoEsgotado)
                   "error")
       (snd (capturarDigital
               (registrar
                  (StatusLine "Posicione seu dedo para autenticação..."
                              "info") mundoInicial))))
  /\ soInterface mundoInicial (snd (autenticarFuncionario mundoInicial)).
Proof.
  apply (proj1 (capture_failure_is_reported perfilAna mundoInicial
                  tempoEsgotado
                  (snd (capturarDigital
                          (registrar
                             (StatusLine
                                "Posicione seu dedo para autenticação..."
                                "info") mundoInicial))))).
  vm_compute. reflexivity.
Defined.

End ControllerOutcomeProps.

(** * The status line of the page *)

Module StatusElementProps.
Import FingerprintController.

Lemma classeDoTipo_status type : classeDeStatus (classeDoTipo type) = true.
Proof.
  unfold classeDoTipo.
  destruct (String.eqb type "success"); [reflexivity|].
  destruct (String.eqb type "error"); reflexivity.
Qed.

Lemma contains_limpas token l :
  classeDeStatus token = true ->
  DOMTokenList.contains token
    (filter (fun c => negb (classeDeStatus c)) l) = false.
Proof.
  intros Ht. unfold DOMTokenList.contains.
  induction l as [|c l IH]; [reflexivity|].
  cbn [filter]. destruct (classeDeStatus c) eqn:Ec; cbn [negb]; [exact IH|].
  cbn [existsb]. rewrite IH, orb_false_r.
  destruct (String.eqb_spec token c) as [->|]; [congruence | reflexivity].
Qed.

Lemma filter_limpas l :
  filter classeDeStatus (filter (fun c => negb (classeDeStatus c)) l) = []
  /\ filter (fun c => negb (classeDeStatus c))
            (filter (fun c => negb (classeDeStatus c)) l)
     = filter (fun c => negb (classeDeStatus c)) l.
Proof.
  induction l as [|c l [IH1 IH2]]; [split; reflexivity|].
  cbn [filter]. destruct (classeDeStatus c) eqn:Ec; cbn [negb];
    [split; assumption|].
  cbn [filter]. rewrite Ec. cbn [negb]. rewrite IH1, IH2. split; reflexivity.
Qed.

Lemma updateStatus_statusElement_eq message type el :
  updateStatus_statusElement message type (Some el)
  = Some {| textContent := message;
            classList :=
              (filter (fun c => negb (classeDeStatus c)) (classList el)
               ++ [classeDoTipo type])%list |}.
Proof.
  unfold updateStatus_statusElement, classeDoTipo.
  change (DOMTokenList.remove ["text-success"; "text-danger"; "text-muted"]
            (classList el))
    with (filter (fun c => negb (classeDeStatus c)) (classList el)).
  destruct (String.eqb type "success");
    [|destruct (String.eqb type "error")];
    unfold DOMTokenList.add; rewrite contains_limpas by reflexivity;
    reflexivity.
Qed.

(** X27: the status line carries one status class.  After [updateStatus] the
    element shows the message and has exactly one of the classes
    [text-success], [text-danger] and [text-muted]: the first for the type
    [success], the second for [error] and the third for every other type;
    its other classes are kept.  Only the last call counts: the element
    after two calls is the element after the second alone.  A page without
    the element is left alone. *)
Theorem updateStatus_one_status_class message type el :
  exists el',
    updateStatus_statusElement message type (Some el) = Some el'
    /\ textContent el' = message
    /\ filter classeDeStatus (classList el') = [classeDoTipo type]
    /\ filter (fun c => negb (classeDeStatus c)) (classList el')
       = filter (fun c => negb (classeDeStatus c)) (classList el)
    /\ (forall message2 type2,
           updateStatus_statusElement message2 type2 (Some el')
           = updateStatus_statusElement message2 type2 (Some el))
    /\ updateStatus_statusElement message type None = None.
Proof.
  rewrite updateStatus_statusElement_eq. eexists. split; [reflexivity|].
  cbn [textContent classList].
  destruct (filter_limpas (classList el)) as (F1 & F2).
  assert (Hk : filter (fun c => negb (classeDeStatus c))
                 (filter (fun c => negb (classeDeStatus c)) (classList el)
                  ++ [classeDoTipo type])
               = filter (fun c => negb (classeDeStatus c)) (classList el)).
  { rewrite filter_app, F2. cbn [filter].
    rewrite classeDoTipo_status. cbn [negb]. apply app_nil_r. }
  split; [reflexivity|]. split.
  { rewrite filter_app, F1. cbn [filter]. rewrite classeDoTipo_status.
    reflexivity. }
  split; [exact Hk|]. split; [|reflexivity].
  intros message2 type2. rewrite !updateStatus_statusElement_eq.
  cbn [classList]. rewrite Hk. reflexivity.
Qed.

End StatusElementProps.
